(** * Rama chat backend: realtime session and fan-out engine

    A shallow embedding of
      - [src/services/notificationService.js]
      - [src/controllers/messageController.js]
      - [src/sockets/chatSocket.js]
      - the cache client of [config/redis.js]
    The MongoDB collections are finite maps keyed by [_id]; the handlers
    are written in a state-and-exception monad over one [World] record, so
    that every [await] of the source is one bind and every [try]/[catch]
    is one [try_catch]. *)

From stdpp Require Import gmap strings list fin_maps sorting.
From Stdlib Require Import ZArith Lia Ascii.

Open Scope Z_scope.

(** ** Data model *)

(** A MongoDB [ObjectId]; a wall-clock reading in milliseconds since the
    epoch ([Date.now()], [new Date()]); a socket.io connection id. *)
Abbreviation ObjectId := positive.
Abbreviation Timestamp := Z.
Abbreviation SocketId := positive.
Abbreviation FileRef := string.

Inductive Role := member | manager | admin.

#[global] Instance Role_eq_dec : EqDecision Role.
Proof. solve_decision. Defined.

Module Notification.
Record t := mk {
  type : string;
  title : string;
  message : string;
  groupId : option ObjectId;
  groupName : string;
  senderId : option ObjectId;
  senderUsername : option string;
  createdAt : Timestamp
}.
End Notification.

Module User.
Record t := mk {
  username : string;
  role : Role;
  groupId : option ObjectId;
  isOnline : bool;
  lastSeen : option Timestamp;
  groupJoinedAt : option Timestamp;
  notifications : list Notification.t
}.

Definition set_presence (online : bool) (seen : Timestamp) (u : t) : t :=
  {| username := username u; role := role u; groupId := groupId u;
     isOnline := online; lastSeen := Some seen;
     groupJoinedAt := groupJoinedAt u; notifications := notifications u |}.

Definition set_notifications (ns : list Notification.t) (u : t) : t :=
  {| username := username u; role := role u; groupId := groupId u;
     isOnline := isOnline u; lastSeen := lastSeen u;
     groupJoinedAt := groupJoinedAt u; notifications := ns |}.
End User.

Module Group.
Record t := mk {
  name : string;
  region : string;
  users : list ObjectId;
  managers : list ObjectId
}.
End Group.

Module Message.
Record Edited := mkEdited { isEdited : bool; editedAt : option Timestamp }.
Record Deleted := mkDeleted {
  isDeleted : bool;
  deletedBy : option ObjectId;
  deletedAt : option Timestamp
}.

(** The delivery-tracking fields ([deliveredTo], [seenBy], [status]) are
    touched by [markAsDelivered] and [markAsSeen] only and are left out. *)
Record t := mk {
  senderId : ObjectId;
  groupId : option ObjectId;
  text : string;
  file : option FileRef;
  tags : list string;
  forwardedFrom : option ObjectId;
  forwardedToGroups : list ObjectId;
  edited : Edited;
  deleted : Deleted;
  createdAt : Timestamp
}.

Definition notEdited : Edited := mkEdited false None.
Definition notDeleted : Deleted := mkDeleted false None None.

Definition set_content (txt : string) (tgs : list string) (e : Edited) (m : t) : t :=
  {| senderId := senderId m; groupId := groupId m; text := txt; file := file m;
     tags := tgs; forwardedFrom := forwardedFrom m;
     forwardedToGroups := forwardedToGroups m; edited := e;
     deleted := deleted m; createdAt := createdAt m |}.

Definition set_deleted (d : Deleted) (m : t) : t :=
  {| senderId := senderId m; groupId := groupId m; text := text m; file := file m;
     tags := tags m; forwardedFrom := forwardedFrom m;
     forwardedToGroups := forwardedToGroups m; edited := edited m;
     deleted := d; createdAt := createdAt m |}.
End Message.

(** The delivery-tracking fields of a message document, kept beside
    [Message.t] under the same [_id]: the users a message was delivered to,
    the users who have seen it, and its [status]. *)
Module Tracking.
Record t := mk {
  deliveredTo : list ObjectId;
  seenBy : list ObjectId;
  status : string
}.
End Tracking.

(** ** Broadcast router: rooms, targets and emitted events *)

(** [user:<id>], [group:<id>] and [admin:room].  A group room is named by
    string interpolation, so [group:undefined] is a room too: [RGroup None]. *)
Inductive Room :=
| RUser (u : ObjectId)
| RGroup (g : option ObjectId)
| RAdmin.

#[global] Instance Room_eq_dec : EqDecision Room.
Proof. solve_decision. Defined.

Inductive Target :=
| ToRoom (r : Room)                        (* io.to(room).emit *)
| ToRoomExcept (r : Room) (s : SocketId)   (* socket.to(room).emit *)
| ToSocket (s : SocketId)                  (* socket.emit *)
| ToAll.                                   (* io.emit *)

(** What [.populate('senderId', 'username email').populate('groupId',
    'name region').lean()] yields: the stored record with its two references
    resolved, [None] where the referenced document does not exist. *)
Record Populated := mkPopulated {
  p_id : ObjectId;
  p_doc : Message.t;
  p_sender : option string;
  p_group : option (string * string)
}.

Inductive Payload :=
| PPresence (userId : ObjectId) (username : string) (isOnline : bool)
    (lastSeen timestamp : option Timestamp)
| PMessage (m : option Populated)
| PForwarded (m : option Populated) (originalGroup : option ObjectId * string)
| PDeletedEvt (messageId : ObjectId) (deletedBy : option (ObjectId * string))
| PNotification (n : Notification.t).

Record Emit := mkEmit { target : Target; event : string; payload : Payload }.

(** ** Failures *)

Inductive Error :=
| ValidationError
| MongoNetworkError
| MongoServerError
| MongoRegexError
| RedisCommandError
| TypeError (msg : string).

(** [error.message], as the HTTP handlers report it. *)
Definition errorMessage (e : Error) : string :=
  match e with
  | ValidationError => "Message validation failed"
  | MongoNetworkError => "connection to the database failed"
  | MongoServerError => "invalid aggregation stage argument"
  | MongoRegexError => "Regular expression is invalid"
  | RedisCommandError => "cache command failed"
  | TypeError msg => msg
  end.

Inductive Result (A : Type) :=
| Ok (a : A)
| Throw (e : Error).
Arguments Ok {A} a.
Arguments Throw {A} e.

Inductive LogLine :=
| LogError (msg : string) (e : Error)
| LogInfo (msg : string) (n : nat).

(** ** The cache tier *)

Inductive RedisCmd := GET | SETEX | DEL.

(** The only keys in use are [notifications:<userId>], so an entry is keyed
    by the user id; it holds the expiry instant and the JSON-encoded list,
    kept decoded.  [rfail] names the commands the server currently rejects
    (a connection that is down rejects all three, a read-only replica
    rejects [SETEX] and [DEL]). *)
Record RedisState := mkRedis {
  entries : gmap ObjectId (Timestamp * list Notification.t);
  rtime : Timestamp;
  rfail : RedisCmd -> bool
}.

Record RedisClient := mkClient {
  redis_get : ObjectId -> RedisState -> Result (option (list Notification.t)) * RedisState;
  redis_setex : ObjectId -> Z -> list Notification.t -> RedisState -> Result unit * RedisState;
  redis_del : ObjectId -> RedisState -> Result nat * RedisState
}.

(** [config/redis.js] as it is in the repository: a development mock that
    stores nothing, finds nothing and never fails. *)
Definition mockRedis : RedisClient :=
  {| redis_get := fun _ s => (Ok None, s);
     redis_setex := fun _ _ _ s => (Ok tt, s);
     redis_del := fun _ s => (Ok 1%nat, s) |}.

Definition set_entries (e : gmap ObjectId (Timestamp * list Notification.t))
  (s : RedisState) : RedisState :=
  {| entries := e; rtime := rtime s; rfail := rfail s |}.

(** Modelled from the spec: the Redis server the mock stands in for is not
    part of the repository; section 6 asks for a TTL-capable key/value cache
    offering get, set-with-expiry and delete.  [SETEX key seconds value]
    stores the value until [seconds] have passed on the server's clock. *)
Definition ttl_get (k : ObjectId) (s : RedisState)
  : Result (option (list Notification.t)) * RedisState :=
  if rfail s GET then (Throw RedisCommandError, s)
  else match entries s !! k with
       | Some (expiry, v) =>
           if rtime s <? expiry then (Ok (Some v), s)
           else (Ok None, set_entries (delete k (entries s)) s)
       | None => (Ok None, s)
       end.

Definition ttl_setex (k : ObjectId) (seconds : Z) (v : list Notification.t)
  (s : RedisState) : Result unit * RedisState :=
  if rfail s SETEX then (Throw RedisCommandError, s)
  else (Ok tt, set_entries (<[k := (rtime s + seconds * 1000, v)]> (entries s)) s).

Definition ttl_del (k : ObjectId) (s : RedisState) : Result nat * RedisState :=
  if rfail s DEL then (Throw RedisCommandError, s)
  else (Ok (match entries s !! k with Some _ => 1%nat | None => 0%nat end),
        set_entries (delete k (entries s)) s).

Definition ttlRedis : RedisClient :=
  {| redis_get := ttl_get; redis_setex := ttl_setex; redis_del := ttl_del |}.

(** Time passing on the cache server. *)
Definition elapse (ms : Z) (s : RedisState) : RedisState :=
  {| entries := entries s; rtime := rtime s + ms; rfail := rfail s |}.

(** ** The world a handler runs in *)

(** The three collections, whether the store can be reached (for the whole
    of a handler's run), the cache, whether [app.set('io', io)] has been
    done, the room memberships and the open connections, everything emitted
    and logged so far, and the wall clock: [clock k] is what the [k]-th
    reading returns and [reads] counts the readings taken. *)
Record World := mkWorld {
  messages : gmap ObjectId Message.t;
  groups : gmap ObjectId Group.t;
  users : gmap ObjectId User.t;
  mongoUp : bool;
  redis : RedisState;
  io : bool;
  rooms : list (SocketId * Room);
  connected : list SocketId;
  emitted : list Emit;
  console : list LogLine;
  clock : nat -> Timestamp;
  reads : nat
}.

Definition set_messages (x : gmap ObjectId Message.t) (w : World) : World :=
  {| messages := x; groups := groups w; users := users w; mongoUp := mongoUp w;
     redis := redis w; io := io w; rooms := rooms w; connected := connected w;
     emitted := emitted w; console := console w; clock := clock w; reads := reads w |}.

Definition set_users (x : gmap ObjectId User.t) (w : World) : World :=
  {| messages := messages w; groups := groups w; users := x; mongoUp := mongoUp w;
     redis := redis w; io := io w; rooms := rooms w; connected := connected w;
     emitted := emitted w; console := console w; clock := clock w; reads := reads w |}.

Definition set_redis (x : RedisState) (w : World) : World :=
  {| messages := messages w; groups := groups w; users := users w; mongoUp := mongoUp w;
     redis := x; io := io w; rooms := rooms w; connected := connected w;
     emitted := emitted w; console := console w; clock := clock w; reads := reads w |}.

Definition set_rooms (x : list (SocketId * Room)) (w : World) : World :=
  {| messages := messages w; groups := groups w; users := users w; mongoUp := mongoUp w;
     redis := redis w; io := io w; rooms := x; connected := connected w;
     emitted := emitted w; console := console w; clock := clock w; reads := reads w |}.

Definition set_connected (x : list SocketId) (w : World) : World :=
  {| messages := messages w; groups := groups w; users := users w; mongoUp := mongoUp w;
     redis := redis w; io := io w; rooms := rooms w; connected := x;
     emitted := emitted w; console := console w; clock := clock w; reads := reads w |}.

Definition set_emitted (x : list Emit) (w : World) : World :=
  {| messages := messages w; groups := groups w; users := users w; mongoUp := mongoUp w;
     redis := redis w; io := io w; rooms := rooms w; connected := connected w;
     emitted := x; console := console w; clock := clock w; reads := reads w |}.

Definition set_console (x : list LogLine) (w : World) : World :=
  {| messages := messages w; groups := groups w; users := users w; mongoUp := mongoUp w;
     redis := redis w; io := io w; rooms := rooms w; connected := connected w;
     emitted := emitted w; console := x; clock := clock w; reads := reads w |}.

Definition set_reads (x : nat) (w : World) : World :=
  {| messages := messages w; groups := groups w; users := users w; mongoUp := mongoUp w;
     redis := redis w; io := io w; rooms := rooms w; connected := connected w;
     emitted := emitted w; console := console w; clock := clock w; reads := x |}.

(** ** State and exception monad *)

Definition M (A : Type) : Type := World -> Result A * World.

Definition ret {A} (a : A) : M A := fun w => (Ok a, w).
Definition throw {A} (e : Error) : M A := fun w => (Throw e, w).

(** A rejected [await] propagates; what was written before it stays written. *)
Definition bind {A B} (m : M A) (f : A -> M B) : M B :=
  fun w => match m w with
           | (Ok a, w') => f a w'
           | (Throw e, w') => (Throw e, w')
           end.

Definition try_catch {A} (m : M A) (handler : Error -> M A) : M A :=
  fun w => match m w with
           | (Ok a, w') => (Ok a, w')
           | (Throw e, w') => handler e w'
           end.

Notation "x <- m ;; k" := (bind m (fun x => k))
  (at level 100, m at next level, right associativity).
Notation "m ;;; k" := (bind m (fun _ => k))
  (at level 100, right associativity).

Fixpoint forEach {A} (l : list A) (body : A -> M unit) : M unit :=
  match l with
  | [] => ret tt
  | x :: l' => body x ;;; forEach l' body
  end.

Definition when (b : bool) (m : M unit) : M unit := if b then m else ret tt.

(** ** Collaborators: clock, console, broadcast router *)

(** [Date.now()] and [new Date()]: the [reads w]-th reading of the wall
    clock.  Two readings taken around an [await] are two different readings. *)
Definition Date_now : M Timestamp :=
  fun w => (Ok (clock w (reads w)), set_reads (S (reads w)) w).

(** Only [console.error] and the sweep's report are kept; the diagnostic
    [console.log] lines have no effect on any state below. *)
Definition console_error (msg : string) (e : Error) : M unit :=
  fun w => (Ok tt, set_console (console w ++ [LogError msg e]) w).

Definition console_log (msg : string) (n : nat) : M unit :=
  fun w => (Ok tt, set_console (console w ++ [LogInfo msg n]) w).

Definition emit (t : Target) (ev : string) (p : Payload) : M unit :=
  fun w => (Ok tt, set_emitted (emitted w ++ [mkEmit t ev p]) w).

Definition socket_join (s : SocketId) (r : Room) : M unit :=
  fun w => (Ok tt, set_rooms (rooms w ++ [(s, r)]) w).

Definition socket_disconnect (s : SocketId) : M unit :=
  fun w => (Ok tt, set_connected (filter (fun s' => s' <> s) (connected w)) w).

Definition socket_leave (s : SocketId) (r : Room) : M unit :=
  fun w => (Ok tt, set_rooms (filter (fun x => x <> (s, r)) (rooms w)) w).

(** [await Promise.all(promises)] over promises started in list order:
    every one of them runs to its end, and the whole rejects, with the
    first rejection of the list, when one of them did. *)
Fixpoint Promise_all {A} (promises : list (M A)) : M (list A) :=
  match promises with
  | [] => ret []
  | p :: rest =>
      fun w =>
        match p w with
        | (Ok a, w1) =>
            match Promise_all rest w1 with
            | (Ok l, w2) => (Ok (a :: l), w2)
            | (Throw e, w2) => (Throw e, w2)
            end
        | (Throw e, w1) => (Throw e, (Promise_all rest w1).2)
        end
  end.

(** ** Collaborators: the document store *)

(** Every query is a suspension point that rejects when the store cannot be
    reached. *)
Definition query {A} (f : World -> A * World) : M A :=
  fun w => if mongoUp w then (let (a, w') := f w in (Ok a, w'))
           else (Throw MongoNetworkError, w).

Definition Message_findById (id : ObjectId) : M (option Message.t) :=
  query (fun w => (messages w !! id, w)).

Definition Group_findById (id : option ObjectId) : M (option Group.t) :=
  query (fun w => (id ≫= fun g => groups w !! g, w)).

Definition Group_find (P : ObjectId -> Group.t -> bool) : M (list (ObjectId * Group.t)) :=
  query (fun w => (filter (fun kv => P kv.1 kv.2 = true) (map_to_list (groups w)), w)).

Definition User_findById (id : ObjectId) : M (option User.t) :=
  query (fun w => (users w !! id, w)).

(** [findByIdAndUpdate] on an id that matches no document updates nothing
    and resolves to [null]; it does not reject. *)
Definition User_findByIdAndUpdate (id : ObjectId) (f : User.t -> User.t) : M unit :=
  query (fun w => (tt, set_users (alter f id (users w)) w)).

Definition Message_updateMany (P : Message.t -> bool) (f : Message.t -> Message.t)
  : M unit :=
  query (fun w =>
    (tt, set_messages ((fun m => if P m then f m else m) <$> messages w) w)).

Definition Message_deleteMany (P : Message.t -> bool) : M nat :=
  query (fun w =>
    let kept := filter (fun kv : ObjectId * Message.t => P kv.2 = false) (messages w) in
    ((size (messages w) - size kept)%nat, set_messages kept w)).

(** A value put into a filter at a path that stores an [ObjectId].  A route
    parameter arrives as the string of an id.  [find], [countDocuments] and
    [updateMany] cast their filter by the schema, which turns the string
    into the id; [aggregate] sends its pipeline as it is written, and there
    a string equals no stored [ObjectId]. *)
Inductive FilterId :=
| AsString (id : ObjectId)
| AsObjectId (id : ObjectId).

Definition castFilter (v : FilterId) : FilterId :=
  match v with
  | AsString id | AsObjectId id => AsObjectId id
  end.

Definition equalsStored (v : FilterId) (stored : option ObjectId) : bool :=
  match v with
  | AsObjectId id => bool_decide (stored = Some id)
  | AsString _ => false
  end.

(** The pipeline of [getMessages]: [$match], [$sort] newest first, [$skip],
    [$limit], the two [$lookup] joins (which add fields and drop no
    document, and are not kept here), and a final [$sort] oldest first.  The
    server rejects a negative [$skip] and a [$limit] that is not positive.
    No value of the pipeline is cast: [P] is the [$match] as written. *)
Definition newerFirst (a b : ObjectId * Message.t) : Prop :=
  Message.createdAt b.2 <= Message.createdAt a.2.
Definition olderFirst (a b : ObjectId * Message.t) : Prop :=
  Message.createdAt a.2 <= Message.createdAt b.2.

#[global] Instance newerFirst_dec : RelDecision newerFirst.
Proof. intros a b. unfold newerFirst. apply _. Defined.
#[global] Instance olderFirst_dec : RelDecision olderFirst.
Proof. intros a b. unfold olderFirst. apply _. Defined.

Definition Message_aggregate (P : Message.t -> bool) (skip limit : Z)
  : M (list (ObjectId * Message.t)) :=
  fun w =>
    if mongoUp w then
      if (skip <? 0) || (limit <=? 0) then (Throw MongoServerError, w)
      else
        let matched := filter (fun kv => P kv.2 = true) (map_to_list (messages w)) in
        let page := take (Z.to_nat limit)
                         (drop (Z.to_nat skip) (merge_sort newerFirst matched)) in
        (Ok (merge_sort olderFirst page), w)
    else (Throw MongoNetworkError, w).

Definition Message_countDocuments (P : Message.t -> bool) : M nat :=
  query (fun w =>
    (size (filter (fun kv : ObjectId * Message.t => P kv.2 = true) (messages w)), w)).

(** [Message.find(q).sort({ createdAt: -1 }).skip(skip).limit(limit)] for a
    [skip] and a [limit] that are not negative; a [limit] of 0 is no limit.
    The two [populate] calls add fields and drop no document, and are not
    kept here. *)
Definition Message_find (P : Message.t -> bool) (skip limit : nat)
  : M (list (ObjectId * Message.t)) :=
  query (fun w =>
    let matched := filter (fun kv => P kv.2 = true) (map_to_list (messages w)) in
    let rest := drop skip (merge_sort newerFirst matched) in
    (match limit with O => rest | S _ => take limit rest end, w)).

(** The server parses a filter before it runs the query, and rejects the
    query when the filter holds a [$regex] it cannot compile. *)
Definition parsed {A} (accepted : bool) (q : M A) : M A :=
  if accepted then q
  else fun w => if mongoUp w then (Throw MongoRegexError, w)
                else (Throw MongoNetworkError, w).

(** [Message.updateMany] as [markAsDelivered] and [markAsSeen] use it, on
    the tracking fields: the filter reads the [_id] and the fields, the
    update rewrites the fields of every match. *)
Definition Tracking_updateMany (P : ObjectId -> Tracking.t -> bool)
  (f : Tracking.t -> Tracking.t) (w : World) (tracked : gmap ObjectId Tracking.t)
  : Result unit * gmap ObjectId Tracking.t :=
  if mongoUp w
  then (Ok tt, map_imap (fun id t => Some (if P id t then f t else t)) tracked)
  else (Throw MongoNetworkError, tracked).

(** [.populate(...)] resolves the sender and the group of a message. *)
Definition populate (w : World) (id : ObjectId) (m : Message.t) : Populated :=
  {| p_id := id; p_doc := m;
     p_sender := User.username <$> users w !! Message.senderId m;
     p_group := Message.groupId m ≫= fun g =>
                (fun d => (Group.name d, Group.region d)) <$> groups w !! g |}.

Definition Message_findById_populated (id : ObjectId) : M (option Populated) :=
  query (fun w => (populate w id <$> messages w !! id, w)).

(** [.populate('deleted.deletedBy', 'username')]: the deleting user of the
    stored tombstone, resolved; [None] inside when there is none. *)
Definition Message_findById_deleter (id : ObjectId)
  : M (option (option (ObjectId * string))) :=
  query (fun w =>
    ((fun m => Message.deletedBy (Message.deleted m) ≫= fun u =>
               (fun d => (u, User.username d)) <$> users w !! u)
     <$> messages w !! id, w)).

(** [.populate('users managers')] on a group: references to users that no
    longer exist are dropped from the populated arrays. *)
Definition populateMembers (w : World) (g : Group.t) : list ObjectId :=
  filter (fun u => is_Some (users w !! u)) (Group.users g ++ Group.managers g).

Definition Group_findById_populated (id : option ObjectId)
  : M (option (Group.t * list ObjectId)) :=
  query (fun w =>
    ((fun g => (g, populateMembers w g)) <$> (id ≫= fun g => groups w !! g), w)).

(** A new document with the schema's defaults, before the [timestamps]
    option stamps its [createdAt]. *)
Definition newMessage (sender : ObjectId) (group : option ObjectId) (txt : string)
  (f : option FileRef) (tgs : list string) (fwdFrom : option ObjectId)
  (fwdTo : list ObjectId) (created : Timestamp) : Message.t :=
  Message.mk sender group txt f tgs fwdFrom fwdTo
             Message.notEdited Message.notDeleted created.

Section Schema.

(** The Mongoose schema of [models/Message.js] is missing from the code at
    hand; its validators are a parameter.  [create] and [save] run them,
    [updateMany] does not. *)
Variable schemaValid : Message.t -> bool.

(** The driver draws an [_id] no stored document has. *)
Definition Message_create (doc : Timestamp -> Message.t) : M (ObjectId * Message.t) :=
  now <- Date_now ;;
  if schemaValid (doc now)
  then query (fun w =>
         let id := fresh (dom (messages w)) in
         ((id, doc now), set_messages (<[id := doc now]> (messages w)) w))
  else throw ValidationError.

Definition Message_save (id : ObjectId) (m : Message.t) : M unit :=
  if schemaValid m
  then query (fun w => (tt, set_messages (<[id := m]> (messages w)) w))
  else throw ValidationError.

End Schema.

(** ** services/notificationService.js *)

Module NotificationService.
Section WithClient.

Variable client : RedisClient.

Definition redisGet (k : ObjectId) : M (option (list Notification.t)) :=
  fun w => let (r, s) := redis_get client k (redis w) in (r, set_redis s w).

Definition redisSetex (k : ObjectId) (seconds : Z) (v : list Notification.t) : M unit :=
  fun w => let (r, s) := redis_setex client k seconds v (redis w) in (r, set_redis s w).

(** [if (notifications.length > 100) notifications.splice(0, length - 100)] *)
Definition capped (l : list Notification.t) : list Notification.t :=
  if (100 <? length l)%nat then drop (length l - 100) l else l.

Definition sendNotification (userId : ObjectId) (notification : Notification.t)
  : M bool :=
  try_catch
    (User_findByIdAndUpdate userId
       (fun u => User.set_notifications (User.notifications u ++ [notification]) u) ;;;
     userNotifications <- redisGet userId ;;
     let notifications := default [] userNotifications ++ [notification] in
     redisSetex userId (24 * 60 * 60) (capped notifications) ;;;
     ret true)
    (fun error =>
     console_error "Error sending notification:" error ;;;
     ret false).

Definition getNotifications (userId : ObjectId) : M (list Notification.t) :=
  try_catch
    (redisNotifications <- redisGet userId ;;
     match redisNotifications with
     | Some cached => ret cached
     | None =>
         user <- User_findById userId ;;
         match user with
         | Some u =>
             redisSetex userId (24 * 60 * 60) (User.notifications u) ;;;
             ret (User.notifications u)
         | None => ret []
         end
     end)
    (fun error =>
     console_error "Error getting notifications:" error ;;;
     ret []).

Definition redisDel (k : ObjectId) : M nat :=
  fun w => let (r, s) := redis_del client k (redis w) in (r, set_redis s w).

Definition markNotificationsAsSeen (userId : ObjectId) : M bool :=
  try_catch
    (redisDel userId ;;;
     User_findByIdAndUpdate userId (User.set_notifications []) ;;;
     ret true)
    (fun error =>
     console_error "Error marking notifications as seen:" error ;;;
     ret false).

Definition clearNotifications (userId : ObjectId) : M bool :=
  try_catch
    (redisDel userId ;;;
     User_findByIdAndUpdate userId (User.set_notifications []) ;;;
     ret true)
    (fun error =>
     console_error "Error clearing notifications:" error ;;;
     ret false).

End WithClient.
End NotificationService.

(** ** controllers/messageController.js *)

Module MessageController.

(** [req.user], as the authentication middleware leaves it. *)
Record ReqUser := mkReqUser { _id : ObjectId; role : Role }.

Inductive Body :=
| BError (error : string)
| BSent (data : option Populated)
| BMessages (messages : list (ObjectId * Message.t)) (page limit : Z)
    (total : nat) (hasMore : bool) (nextCursor : option Timestamp)
| BUpdated (id : ObjectId) (message : Message.t)
| BDone (message : string).

Record Response := mkResponse { status : nat; body : Body }.

(** [req.app.get('io')] *)
Definition app_get_io : M bool := fun w => (Ok (io w), w).

(** [!text] for a body field that is a string or absent. *)
Definition noText (text : option string) : bool :=
  match text with
  | None => true
  | Some s => bool_decide (s = EmptyString)
  end.

(** [!file], likewise: an absent file and the empty string are both no
    file. *)
Definition noFile (file : option FileRef) : bool :=
  match file with
  | None => true
  | Some f => bool_decide (f = EmptyString)
  end.

Definition tombstoned (m : Message.t) : bool :=
  Message.isDeleted (Message.deleted m).

Definition occursIn (x : ObjectId) (l : list ObjectId) : bool :=
  bool_decide (x ∈ l).

(** What [searchMessages] and [forwardMessage] answer with. *)
Inductive SearchBody :=
| SFound (found : list (ObjectId * Message.t)) (page : positive) (limit total : nat)
    (pages : option nat)
| SError (error : string).

Inductive ForwardBody :=
| FForwarded (message : string) (forwardedTo : nat)
| FError (error : string).

Record Answer (B : Type) := mkAnswer { code : nat; json : B }.
Arguments mkAnswer {B} code json.
Arguments code {B} a.
Arguments json {B} a.

Section Handlers.

(** [utils/parser.js] and [models/Message.js] are missing from the code at
    hand; what they export is a parameter. *)
Variable extractTags : string -> list string.
Variable schemaValid : Message.t -> bool.

(** [{ 'deleted.isDeleted': true, 'deleted.deletedAt': { $lt: cutoff } }];
    a tombstone without a date matches no [$lt]. *)
Definition expired (cutoff : Timestamp) (m : Message.t) : bool :=
  tombstoned m &&
  match Message.deletedAt (Message.deleted m) with
  | Some t => t <? cutoff
  | None => false
  end.

Definition cleanupDeletedMessages : M unit :=
  try_catch
    (now <- Date_now ;;
     let twentyFourHoursAgo := now - 24 * 60 * 60 * 1000 in
     deletedCount <- Message_deleteMany (expired twentyFourHoursAgo) ;;
     when (0 <? deletedCount)%nat
          (console_log "Cleaned up permanently deleted messages" deletedCount))
    (fun error => console_error "Error cleaning up deleted messages:" error).

Definition sendMessage (user : ReqUser) (text : option string)
  (groupId : option ObjectId) (file : option FileRef) : M Response :=
  try_catch
    (if noText text && noFile file
     then ret (mkResponse 400 (BError "Message text or file is required"))
     else match groupId with
     | None => ret (mkResponse 400 (BError "Group ID is required"))
     | Some gid =>
     group <- Group_findById (Some gid) ;;
     match group with
     | None => ret (mkResponse 404 (BError "Group not found"))
     | Some g =>
     let isMember := occursIn (_id user) (Group.users g)
                     || occursIn (_id user) (Group.managers g) in
     if negb isMember
     then ret (mkResponse 403 (BError "You are not a member of this group"))
     else
       created <- Message_create schemaValid
         (newMessage (_id user) (Some gid) (default EmptyString text)
                     (if noFile file then None else file)
                     (extractTags (default EmptyString text)) None []) ;;
       populatedMessage <- Message_findById_populated created.1 ;;
       attached <- app_get_io ;;
       when attached
         (emit (ToRoom (RGroup (Some gid))) "message:new" (PMessage populatedMessage)) ;;;
       ret (mkResponse 201 (BSent populatedMessage))
     end end)
    (fun error =>
     console_error "Send message error:" error ;;;
     ret (mkResponse 500 (BError (errorMessage error)))).

(** The [query] object of [getMessages], which is both the [$match] stage
    of the pipeline and the filter of the count. *)
Definition listingQuery (groupId : FilterId) (floor : Timestamp)
  (before : option Timestamp) (m : Message.t) : bool :=
  equalsStored groupId (Message.groupId m)
  && negb (tombstoned m)
  && (floor <=? Message.createdAt m)
  && match before with
     | Some b => Message.createdAt m <? b
     | None => true
     end.

(** [groupId] is [req.params.groupId], the string of an id: [findById] and
    [countDocuments] cast it, the pipeline of [aggregate] holds it as it
    came. *)
Definition getMessages (user : ReqUser) (groupId : ObjectId) (page limit : Z)
  (before : option Timestamp) : M Response :=
  try_catch
    (let skip := (page - 1) * limit in
     group <- Group_findById (Some groupId) ;;
     match group with
     | None => ret (mkResponse 404 (BError "Group not found"))
     | Some g =>
     let isMember := occursIn (_id user) (Group.users g)
                     || occursIn (_id user) (Group.managers g) in
     if negb isMember
     then ret (mkResponse 403 (BError "Not authorized to view messages"))
     else
       found <- User_findById (_id user) ;;
       match found with
       | None => throw (TypeError "Cannot read properties of null (reading 'groupJoinedAt')")
       | Some u =>
       floor <- match User.groupJoinedAt u with
                | Some userJoinedAt => ret userJoinedAt
                | None => now <- Date_now ;; ret (now - 7 * 24 * 60 * 60 * 1000)
                end ;;
       let query (groupId : FilterId) := listingQuery groupId floor before in
       messages <- Message_aggregate (query (AsString groupId)) skip limit ;;
       totalCount <- Message_countDocuments (query (castFilter (AsString groupId))) ;;
       ret (mkResponse 200
              (BMessages messages page limit totalCount
                 (skip + Z.of_nat (length messages) <? Z.of_nat totalCount)
                 ((fun kv => Message.createdAt kv.2) <$> last messages)))
       end
     end)
    (fun error =>
     console_error "Error fetching messages:" error ;;;
     ret (mkResponse 500 (BError (errorMessage error)))).

Definition isForwardOf (messageId : ObjectId) (m : Message.t) : bool :=
  bool_decide (Message.forwardedFrom m = Some messageId).

Definition editMessage (user : ReqUser) (messageId : ObjectId) (text : string)
  : M Response :=
  try_catch
    (found <- Message_findById messageId ;;
     match found with
     | None => ret (mkResponse 404 (BError "Message not found"))
     | Some message =>
     if negb (bool_decide (Message.senderId message = _id user))
     then ret (mkResponse 403 (BError "Not authorized to edit this message"))
     else
       now <- Date_now ;;
       let editTimeLimit := 15 * 60 * 1000 in
       if editTimeLimit <? now - Message.createdAt message
       then ret (mkResponse 400 (BError "Message too old to edit"))
       else
         editedAt <- Date_now ;;
         let message' :=
           Message.set_content text (extractTags text)
             (Message.mkEdited true (Some editedAt)) message in
         Message_save schemaValid messageId message' ;;;
         match Message.forwardedFrom message' with
         | None =>
             copiedAt <- Date_now ;;
             Message_updateMany (isForwardOf messageId)
               (Message.set_content text (extractTags text)
                  (Message.mkEdited true (Some copiedAt)))
         | Some _ => ret tt
         end ;;;
         populatedMessage <- Message_findById_populated messageId ;;
         attached <- app_get_io ;;
         when attached
           (emit (ToRoom (RGroup (Message.groupId message'))) "message:edited"
                 (PMessage populatedMessage)) ;;;
         ret (mkResponse 200 (BUpdated messageId message'))
     end)
    (fun error => ret (mkResponse 500 (BError (errorMessage error)))).

Definition canDelete (user : ReqUser) (message : Message.t) : bool :=
  bool_decide (Message.senderId message = _id user)
  || bool_decide (role user = admin)
  || bool_decide (role user = manager).

Definition deleteMessage (user : ReqUser) (messageId : ObjectId) : M Response :=
  try_catch
    (found <- Message_findById messageId ;;
     match found with
     | None => ret (mkResponse 404 (BError "Message not found"))
     | Some message =>
     if negb (canDelete user message)
     then ret (mkResponse 403 (BError "Not authorized to delete this message"))
     else
       deletedAt <- Date_now ;;
       let message' :=
         Message.set_deleted
           (Message.mkDeleted true (Some (_id user)) (Some deletedAt)) message in
       Message_save schemaValid messageId message' ;;;
       match Message.forwardedFrom message' with
       | None =>
           copiedAt <- Date_now ;;
           Message_updateMany (isForwardOf messageId)
             (Message.set_deleted
                (Message.mkDeleted true (Some (_id user)) (Some copiedAt)))
       | Some _ => ret tt
       end ;;;
       populatedMessage <- Message_findById_deleter messageId ;;
       match populatedMessage with
       | None => throw (TypeError "Cannot read properties of null (reading 'deleted')")
       | Some deletedBy =>
       attached <- app_get_io ;;
       when attached
         (emit (ToRoom (RGroup (Message.groupId message'))) "message:deleted"
               (PDeletedEvt messageId deletedBy)) ;;;
       ret (mkResponse 200 (BDone "Message deleted successfully"))
       end
     end)
    (fun error => ret (mkResponse 500 (BError (errorMessage error)))).

(** The regular-expression engine of the store is not part of the
    repository: [regexValid q] says whether the server compiles the pattern
    [q], and [regexTest q text] whether a pattern it compiles matches
    somewhere in [text] regardless of case. *)
Variable regexValid : string -> bool.
Variable regexTest : string -> string -> bool.

(** [q] goes into the filter as [$regex] unless it is absent or empty. *)
Definition patternAccepted (q : option string) : bool :=
  noText q || regexValid (default EmptyString q).

(** The filter [searchMessages] builds from its query string. *)
Definition searchQuery (q : option string) (groupId : option ObjectId)
  (startDate endDate : option Timestamp) (m : Message.t) : bool :=
  negb (tombstoned m)
  && match groupId with
     | Some g => bool_decide (Message.groupId m = Some g)
     | None => true
     end
  && (if noText q then true else regexTest (default EmptyString q) (Message.text m))
  && match startDate with
     | Some s => s <=? Message.createdAt m
     | None => true
     end
  && match endDate with
     | Some e => Message.createdAt m <=? e
     | None => true
     end.

(** [Math.ceil(total / limit)]; with a [limit] of 0 the quotient is
    [Infinity] or [NaN], which JSON writes as [null]. *)
Definition pageCount (total limit : nat) : option nat :=
  match limit with
  | O => None
  | S _ => Some ((total + limit - 1) / limit)%nat
  end.

(** For a [page] of at least 1 and a [limit] that is not negative, and for
    a group id and dates that parse. *)
Definition searchMessages (q : option string) (groupId : option ObjectId)
  (startDate endDate : option Timestamp) (page : positive) (limit : nat)
  : M (Answer SearchBody) :=
  try_catch
    (let skip := ((Pos.to_nat page - 1) * limit)%nat in
     let criteria := searchQuery q groupId startDate endDate in
     found <- parsed (patternAccepted q) (Message_find criteria skip limit) ;;
     total <- parsed (patternAccepted q) (Message_countDocuments criteria) ;;
     ret (mkAnswer 200 (SFound found page limit total (pageCount total limit))))
    (fun error => ret (mkAnswer 500 (SError (errorMessage error)))).

(** A document emitted as [create] returned it: its references are ids,
    nothing is resolved. *)
Definition asCreated (created : ObjectId * Message.t) : Populated :=
  mkPopulated created.1 created.2 None None.

(** [`[Forwarded] ${originalMessage.text}`] *)
Definition forwardedText (text : string) : string := "[Forwarded] " +:+ text.

Definition forwardMessage (user : ReqUser) (messageId : ObjectId)
  (groupIds : list ObjectId) : M (Answer ForwardBody) :=
  try_catch
    (found <- Message_findById messageId ;;
     match found with
     | None => ret (mkAnswer 404 (FError "Message not found"))
     | Some originalMessage =>
     targetGroups <- Group_find (fun g _ => bool_decide (g ∈ groupIds)) ;;
     forwardedMessages <-
       Promise_all
         ((fun group : ObjectId * Group.t =>
             Message_create schemaValid
               (newMessage (_id user) (Some group.1)
                  (forwardedText (Message.text originalMessage))
                  (Message.file originalMessage) (Message.tags originalMessage)
                  (Some messageId) []))
          <$> targetGroups) ;;
     attached <- app_get_io ;;
     when attached
       (forEach forwardedMessages (fun msg =>
          emit (ToRoom (RGroup (Message.groupId msg.2))) "message:new"
               (PMessage (Some (asCreated msg))))) ;;;
     ret (mkAnswer 200
            (FForwarded "Message forwarded successfully" (length targetGroups)))
     end)
    (fun error => ret (mkAnswer 500 (FError (errorMessage error)))).

(** [{ _id: { $in: messageIds }, deliveredTo: { $ne: userId } }] with
    [{ $push: { deliveredTo: userId }, $set: { status: 'delivered' } }];
    [$ne] on an array field matches when no element equals the value. *)
Definition markAsDelivered (user : ReqUser) (messageIds : list ObjectId)
  (w : World) (tracked : gmap ObjectId Tracking.t)
  : Response * gmap ObjectId Tracking.t :=
  match Tracking_updateMany
          (fun id t => occursIn id messageIds
                       && negb (occursIn (_id user) (Tracking.deliveredTo t)))
          (fun t => Tracking.mk (Tracking.deliveredTo t ++ [_id user])
                                (Tracking.seenBy t) "delivered")
          w tracked with
  | (Ok _, tracked') => (mkResponse 200 (BDone "Messages marked as delivered"), tracked')
  | (Throw error, tracked') => (mkResponse 500 (BError (errorMessage error)), tracked')
  end.

Definition markAsSeen (user : ReqUser) (messageIds : list ObjectId)
  (w : World) (tracked : gmap ObjectId Tracking.t)
  : Response * gmap ObjectId Tracking.t :=
  match Tracking_updateMany
          (fun id t => occursIn id messageIds
                       && negb (occursIn (_id user) (Tracking.seenBy t)))
          (fun t => Tracking.mk (Tracking.deliveredTo t)
                                (Tracking.seenBy t ++ [_id user]) "seen")
          w tracked with
  | (Ok _, tracked') => (mkResponse 200 (BDone "Messages marked as seen"), tracked')
  | (Throw error, tracked') => (mkResponse 500 (BError (errorMessage error)), tracked')
  end.

End Handlers.
End MessageController.

(** ** sockets/chatSocket.js *)

Module ChatSocket.

(** A connection that passed the [io.use] token check: the middleware has
    set [socket.userId] to the subject of the verified token. *)
Record Socket := mkSocket { id : SocketId; userId : ObjectId }.

(** The payload of [message:send], for a [text] that is a string. *)
Record SendPayload := mkSend {
  text : string;
  file : option FileRef;
  groupId : option ObjectId;
  targetGroups : list ObjectId
}.

(** What the acknowledgement callback receives. *)
Record Ack := mkAck { ok : bool; ackId : ObjectId }.

Definition online (socket : Socket) (user : User.t) : Payload :=
  PPresence (userId socket) (User.username user) true None None.

Definition offline (socket : Socket) (user : User.t) (seen : Timestamp) : Payload :=
  PPresence (userId socket) (User.username user) false (Some seen) None.

(** [text || 'Sent a file'] *)
Definition notificationBody (text : string) : string :=
  if bool_decide (text = EmptyString) then "Sent a file" else text.

Section Handlers.

Variable extractTags : string -> list string.
Variable schemaValid : Message.t -> bool.
Variable client : RedisClient.

(** [io.on('connection', ...)] up to the registration of the listeners;
    returns the [user] the listeners close over, or [None] when the socket
    was dropped and no listener was registered. *)
Definition onConnection (socket : Socket) : M (option User.t) :=
  found <- User_findById (userId socket) ;;
  match found with
  | None => socket_disconnect (id socket) ;;; ret None
  | Some user =>
    seen <- Date_now ;;
    User_findByIdAndUpdate (userId socket) (User.set_presence true seen) ;;;
    socket_join (id socket) (RUser (userId socket)) ;;;
    match User.groupId user with
    | Some g => socket_join (id socket) (RGroup (Some g))
    | None => ret tt
    end ;;;
    when (bool_decide (User.role user = admin)) (socket_join (id socket) RAdmin) ;;;
    match User.groupId user with
    | Some g =>
        emit (ToRoomExcept (RGroup (Some g)) (id socket)) "user:online"
             (online socket user)
    | None => ret tt
    end ;;;
    emit (ToRoomExcept RAdmin (id socket)) "user:online" (online socket user) ;;;
    emit (ToSocket (id socket)) "user:online" (online socket user) ;;;
    stamp <- Date_now ;;
    emit ToAll "user:status:changed"
         (PPresence (userId socket) (User.username user) true None (Some stamp)) ;;;
    ret (Some user)
  end.

(** [socket.on('disconnect', ...)]; [user] is the snapshot read at connect. *)
Definition onDisconnect (socket : Socket) (user : User.t) : M unit :=
  seen <- Date_now ;;
  User_findByIdAndUpdate (userId socket) (User.set_presence false seen) ;;;
  match User.groupId user with
  | Some g =>
      t <- Date_now ;;
      emit (ToRoomExcept (RGroup (Some g)) (id socket)) "user:offline"
           (offline socket user t)
  | None => ret tt
  end ;;;
  t <- Date_now ;;
  emit (ToRoomExcept RAdmin (id socket)) "user:offline" (offline socket user t) ;;;
  t <- Date_now ;;
  emit (ToSocket (id socket)) "user:offline" (offline socket user t) ;;;
  t <- Date_now ;;
  stamp <- Date_now ;;
  emit ToAll "user:status:changed"
       (PPresence (userId socket) (User.username user) false (Some t) (Some stamp)).

(** [populatedMsg.groupId.name] *)
Definition originalGroupName (populatedMsg : option Populated) : M string :=
  match populatedMsg ≫= p_group with
  | Some g => ret g.1
  | None => throw (TypeError "Cannot read properties of null (reading 'name')")
  end.

(** One pass of the loop that notifies a populated member list. *)
Definition notifyMembers (socket : Socket) (members : list ObjectId)
  (notification : Notification.t) : M unit :=
  forEach members (fun member =>
    when (negb (bool_decide (member = userId socket)))
      (NotificationService.sendNotification client member notification ;;;
       emit (ToRoom (RUser member)) "notification:new" (PNotification notification))).

Definition resolveForwardedGroups (payload : SendPayload) (tags : list string)
  : M (list (ObjectId * Group.t)) :=
  if (0 <? length (targetGroups payload))%nat
  then Group_find (fun g _ => bool_decide (g ∈ targetGroups payload))
  else if (0 <? length tags)%nat
  then Group_find (fun _ g => bool_decide (Group.region g ∈ tags))
  else ret [].

(** The body of [for (const group of forwardedGroups)]: persist the copy,
    read it back populated, broadcast it to its own group room. *)
Definition forwardCopy (socket : Socket) (payload : SendPayload) (tags : list string)
  (targetGroupId : option ObjectId) (msgId : ObjectId)
  (populatedMsg : option Populated) (forwardedIds : list ObjectId)
  (group : ObjectId * Group.t) : M unit :=
  forwardedMsg <- Message_create schemaValid
                    (newMessage (userId socket) (Some group.1) (text payload)
                                (file payload) tags (Some msgId) forwardedIds) ;;
  populatedForwardedMsg <- Message_findById_populated forwardedMsg.1 ;;
  name <- originalGroupName populatedMsg ;;
  emit (ToRoom (RGroup (Some group.1))) "message:new"
       (PForwarded populatedForwardedMsg (targetGroupId, name)).

(** The body of [for (const forwardedGroup of forwardedGroups)] in the
    notification part; [group] is the populated target group, or [None]. *)
Definition notifyForwardedGroup (socket : Socket) (user : User.t)
  (payload : SendPayload) (group : option (Group.t * list ObjectId))
  (forwardedGroup : ObjectId * Group.t) : M unit :=
  forwardedGroupData <- Group_findById_populated (Some forwardedGroup.1) ;;
  match forwardedGroupData with
  | Some (_, allForwardedMembers) =>
      name <- match group with
              | Some (g, _) => ret (Group.name g)
              | None => throw (TypeError "Cannot read properties of null (reading 'name')")
              end ;;
      now <- Date_now ;;
      notifyMembers socket allForwardedMembers
        (Notification.mk "message"
           ("New message from " +:+ User.username user +:+ " (from " +:+ name +:+ ")")
           (notificationBody (text payload)) (Some forwardedGroup.1)
           (Group.name forwardedGroup.2)
           (Some (userId socket)) (Some (User.username user)) now)
  | None => ret tt
  end.

(** Everything after the forwarding loop: the notifications. *)
Definition notifyAll (socket : Socket) (user : User.t) (payload : SendPayload)
  (targetGroupId : option ObjectId) (forwardedGroups : list (ObjectId * Group.t))
  : M unit :=
  group <- Group_findById_populated targetGroupId ;;
  match group with
  | Some (g, allMembers) =>
      now <- Date_now ;;
      notifyMembers socket allMembers
        (Notification.mk "message" ("New message from " +:+ User.username user)
           (notificationBody (text payload)) targetGroupId (Group.name g)
           (Some (userId socket)) (Some (User.username user)) now)
  | None => ret tt
  end ;;;
  forEach forwardedGroups (notifyForwardedGroup socket user payload group).

(** [socket.on('message:send', ...)]; the result is what [ack] is called
    with.  The listener has no [try]: a rejection inside it is an unhandled
    rejection and [ack] is never called. *)
Definition onMessageSend (socket : Socket) (user : User.t) (payload : SendPayload)
  : M Ack :=
  let tags := extractTags (text payload) in
  let targetGroupId :=
    match groupId payload with Some g => Some g | None => User.groupId user end in
  forwardedGroups <- resolveForwardedGroups payload tags ;;
  msg <- Message_create schemaValid
           (newMessage (userId socket) targetGroupId (text payload) (file payload)
                       tags None forwardedGroups.*1) ;;
  populatedMsg <- Message_findById_populated msg.1 ;;
  emit (ToRoom (RGroup targetGroupId)) "message:new" (PMessage populatedMsg) ;;;
  forEach forwardedGroups
    (forwardCopy socket payload tags targetGroupId msg.1 populatedMsg
                 forwardedGroups.*1) ;;;
  notifyAll socket user payload targetGroupId forwardedGroups ;;;
  ret (mkAck true msg.1).

(** [socket.on('join:admin', ...)] *)
Definition onJoinAdmin (socket : Socket) (user : User.t) : M unit :=
  when (bool_decide (User.role user = admin)) (socket_join (id socket) RAdmin).

(** The events [user:joined] and [user:left], whose payload is the user's
    id and name. *)
Record Relay := mkRelay {
  relayTo : Target;
  relayEvent : string;
  relayUserId : ObjectId;
  relayUsername : string
}.

(** The loop of [group:join] and [group:leave] over the populated members:
    the notification is stored, and not emitted. *)
Definition storeForMembers (socket : Socket) (members : list ObjectId)
  (notification : Notification.t) : M unit :=
  forEach members (fun member =>
    when (negb (bool_decide (member = userId socket)))
      (NotificationService.sendNotification client member notification ;;; ret tt)).

(** [socket.on('group:join', ...)]: the event relayed to the room before the
    first [await], and the rest of the listener.  The listener has no [try]. *)
Definition onGroupJoin (socket : Socket) (user : User.t) (groupId : option ObjectId)
  : Relay * M unit :=
  (mkRelay (ToRoomExcept (RGroup groupId) (id socket)) "user:joined"
           (userId socket) (User.username user),
   socket_join (id socket) (RGroup groupId) ;;;
   group <- Group_findById_populated groupId ;;
   match group with
   | Some (g, allMembers) =>
       now <- Date_now ;;
       storeForMembers socket allMembers
         (Notification.mk "user_joined"
            (User.username user +:+ " joined the group")
            (User.username user +:+ " has joined " +:+ Group.name g)
            groupId (Group.name g) None None now)
   | None => ret tt
   end).

(** [socket.on('group:leave', ...)] *)
Definition onGroupLeave (socket : Socket) (user : User.t) (groupId : option ObjectId)
  : Relay * M unit :=
  (mkRelay (ToRoomExcept (RGroup groupId) (id socket)) "user:left"
           (userId socket) (User.username user),
   socket_leave (id socket) (RGroup groupId) ;;;
   group <- Group_findById_populated groupId ;;
   match group with
   | Some (g, allMembers) =>
       now <- Date_now ;;
       storeForMembers socket allMembers
         (Notification.mk "user_left"
            (User.username user +:+ " left the group")
            (User.username user +:+ " has left " +:+ Group.name g)
            groupId (Group.name g) None None now)
   | None => ret tt
   end).

End Handlers.
End ChatSocket.

(** ** Instances for the parameters, and sample states *)

(** Modelled from the spec: [utils/parser.js] is missing from the code at
    hand; the glossary calls a tag a mention token extracted from the text,
    and the example of section 8 reads the tag [G2] off [hello @G2].  A
    token is the run of letters, digits and underscores after an [@]. *)
Definition isWordChar (c : Ascii.ascii) : bool :=
  let n := Ascii.nat_of_ascii c in
  ((48 <=? n) && (n <=? 57) || (65 <=? n) && (n <=? 90)
   || (97 <=? n) && (n <=? 122) || (n =? 95))%nat.

Definition flushTag (cur : option string) : list string :=
  match cur with
  | Some (String c s) => [String c s]
  | _ => []
  end.

Fixpoint scanTags (s : string) (cur : option string) : list string :=
  match s with
  | EmptyString => flushTag cur
  | String c s' =>
      if bool_decide (c = "@"%char) then flushTag cur ++ scanTags s' (Some EmptyString)
      else match cur with
           | Some word =>
               if isWordChar c then scanTags s' (Some (word +:+ String c EmptyString))
               else flushTag cur ++ scanTags s' None
           | None => scanTags s' None
           end
  end.

Definition mentionTags (text : string) : list string := scanTags text None.

(** Two schemas for [models/Message.js]: one without validators, and one
    that enforces the data model's at-least-one-of-text-and-file rule. *)
Definition anyDocument (m : Message.t) : bool := true.

Definition requiresContent (m : Message.t) : bool :=
  negb (bool_decide (Message.text m = EmptyString) && bool_decide (Message.file m = None)).

Definition healthy : RedisCmd -> bool := fun _ => false.
Definition readOnly : RedisCmd -> bool :=
  fun c => match c with GET => false | _ => true end.

Definition alice : User.t := User.mk "alice" member (Some 10%positive) false None None [].
Definition bob : User.t := User.mk "bob" member (Some 10%positive) false None (Some 5000) [].
Definition carol : User.t := User.mk "carol" manager (Some 20%positive) false None None [].
Definition dave : User.t := User.mk "dave" member None false None None [].

Definition north : Group.t := Group.mk "G1" "north" [1; 2]%positive [3]%positive.
Definition south : Group.t := Group.mk "G2" "G2" [2]%positive [3]%positive.
Definition south' : Group.t := Group.mk "G3" "G2" [4]%positive [].

(** An original by alice in group 10 and its forwarded copy in group 20. *)
Definition original : Message.t :=
  newMessage 1%positive (Some 10%positive) "hello @G2" None ["G2"] None [20%positive] 1000.
Definition copy : Message.t :=
  newMessage 1%positive (Some 20%positive) "hello @G2" None ["G2"] (Some 100%positive)
             [20%positive] 1001.

(** A later message of bob in group 10. *)
Definition late : Message.t :=
  newMessage 2%positive (Some 10%positive) "any news?" None [] None [] 6000.

Definition sampleWorld : World :=
  {| messages := {[ 100%positive := original; 101%positive := copy;
                    102%positive := late ]};
     groups := {[ 10%positive := north; 20%positive := south ]};
     users := {[ 1%positive := alice; 2%positive := bob; 3%positive := carol;
                 4%positive := dave ]};
     mongoUp := true;
     redis := mkRedis ∅ 0 healthy;
     io := true;
     rooms := [];
     connected := [];
     emitted := [];
     console := [];
     clock := fun k => 2000 + 10 * Z.of_nat k;
     reads := 0 |}.

(** The same, with a third group that shares its region with group 20. *)
Definition sharedRegionWorld : World :=
  {| messages := messages sampleWorld;
     groups := <[ 30%positive := south' ]> (groups sampleWorld);
     users := users sampleWorld; mongoUp := true; redis := redis sampleWorld;
     io := true; rooms := []; connected := []; emitted := []; console := [];
     clock := clock sampleWorld; reads := 0 |}.

(** A store whose cache refuses writes. *)
Definition readOnlyWorld : World := set_redis (mkRedis ∅ 0 readOnly) sampleWorld.

Definition greeting : Notification.t :=
  Notification.mk "message" "New message from alice" "hello"
                  (Some 10%positive) "G1" (Some 1%positive) (Some "alice") 2000.

(** Three records at the time of a sweep whose clock reads 200000000: one
    tombstoned 25 hours earlier, one tombstoned 23 hours earlier, one live. *)
Definition sweptOut : Message.t :=
  Message.set_deleted (Message.mkDeleted true (Some 1%positive) (Some 110000000)) original.
Definition stillKept : Message.t :=
  Message.set_deleted (Message.mkDeleted true (Some 1%positive) (Some 117200000)) copy.

Definition sweepWorld : World :=
  {| messages := {[ 100%positive := sweptOut; 101%positive := stillKept;
                    102%positive := late ]};
     groups := groups sampleWorld; users := users sampleWorld; mongoUp := true;
     redis := redis sampleWorld; io := true; rooms := []; connected := [];
     emitted := []; console := [];
     clock := fun k => 200000000 + Z.of_nat k; reads := 0 |}.

(** The connections of alice and of dave. *)
Definition aliceSocket : ChatSocket.Socket := ChatSocket.mkSocket 7 1.
Definition daveSocket : ChatSocket.Socket := ChatSocket.mkSocket 9 4.

(** Bob already has a notification in his durable list; the cache is cold. *)
Definition reminder : Notification.t :=
  Notification.mk "message" "New message from carol" "see you at noon"
                  (Some 20%positive) "G2" (Some 3%positive) (Some "carol") 1500.

Definition historyWorld : World :=
  set_users (<[2%positive := User.set_notifications [reminder] bob]> (users sampleWorld))
            sampleWorld.

(** That store while the database cannot be reached, and while the cache
    rejects every command. *)
Definition storeDownWorld : World :=
  {| messages := messages sampleWorld; groups := groups sampleWorld;
     users := users historyWorld; mongoUp := false; redis := redis sampleWorld;
     io := true; rooms := []; connected := []; emitted := []; console := [];
     clock := clock sampleWorld; reads := 0 |}.

Definition unreachable : RedisCmd -> bool := fun _ => true.

Definition cacheDownWorld : World := set_redis (mkRedis ∅ 0 unreachable) historyWorld.

(** The sample store a day and more after carol deleted message 100. *)
Definition dayLaterWorld : World :=
  {| messages :=
       messages (MessageController.deleteMessage anyDocument
                   (MessageController.mkReqUser 3 manager) 100 sampleWorld).2;
     groups := groups sampleWorld; users := users sampleWorld; mongoUp := true;
     redis := redis sampleWorld; io := true; rooms := []; connected := [];
     emitted := []; console := [];
     clock := fun k => 100000000 + Z.of_nat k; reads := 0 |}.

(** Delivery tracking of message 100: nobody has received or seen it. *)
Definition sampleTracking : gmap ObjectId Tracking.t :=
  {[ 100%positive := Tracking.mk [] [] "sent" ]}.

(** The connection of carol, a manager of groups 10 and 20. *)
Definition carolSocket : ChatSocket.Socket := ChatSocket.mkSocket 8 3.

(** ** Vocabulary of the statements *)

(** The record an edit at instant [at_] leaves behind. *)
Definition editedCopy (extractTags : string -> list string) (text : string)
  (at_ : Timestamp) (m : Message.t) : Message.t :=
  Message.set_content text (extractTags text) (Message.mkEdited true (Some at_)) m.

(** The record a delete by [actor] at instant [at_] leaves behind. *)
Definition tombstone (actor : ObjectId) (at_ : Timestamp) (m : Message.t) : Message.t :=
  Message.set_deleted (Message.mkDeleted true (Some actor) (Some at_)) m.

(** [$push: { notifications: n }] *)
Definition pushNotification (n : Notification.t) (u : User.t) : User.t :=
  User.set_notifications (User.notifications u ++ [n]) u.

(** What is live in the cache under a user's key. *)
Definition liveEntry (k : ObjectId) (s : RedisState) : option (list Notification.t) :=
  match entries s !! k with
  | Some (expiry, v) => if rtime s <? expiry then Some v else None
  | None => None
  end.

(** The group-room broadcasts of new messages among a run of emissions. *)
Definition broadcasts (es : list Emit) : list Target :=
  target <$> filter (fun e => event e = "message:new") es.

(** Destination, event name and announced online flag of an emission. *)
Definition summary (e : Emit) : Target * string * option bool :=
  (target e, event e,
   match payload e with
   | PPresence _ _ online _ _ => Some online
   | _ => None
   end).

(** A step that leaves the messages alone and emits notifications only. *)
Definition quiet (w w' : World) : Prop :=
  messages w' = messages w /\ mongoUp w' = mongoUp w /\ groups w' = groups w /\
  exists es, emitted w' = emitted w ++ es /\
             Forall (fun e => event e = "notification:new") es.

(** The groups a send with no explicit [targetGroups] forwards to, and the
    distinct regions among them. *)
Definition matchedGroups (tags : list string) (w : World) : list (ObjectId * Group.t) :=
  filter (fun kv => Group.region kv.2 ∈ tags) (map_to_list (groups w)).

Definition matchedRegions (tags : list string) (w : World) : list string :=
  remove_dups ((fun kv => Group.region kv.2) <$> matchedGroups tags w).

(** What a presence transition announces, in order: the user's group room
    without the socket itself when the user has a group, the admin room
    without the socket, the socket, and every connection. *)
Definition presenceEvents (up : bool) (socket : ChatSocket.Socket) (user : User.t)
  : list (Target * string * option bool) :=
  let ev := if up then "user:online" else "user:offline" in
  match User.groupId user with
  | Some grp => [(ToRoomExcept (RGroup (Some grp)) (ChatSocket.id socket), ev, Some up)]
  | None => []
  end ++
  [(ToRoomExcept RAdmin (ChatSocket.id socket), ev, Some up);
   (ToSocket (ChatSocket.id socket), ev, Some up);
   (ToAll, "user:status:changed", Some up)].

(** ** Vocabulary of the further statements *)

(** The groups a list of ids resolves to: [{ _id: { $in: ids } }]. *)
Definition forwardTargets (groupIds : list ObjectId) (w : World)
  : list (ObjectId * Group.t) :=
  filter (fun kv => kv.1 ∈ groupIds) (map_to_list (groups w)).

(** The floor of a reader's listing, for a clock reading [now]. *)
Definition floorOf (u : User.t) (now : Timestamp) : Timestamp :=
  match User.groupJoinedAt u with
  | Some joined => joined
  | None => now - 7 * 24 * 60 * 60 * 1000
  end.

(** The stored messages the filter of a listing matches once its group id
    is cast. *)
Definition visibleTo (groupId : ObjectId) (floor : Timestamp)
  (before : option Timestamp) (w : World) : list (ObjectId * Message.t) :=
  filter (fun kv => MessageController.listingQuery (AsObjectId groupId) floor before
                      kv.2 = true)
         (map_to_list (messages w)).

(** What the filter of a search asks of a message. *)
Definition matchesSearch (regexTest : string -> string -> bool) (q : option string)
  (groupId : option ObjectId) (startDate endDate : option Timestamp)
  (m : Message.t) : Prop :=
  Message.isDeleted (Message.deleted m) = false /\
  (forall g, groupId = Some g -> Message.groupId m = Some g) /\
  (forall pattern, q = Some pattern -> pattern <> EmptyString ->
     regexTest pattern (Message.text m) = true) /\
  (forall s, startDate = Some s -> s <= Message.createdAt m) /\
  (forall e, endDate = Some e -> Message.createdAt m <= e).

(** The stored messages a search is about. *)
Definition searchHits (regexTest : string -> string -> bool) (q : option string)
  (groupId : option ObjectId) (startDate endDate : option Timestamp) (w : World)
  : list (ObjectId * Message.t) :=
  filter (fun kv => MessageController.searchQuery regexTest q groupId startDate endDate
                      kv.2 = true)
         (map_to_list (messages w)).

(** The fields no handler rewrites once a message is stored. *)
Definition sameIdentity (m m' : Message.t) : Prop :=
  Message.senderId m' = Message.senderId m /\
  Message.groupId m' = Message.groupId m /\
  Message.createdAt m' = Message.createdAt m /\
  Message.forwardedFrom m' = Message.forwardedFrom m /\
  Message.file m' = Message.file m /\
  Message.forwardedToGroups m' = Message.forwardedToGroups m.

(** What an edit keeps of a record, and what a delete keeps of it. *)
Definition editKeeps (m m' : Message.t) : Prop :=
  sameIdentity m m' /\ Message.deleted m' = Message.deleted m.

Definition deleteKeeps (m m' : Message.t) : Prop :=
  sameIdentity m m' /\ Message.text m' = Message.text m /\
  Message.tags m' = Message.tags m /\ Message.edited m' = Message.edited m /\
  (Message.isDeleted (Message.deleted m) = true ->
   Message.isDeleted (Message.deleted m') = true).

(** Two collections hold the same ids, with records related by [R]. *)
Definition pointwise (R : Message.t -> Message.t -> Prop)
  (ms ms' : gmap ObjectId Message.t) : Prop :=
  forall i, match ms !! i, ms' !! i with
            | Some m, Some m' => R m m'
            | None, None => True
            | _, _ => False
            end.

(** The recipients of a notification loop: the populated members other
    than the acting user, one entry per occurrence. *)
Definition recipients (self : ObjectId) (members : list ObjectId) : list ObjectId :=
  filter (fun member => member <> self) members.

Definition occurrences (x : ObjectId) (l : list ObjectId) : nat :=
  length (filter (fun y => y = x) l).

(** A user after [k] appends of [n] to the durable list. *)
Definition notified (k : nat) (n : Notification.t) (u : User.t) : User.t :=
  User.set_notifications (User.notifications u ++ replicate k n) u.

(** The users after one [$push] of [n] for every entry of [to], in order. *)
Definition appendAll (n : Notification.t) (to : list ObjectId)
  (us : gmap ObjectId User.t) : gmap ObjectId User.t :=
  foldl (fun acc member => alter (pushNotification n) member acc) us to.

(** The notifications of [group:join] and [group:leave]. *)
Definition joinNotice (user : User.t) (gid : option ObjectId) (g : Group.t)
  (now : Timestamp) : Notification.t :=
  Notification.mk "user_joined" (User.username user +:+ " joined the group")
    (User.username user +:+ " has joined " +:+ Group.name g)
    gid (Group.name g) None None now.

Definition leaveNotice (user : User.t) (gid : option ObjectId) (g : Group.t)
  (now : Timestamp) : Notification.t :=
  Notification.mk "user_left" (User.username user +:+ " left the group")
    (User.username user +:+ " has left " +:+ Group.name g)
    gid (Group.name g) None None now.

(** The users after the notification loop of [group:join] or [group:leave]. *)
Definition noticed (notice : Group.t -> Timestamp -> Notification.t)
  (self : ObjectId) (groupId : option ObjectId) (w : World) : gmap ObjectId User.t :=
  if mongoUp w then
    match groupId ≫= (fun g => groups w !! g) with
    | Some g => appendAll (notice g (clock w (reads w)))
                          (recipients self (populateMembers w g)) (users w)
    | None => users w
    end
  else users w.

Definition inRoom (s : SocketId) (r : Room) (w : World) : Prop := (s, r) ∈ rooms w.

(** * Properties *)

(** ** Stepping through a handler *)

Ltac wunfold :=
  unfold Message_findById, Message_save, Message_updateMany,
         Message_findById_populated, Message_findById_deleter,
         Message_deleteMany, Message_countDocuments,
         User_findById, User_findByIdAndUpdate,
         Group_findById, Group_find, Group_findById_populated,
         MessageController.app_get_io,
         Date_now, emit, console_error, console_log, socket_join, socket_disconnect,
         when, query, try_catch, bind, ret, throw.

Ltac wsimpl :=
  cbn [fst snd negb
       mongoUp messages groups users redis io rooms connected emitted console
       clock reads
       set_messages set_users set_redis set_rooms set_connected set_emitted
       set_console set_reads].

Ltac wgo H := repeat (progress (wsimpl; rewrite ?H)).

Lemma query_up {A} (f : World -> A * World) (w : World) :
  mongoUp w = true -> query f w = (Ok (f w).1, (f w).2).
Proof. intros Hup. unfold query. rewrite Hup. by destruct (f w). Qed.

Lemma bind_ok {A B} (m : M A) (f : A -> M B) (w w' : World) (a : A) :
  m w = (Ok a, w') -> bind m f w = f a w'.
Proof. intros H. unfold bind. by rewrite H. Qed.

Lemma bind_throw {A B} (m : M A) (f : A -> M B) (w w' : World) (e : Error) :
  m w = (Throw e, w') -> bind m f w = (Throw e, w').
Proof. intros H. unfold bind. by rewrite H. Qed.

Lemma forwardedFrom_set_content (t : string) (g : list string) (e : Message.Edited)
  (m : Message.t) :
  Message.forwardedFrom (Message.set_content t g e m) = Message.forwardedFrom m.
Proof. reflexivity. Qed.

Lemma groupId_set_content (t : string) (g : list string) (e : Message.Edited)
  (m : Message.t) :
  Message.groupId (Message.set_content t g e m) = Message.groupId m.
Proof. reflexivity. Qed.

Lemma forwardedFrom_set_deleted (d : Message.Deleted) (m : Message.t) :
  Message.forwardedFrom (Message.set_deleted d m) = Message.forwardedFrom m.
Proof. reflexivity. Qed.

Lemma groupId_set_deleted (d : Message.Deleted) (m : Message.t) :
  Message.groupId (Message.set_deleted d m) = Message.groupId m.
Proof. reflexivity. Qed.

(** ** Edit and delete *)

Section ControllerProperties.

Import MessageController.

Variable extractTags : string -> list string.
Variable schemaValid : Message.t -> bool.

Lemma editMessage_wrong_sender (w : World) (user : ReqUser) (messageId : ObjectId)
  (text : string) (message : Message.t) :
  mongoUp w = true ->
  messages w !! messageId = Some message ->
  Message.senderId message <> _id user ->
  editMessage extractTags schemaValid user messageId text w =
  (Ok (mkResponse 403 (BError "Not authorized to edit this message")), w).
Proof.
  intros Hup Hfound Hsender. unfold editMessage. wunfold. wsimpl.
  rewrite Hup, Hfound. by rewrite bool_decide_eq_false_2.
Qed.

Lemma editMessage_too_old (w : World) (user : ReqUser) (messageId : ObjectId)
  (text : string) (message : Message.t) :
  mongoUp w = true ->
  messages w !! messageId = Some message ->
  Message.senderId message = _id user ->
  15 * 60 * 1000 < clock w (reads w) - Message.createdAt message ->
  editMessage extractTags schemaValid user messageId text w =
  (Ok (mkResponse 400 (BError "Message too old to edit")), set_reads (S (reads w)) w).
Proof.
  intros Hup Hfound Hsender Hold. unfold editMessage. wunfold. wsimpl.
  rewrite Hup, Hfound. rewrite bool_decide_eq_true_2 by done. wsimpl.
  apply Z.ltb_lt in Hold. by rewrite Hold.
Qed.

Lemma editMessage_success (w : World) (user : ReqUser) (messageId : ObjectId)
  (text : string) (message : Message.t) :
  mongoUp w = true ->
  messages w !! messageId = Some message ->
  Message.senderId message = _id user ->
  clock w (reads w) - Message.createdAt message <= 15 * 60 * 1000 ->
  schemaValid (editedCopy extractTags text (clock w (S (reads w))) message) = true ->
  let message' := editedCopy extractTags text (clock w (S (reads w))) message in
  let saved := <[messageId := message']> (messages w) in
  exists w',
    editMessage extractTags schemaValid user messageId text w =
      (Ok (mkResponse 200 (BUpdated messageId message')), w')
    /\ messages w' =
         match Message.forwardedFrom message with
         | None => (fun m => if isForwardOf messageId m
                             then editedCopy extractTags text (clock w (S (S (reads w)))) m
                             else m) <$> saved
         | Some _ => saved
         end
    /\ emitted w' =
         emitted w ++
         (if io w
          then [mkEmit (ToRoom (RGroup (Message.groupId message))) "message:edited"
                  (PMessage (populate w' messageId <$> messages w' !! messageId))]
          else []).
Proof.
  intros Hup Hfound Hsender Hfresh Hvalid message' saved.
  unfold editMessage. wunfold. wsimpl.
  rewrite Hup, Hfound. rewrite bool_decide_eq_true_2 by done. wsimpl.
  apply Z.ltb_ge in Hfresh. rewrite Hfresh.
  wsimpl. unfold editedCopy in *. rewrite Hvalid. wsimpl. rewrite Hup. wsimpl.
  rewrite forwardedFrom_set_content, groupId_set_content.
  destruct (Message.forwardedFrom message); wgo Hup;
    destruct (io w); wgo Hup; (eexists; split; [reflexivity|]); wsimpl;
    rewrite ?app_nil_r; done.
Qed.

(** The edited record is not one of its own copies. *)
Lemma edited_target_stored (msgs : gmap ObjectId Message.t) (messageId : ObjectId)
  (text : string) (first second : Timestamp) (message : Message.t) :
  match Message.forwardedFrom message with
  | None => (fun m => if isForwardOf messageId m
                      then editedCopy extractTags text second m
                      else m) <$> <[messageId := editedCopy extractTags text first message]> msgs
  | Some _ => <[messageId := editedCopy extractTags text first message]> msgs
  end !! messageId = Some (editedCopy extractTags text first message).
Proof.
  destruct (Message.forwardedFrom message) eqn:Hfwd.
  - by rewrite lookup_insert_eq.
  - rewrite lookup_fmap, lookup_insert_eq. cbn [fmap option_fmap option_map].
    unfold isForwardOf. rewrite bool_decide_eq_false_2; [done|].
    unfold editedCopy. rewrite forwardedFrom_set_content. by rewrite Hfwd.
Qed.

(** Whether the store is reachable or not and whatever the schema accepts, an
    edit that does not answer 200 has written no message and emitted
    nothing. *)
Lemma editMessage_failure_changes_nothing (w : World) (user : ReqUser)
  (messageId : ObjectId) (text : string) :
  let out := editMessage extractTags schemaValid user messageId text w in
  exists res, out.1 = Ok res /\
    (status res <> 200%nat ->
       messages out.2 = messages w /\ emitted out.2 = emitted w).
Proof.
  cbv zeta. unfold editMessage. wunfold. wsimpl.
  destruct (mongoUp w) eqn:Hup; wsimpl; [|by eexists].
  destruct (messages w !! messageId) as [message|]; [|by eexists].
  destruct (bool_decide (Message.senderId message = _id user)); wsimpl;
    [|by eexists].
  destruct (15 * 60 * 1000 <? clock w (reads w) - Message.createdAt message);
    wsimpl; [by eexists|].
  destruct (schemaValid _); wgo Hup; [|by eexists].
  rewrite forwardedFrom_set_content.
  destruct (Message.forwardedFrom message); wgo Hup;
    destruct (io w); wgo Hup; (eexists; split; [reflexivity|done]).
Qed.

(** C2. An edit of an existing message, with the store reachable and the
    schema accepting the new text, answers 200 exactly when the actor is the
    sender and the clock reading taken for the check is at most 15 minutes
    past [createdAt]; a wrong sender gets 403, the right sender past the
    window gets 400, the two codes differ, and whenever the answer is not
    200 the message collection and the emitted events are what they were.
    When the answer is 200 the record stored under the id, which is also
    the record answered, has the new text, the tags extracted from it, the
    edited flag set and the second clock reading as its edit stamp, and
    every other field as it was. *)
Theorem editMessage_sender_and_window (w : World) (user : ReqUser)
  (messageId : ObjectId) (text : string) (message : Message.t) :
  let edited (stamp : Timestamp) :=
    Message.mk (Message.senderId message) (Message.groupId message) text
      (Message.file message) (extractTags text) (Message.forwardedFrom message)
      (Message.forwardedToGroups message) (Message.mkEdited true (Some stamp))
      (Message.deleted message) (Message.createdAt message) in
  mongoUp w = true ->
  messages w !! messageId = Some message ->
  (forall stamp, schemaValid (edited stamp) = true) ->
  let now := clock w (reads w) in
  let out := editMessage extractTags schemaValid user messageId text w in
  exists res, out.1 = Ok res /\
    (status res = 200%nat <->
       Message.senderId message = _id user /\
       now - Message.createdAt message <= 15 * 60 * 1000) /\
    (Message.senderId message <> _id user -> status res = 403%nat) /\
    (Message.senderId message = _id user ->
     15 * 60 * 1000 < now - Message.createdAt message -> status res = 400%nat) /\
    (status res <> 200%nat ->
       messages out.2 = messages w /\ emitted out.2 = emitted w) /\
    (status res = 200%nat ->
       body res = BUpdated messageId (edited (clock w (S (reads w)))) /\
       messages out.2 !! messageId = Some (edited (clock w (S (reads w))))).
Proof.
  intros edited Hup Hfound Hvalid now out. subst out now.
  destruct (decide (Message.senderId message = _id user)) as [Hsender|Hsender].
  - destruct (Z_le_gt_dec (clock w (reads w) - Message.createdAt message)
                (15 * 60 * 1000)) as [Hin|Hout].
    + pose proof (editMessage_success w user messageId text message
                    Hup Hfound Hsender Hin (Hvalid _)) as Hrun.
      cbv zeta in Hrun. destruct Hrun as (w' & -> & Hmsgs & _).
      cbn [fst snd]. eexists; split; [reflexivity|]. cbn [status body].
      split; [done|]. split; [done|]. split; [lia|]. split; [done|].
      intros _. split; [done|]. by rewrite Hmsgs, edited_target_stored.
    + rewrite (editMessage_too_old w user messageId text message) by (done || lia).
      cbn. eexists; split; [reflexivity|]. cbn. repeat split; try done; try lia.
  - rewrite (editMessage_wrong_sender w user messageId text message) by done.
    cbn. eexists; split; [reflexivity|]. cbn. repeat split; try done.
    all: try (intros [? _]; done).
Qed.

(** C8. A successful edit of an original rewrites text, tags and edited
    stamp of every record whose [forwardedFrom] is its id and of no other
    record but itself: each copy gets the new text, the tags extracted
    from it, the edited flag and the clock reading taken for the cascade,
    and keeps its other fields.  A successful edit of a forwarded copy
    changes that copy alone.  Either way one [message:edited] event is
    emitted, to the group room of the edited message. *)
Theorem editMessage_cascade (w : World) (user : ReqUser)
  (messageId : ObjectId) (text : string) (message : Message.t) :
  let edited (stamp : Timestamp) (m : Message.t) :=
    Message.mk (Message.senderId m) (Message.groupId m) text
      (Message.file m) (extractTags text) (Message.forwardedFrom m)
      (Message.forwardedToGroups m) (Message.mkEdited true (Some stamp))
      (Message.deleted m) (Message.createdAt m) in
  mongoUp w = true ->
  io w = true ->
  messages w !! messageId = Some message ->
  Message.senderId message = _id user ->
  clock w (reads w) - Message.createdAt message <= 15 * 60 * 1000 ->
  (forall stamp, schemaValid (edited stamp message) = true) ->
  let out := editMessage extractTags schemaValid user messageId text w in
  let w' := out.2 in
  (exists res, out.1 = Ok res /\ status res = 200%nat) /\
  messages w' !! messageId = Some (edited (clock w (S (reads w))) message) /\
  (Message.forwardedFrom message = None ->
     forall id m, id <> messageId -> messages w !! id = Some m ->
       messages w' !! id =
         Some (if bool_decide (Message.forwardedFrom m = Some messageId)
               then edited (clock w (S (S (reads w)))) m
               else m)) /\
  (is_Some (Message.forwardedFrom message) ->
     forall id, id <> messageId -> messages w' !! id = messages w !! id) /\
  (exists p,
     emitted w' =
       emitted w ++ [mkEmit (ToRoom (RGroup (Message.groupId message)))
                            "message:edited" p]).
Proof.
  intros edited Hup Hio Hfound Hsender Hfresh Hvalid out w'. subst w' out.
  pose proof (editMessage_success w user messageId text message
                Hup Hfound Hsender Hfresh (Hvalid _)) as Hrun.
  cbv zeta in Hrun. destruct Hrun as (w' & -> & Hmsgs & Hemit).
  cbn [fst snd]. rewrite Hio in Hemit.
  split; [by eexists|]. repeat split.
  - by rewrite Hmsgs, edited_target_stored.
  - intros Hfwd id m Hne Hm. rewrite Hmsgs, Hfwd.
    rewrite lookup_fmap, lookup_insert_ne by done. rewrite Hm. done.
  - intros [p Hfwd] id Hne. rewrite Hmsgs, Hfwd. by rewrite lookup_insert_ne.
  - by eexists.
Qed.

Lemma deleteMessage_forbidden (w : World) (user : ReqUser) (messageId : ObjectId)
  (message : Message.t) :
  mongoUp w = true ->
  messages w !! messageId = Some message ->
  canDelete user message = false ->
  deleteMessage schemaValid user messageId w =
  (Ok (mkResponse 403 (BError "Not authorized to delete this message")), w).
Proof.
  intros Hup Hfound Hcan. unfold deleteMessage. wunfold. wsimpl.
  rewrite Hup, Hfound. by rewrite Hcan.
Qed.

Lemma deleteMessage_success (w : World) (user : ReqUser) (messageId : ObjectId)
  (message : Message.t) :
  mongoUp w = true ->
  messages w !! messageId = Some message ->
  canDelete user message = true ->
  schemaValid (tombstone (_id user) (clock w (reads w)) message) = true ->
  let message' := tombstone (_id user) (clock w (reads w)) message in
  let saved := <[messageId := message']> (messages w) in
  exists w',
    deleteMessage schemaValid user messageId w =
      (Ok (mkResponse 200 (BDone "Message deleted successfully")), w')
    /\ messages w' =
         match Message.forwardedFrom message with
         | None => (fun m => if isForwardOf messageId m
                             then tombstone (_id user) (clock w (S (reads w))) m
                             else m) <$> saved
         | Some _ => saved
         end
    /\ exists deletedBy,
       emitted w' =
         emitted w ++
         (if io w
          then [mkEmit (ToRoom (RGroup (Message.groupId message))) "message:deleted"
                  (PDeletedEvt messageId deletedBy)]
          else []).
Proof.
  intros Hup Hfound Hcan Hvalid message' saved.
  unfold deleteMessage. wunfold. wsimpl.
  rewrite Hup, Hfound, Hcan. wsimpl.
  unfold tombstone in *. rewrite Hvalid. wgo Hup.
  rewrite forwardedFrom_set_deleted, groupId_set_deleted.
  destruct (Message.forwardedFrom message); wgo Hup;
    rewrite ?lookup_fmap, lookup_insert_eq; cbn [fmap option_fmap option_map];
    wgo Hup; destruct (io w); wgo Hup.
  all: eexists; split; [reflexivity|]; wsimpl; split; [done|].
  all: first [by eexists | exists None; by rewrite app_nil_r].
Qed.

Lemma canDelete_spec (user : ReqUser) (message : Message.t) :
  canDelete user message = true <->
  Message.senderId message = _id user \/ role user = manager \/ role user = admin.
Proof.
  unfold canDelete. rewrite !orb_true_iff, !bool_decide_eq_true. split.
  - intros [[H|H]|H]; [by left|by right; right|by right; left].
  - intros [H|[H|H]]; [by left; left|by right|by left; right].
Qed.

(** C3, as the handler has it.  A delete of an existing message, with the
    store reachable and the schema accepting the tombstoned document,
    answers 200 exactly when the actor is the sender, a manager or an admin,
    and 403 with nothing written otherwise.  On success the target carries
    [isDeleted], the actor and the first clock reading; when the target is
    an original, every record whose [forwardedFrom] is its id carries
    [isDeleted], the same actor, and the second clock reading, taken after
    the target has been saved. *)
Theorem deleteMessage_tombstones (w : World) (user : ReqUser)
  (messageId : ObjectId) (message : Message.t) :
  mongoUp w = true ->
  messages w !! messageId = Some message ->
  (forall d, schemaValid (Message.set_deleted d message) = true) ->
  let out := deleteMessage schemaValid user messageId w in
  let w' := out.2 in
  exists res, out.1 = Ok res /\
    (status res = 200%nat <->
       Message.senderId message = _id user \/
       role user = manager \/ role user = admin) /\
    (status res <> 200%nat -> status res = 403%nat /\ messages w' = messages w) /\
    (status res = 200%nat ->
       messages w' !! messageId =
         Some (tombstone (_id user) (clock w (reads w)) message) /\
       (Message.forwardedFrom message = None ->
          forall id m, messages w !! id = Some m ->
            Message.forwardedFrom m = Some messageId ->
            messages w' !! id =
              Some (tombstone (_id user) (clock w (S (reads w))) m))).
Proof.
  intros Hup Hfound Hvalid out w'. subst w' out.
  destruct (canDelete user message) eqn:Hcan.
  - pose proof (deleteMessage_success w user messageId message
                  Hup Hfound Hcan (Hvalid _)) as Hrun.
    cbv zeta in Hrun. destruct Hrun as (w' & -> & Hmsgs & _).
    cbn [fst snd]. eexists; split; [reflexivity|]. cbn [status].
    apply canDelete_spec in Hcan.
    split; [tauto|]. split; [done|]. intros _. split.
    + rewrite Hmsgs. destruct (Message.forwardedFrom message) eqn:Hfwd.
      * by rewrite lookup_insert_eq.
      * rewrite lookup_fmap, lookup_insert_eq. cbn.
        unfold isForwardOf. rewrite bool_decide_eq_false_2; [done|].
        unfold tombstone. rewrite forwardedFrom_set_deleted. by rewrite Hfwd.
    + intros Hfwd id m Hm Hcopy. rewrite Hmsgs, Hfwd.
      assert (id <> messageId) as Hne by (intros ->; congruence).
      rewrite lookup_fmap, lookup_insert_ne by done. rewrite Hm. cbn.
      unfold isForwardOf. by rewrite bool_decide_eq_true_2.
  - rewrite (deleteMessage_forbidden w user messageId message) by done.
    cbn [fst snd]. eexists; split; [reflexivity|]. cbn [status].
    assert (~ (Message.senderId message = _id user \/
               role user = manager \/ role user = admin)) as Hno.
    { rewrite <- canDelete_spec. by rewrite Hcan. }
    split; [split; [done|tauto]|]. split; [done|]. done.
Qed.

End ControllerProperties.

(** ** Retention sweep *)

Section SweepAndListing.

Import MessageController.

Lemma expired_spec (cutoff : Timestamp) (m : Message.t) :
  expired cutoff m = true <->
  Message.isDeleted (Message.deleted m) = true /\
  exists t, Message.deletedAt (Message.deleted m) = Some t /\ t < cutoff.
Proof.
  unfold expired, tombstoned. rewrite andb_true_iff.
  destruct (Message.deletedAt (Message.deleted m)) as [t|].
  - rewrite Z.ltb_lt. split.
    + intros [? ?]. eauto.
    + intros [? (t' & [= <-] & ?)]. done.
  - split; [intros [_ ?]; done | intros [_ (t & ? & _)]; done].
Qed.

Lemma cleanup_up (w : World) :
  mongoUp w = true ->
  exists w',
    cleanupDeletedMessages w = (Ok tt, w') /\
    messages w' =
      filter (fun kv : ObjectId * Message.t =>
                expired (clock w (reads w) - 24 * 60 * 60 * 1000) kv.2 = false)
             (messages w).
Proof.
  intros Hup. unfold cleanupDeletedMessages. wunfold. wgo Hup.
  match goal with |- context [(0 <? ?n)%nat] => destruct (0 <? n)%nat end;
    wsimpl; by eexists.
Qed.

Lemma cleanup_down (w : World) :
  mongoUp w = false ->
  cleanupDeletedMessages w =
  (Ok tt,
   set_console (console w ++
                [LogError "Error cleaning up deleted messages:" MongoNetworkError])
               (set_reads (S (reads w)) w)).
Proof.
  intros Hdown. unfold cleanupDeletedMessages. wunfold. by wgo Hdown.
Qed.

(** C9. A sweep never rejects.  With the store reachable it removes exactly
    the records that are tombstoned with a deletion instant more than 24
    hours before the clock reading it takes: one tombstoned 25 hours ago
    goes, one tombstoned 23 hours ago stays, one that is not tombstoned
    stays.  With the store unreachable the error is logged and no record is
    touched. *)
Theorem cleanup_removes_expired_tombstones (w : World) :
  let now := clock w (reads w) in
  let hour := 60 * 60 * 1000 in
  let out := cleanupDeletedMessages w in
  let w' := out.2 in
  out.1 = Ok tt /\
  (mongoUp w = true ->
     (forall id m,
        messages w' !! id = Some m <->
        messages w !! id = Some m /\
        ~ (Message.isDeleted (Message.deleted m) = true /\
           exists t, Message.deletedAt (Message.deleted m) = Some t /\
                     24 * hour < now - t)) /\
     (forall id m by_,
        messages w !! id = Some m ->
        Message.deleted m = Message.mkDeleted true by_ (Some (now - 25 * hour)) ->
        messages w' !! id = None) /\
     (forall id m by_,
        messages w !! id = Some m ->
        Message.deleted m = Message.mkDeleted true by_ (Some (now - 23 * hour)) ->
        messages w' !! id = Some m) /\
     (forall id m,
        messages w !! id = Some m ->
        Message.isDeleted (Message.deleted m) = false ->
        messages w' !! id = Some m)) /\
  (mongoUp w = false ->
     messages w' = messages w /\
     console w' =
       console w ++ [LogError "Error cleaning up deleted messages:" MongoNetworkError]).
Proof.
  intros now hour out w'. subst w' out.
  destruct (mongoUp w) eqn:Hup.
  - destruct (cleanup_up w Hup) as (w' & -> & Hmsgs). cbn [fst snd].
    split; [done|]. split; [|done]. intros _.
    assert (forall id m,
        messages w' !! id = Some m <->
        messages w !! id = Some m /\
        ~ (Message.isDeleted (Message.deleted m) = true /\
           exists t, Message.deletedAt (Message.deleted m) = Some t /\
                     24 * hour < now - t)) as Hchar.
    { intros id m. rewrite Hmsgs, map_lookup_filter_Some. cbn [snd].
      rewrite <- not_true_iff_false, expired_spec. subst now hour.
      split; intros [Hm Hno]; (split; [done|]);
        intros [Hdel (t & Hat & Hlt)]; apply Hno; (split; [done|]);
        exists t; (split; [done|]); lia. }
    split; [exact Hchar|]. repeat split.
    + intros id m by_ Hm Hdel.
      destruct (messages w' !! id) as [m'|] eqn:Hm'; [|done].
      apply Hchar in Hm' as [Hm'' Hno]. exfalso.
      assert (m' = m) as -> by congruence.
      apply Hno. rewrite Hdel. cbn. split; [done|].
      eexists; split; [done|]. subst now hour. lia.
    + intros id m by_ Hm Hdel. apply Hchar. split; [done|].
      rewrite Hdel. cbn. intros [_ (t & [= <-] & Hlt)]. subst now hour. lia.
    + intros id m Hm Hdel. apply Hchar. split; [done|].
      rewrite Hdel. intros [? _]. done.
  - rewrite (cleanup_down w Hup). cbn [fst snd]. split; [done|].
    split; [done|]. intros _. done.
Qed.

(** ** Listing *)

Lemma listingQuery_spec (groupId : FilterId) (floor : Timestamp)
  (before : option Timestamp) (m : Message.t) :
  listingQuery groupId floor before m = true ->
  (exists id, groupId = AsObjectId id /\ Message.groupId m = Some id) /\
  Message.isDeleted (Message.deleted m) = false /\
  floor <= Message.createdAt m.
Proof.
  unfold listingQuery, tombstoned. rewrite !andb_true_iff.
  intros [[[Hg Hd] Hf] _].
  apply negb_true_iff in Hd. apply Z.leb_le in Hf.
  split; [|done]. destruct groupId as [id|id]; [done|].
  apply bool_decide_eq_true_1 in Hg. by exists id.
Qed.

Lemma aggregate_sound (P : Message.t -> bool) (skip limit : Z) (w w' : World)
  (page : list (ObjectId * Message.t)) :
  Message_aggregate P skip limit w = (Ok page, w') ->
  w' = w /\
  forall id m, (id, m) ∈ page -> messages w !! id = Some m /\ P m = true.
Proof.
  unfold Message_aggregate. destruct (mongoUp w); [|done].
  destruct ((skip <? 0) || (limit <=? 0)); [done|].
  intros [= <- <-]. split; [done|]. intros id m Hin.
  rewrite merge_sort_Permutation in Hin.
  apply subseteq_take, subseteq_drop in Hin.
  rewrite merge_sort_Permutation in Hin.
  apply list_elem_of_filter in Hin as [HP Hin]. cbn [snd] in HP.
  by apply elem_of_map_to_list in Hin.
Qed.

(** Whatever the request, a listing that carries messages carries only
    stored messages of the requested group that are not tombstoned and not
    older than the reader's floor. *)
Lemma getMessages_lists_only_visible (w : World) (user : ReqUser)
  (groupId : ObjectId) (page limit : Z) (before : option Timestamp)
  (code : nat) (listed : list (ObjectId * Message.t)) (page' limit' : Z)
  (total : nat) (more : bool) (cursor : option Timestamp) :
  (getMessages user groupId page limit before w).1 =
    Ok (mkResponse code (BMessages listed page' limit' total more cursor)) ->
  exists u,
    users w !! _id user = Some u /\
    forall id m, (id, m) ∈ listed ->
      messages w !! id = Some m /\
      Message.groupId m = Some groupId /\
      Message.isDeleted (Message.deleted m) = false /\
      match User.groupJoinedAt u with
      | Some joined => joined
      | None => clock w (reads w) - 7 * 24 * 60 * 60 * 1000
      end <= Message.createdAt m.
Proof.
  unfold getMessages. wunfold. wsimpl.
  destruct (mongoUp w) eqn:Hup; wsimpl; [|done].
  cbn [mbind option_bind].
  destruct (groups w !! groupId) as [g|]; [|done].
  destruct (negb _); wsimpl; [done|]. rewrite Hup.
  destruct (users w !! _id user) as [u|]; wsimpl; [|done].
  intros Hrun. exists u. split; [done|]. revert Hrun.
  destruct (User.groupJoinedAt u) as [joined|]; wsimpl.
  - destruct (Message_aggregate _ _ _ w) as [[found|e] w1] eqn:Hagg; wsimpl; [|done].
    apply aggregate_sound in Hagg as [-> Hsound]. rewrite Hup. wsimpl.
    intros [= _ <- _ _ _ _ _] id m Hin.
    destruct (Hsound id m Hin) as [Hstored Hq].
    by apply listingQuery_spec in Hq as [(? & ? & _) _].
  - destruct (Message_aggregate _ _ _ _) as [[found|e] w1] eqn:Hagg; wsimpl; [|done].
    apply aggregate_sound in Hagg as [-> Hsound]. wgo Hup.
    intros [= _ <- _ _ _ _ _] id m Hin.
    destruct (Hsound id m Hin) as [Hstored Hq].
    by apply listingQuery_spec in Hq as [(? & ? & _) _].
Qed.


End SweepAndListing.

(** ** Notification store *)

Section NotificationProperties.

Import NotificationService.

Lemma capped_last (l : list Notification.t) (n : Notification.t) :
  last (capped (l ++ [n])) = Some n.
Proof.
  unfold capped. destruct (100 <? length (l ++ [n]))%nat eqn:Hlong.
  - rewrite length_app. cbn [length].
    rewrite drop_app_le by lia. apply last_snoc.
  - apply last_snoc.
Qed.

Lemma capped_length (l : list Notification.t) : (length (capped l) <= 100)%nat.
Proof.
  unfold capped. destruct (100 <? length l)%nat eqn:Hlong.
  - apply Nat.ltb_lt in Hlong. rewrite length_drop. lia.
  - apply Nat.ltb_ge in Hlong. lia.
Qed.

Ltac nunfold :=
  unfold sendNotification, getNotifications, redisGet, redisSetex.

(** [sendNotification] resolves whatever the cache and the store do, and
    touches neither the messages nor the emitted events. *)
Lemma sendNotification_frame (client : RedisClient) (userId : ObjectId)
  (n : Notification.t) (w : World) :
  exists b w',
    sendNotification client userId n w = (Ok b, w') /\
    messages w' = messages w /\ emitted w' = emitted w /\
    mongoUp w' = mongoUp w /\ groups w' = groups w /\
    clock w' = clock w /\ reads w' = reads w.
Proof.
  nunfold. wunfold. destruct (mongoUp w) eqn:Hup; wsimpl.
  - destruct (redis_get client userId (redis w)) as [[cached|e] s]; wsimpl.
    + destruct (redis_setex client userId (24 * 60 * 60)
                  (capped (default [] cached ++ [n])) s) as [[[]|e] s'];
        wsimpl; by do 2 eexists.
    + by do 2 eexists.
  - by do 2 eexists.
Qed.

(** C4, as the service has it.  When the durable append succeeds and the
    cache then rejects the write, the call does not reject: it logs the
    error and resolves to [false], and the appended notification stays in
    the user's durable list. *)
Theorem sendNotification_cache_write_failure (client : RedisClient) (w : World)
  (userId : ObjectId) (n : Notification.t)
  (cached : option (list Notification.t)) (s1 s2 : RedisState) (e : Error) :
  mongoUp w = true ->
  redis_get client userId (redis w) = (Ok cached, s1) ->
  redis_setex client userId (24 * 60 * 60) (capped (default [] cached ++ [n])) s1
    = (Throw e, s2) ->
  let out := sendNotification client userId n w in
  out.1 = Ok false /\
  users out.2 = alter (pushNotification n) userId (users w) /\
  console out.2 = console w ++ [LogError "Error sending notification:" e].
Proof.
  intros Hup Hget Hset out. subst out.
  nunfold. wunfold. wgo Hup. rewrite Hget. wsimpl. rewrite Hset. by wsimpl.
Qed.

Lemma ttl_get_healthy (k : ObjectId) (s : RedisState) :
  rfail s GET = false ->
  exists s', ttl_get k s = (Ok (liveEntry k s), s') /\
             rtime s' = rtime s /\ rfail s' = rfail s /\
             liveEntry k s' = liveEntry k s.
Proof.
  intros Hok. unfold ttl_get, liveEntry. rewrite Hok.
  destruct (entries s !! k) as [[expiry v]|] eqn:Hentry.
  - destruct (rtime s <? expiry) eqn:Hlive.
    + eexists; split; [reflexivity|]. by rewrite Hentry, Hlive.
    + eexists; split; [reflexivity|]. cbn. by rewrite lookup_delete_eq.
  - eexists; split; [reflexivity|]. by rewrite Hentry.
Qed.

Lemma liveEntry_setex (k : ObjectId) (v : list Notification.t) (s : RedisState)
  (ms : Z) :
  0 <= ms < 24 * 60 * 60 * 1000 ->
  liveEntry k (elapse ms (set_entries (<[k := (rtime s + 24 * 60 * 60 * 1000, v)]>
                                        (entries s)) s)) = Some v.
Proof.
  intros Hms. unfold liveEntry. cbn. rewrite lookup_insert_eq.
  by replace (rtime s + ms <? rtime s + 24 * 60 * 60 * 1000) with true
    by (symmetry; apply Z.ltb_lt; lia).
Qed.

Lemma sendNotification_healthy (w : World) (userId : ObjectId) (n : Notification.t) :
  mongoUp w = true ->
  (forall c, rfail (redis w) c = false) ->
  exists w' old,
    sendNotification ttlRedis userId n w = (Ok true, w') /\
    users w' = alter (pushNotification n) userId (users w) /\
    rfail (redis w') = rfail (redis w) /\
    forall ms, 0 <= ms < 24 * 60 * 60 * 1000 ->
      liveEntry userId (elapse ms (redis w')) = Some (capped (old ++ [n])).
Proof.
  intros Hup Hok. nunfold. wunfold. wgo Hup. cbn [redis_get redis_setex ttlRedis].
  destruct (ttl_get_healthy userId (redis w) (Hok GET)) as (s & -> & Htime & Hfail & _).
  wsimpl. unfold ttl_setex. rewrite Hfail, (Hok SETEX). wsimpl.
  do 2 eexists. split; [reflexivity|]. wsimpl. repeat split; [done|].
  intros ms Hms. by apply liveEntry_setex.
Qed.

Lemma getNotifications_hit (w : World) (userId : ObjectId)
  (cached : list Notification.t) :
  rfail (redis w) GET = false ->
  liveEntry userId (redis w) = Some cached ->
  (getNotifications ttlRedis userId w).1 = Ok cached.
Proof.
  intros Hok Hlive. nunfold. wunfold. cbn [redis_get ttlRedis].
  destruct (ttl_get_healthy userId (redis w) Hok) as (s & -> & _).
  by rewrite Hlive.
Qed.

Lemma getNotifications_miss (w : World) (userId : ObjectId) :
  mongoUp w = true ->
  (forall c, rfail (redis w) c = false) ->
  liveEntry userId (redis w) = None ->
  exists w',
    getNotifications ttlRedis userId w =
      (Ok (default [] (User.notifications <$> users w !! userId)), w') /\
    rfail (redis w') = rfail (redis w) /\
    (forall u, users w !! userId = Some u ->
       liveEntry userId (redis w') = Some (User.notifications u)).
Proof.
  intros Hup Hok Hmiss. nunfold. wunfold. cbn [redis_get redis_setex ttlRedis].
  destruct (ttl_get_healthy userId (redis w) (Hok GET))
    as (s & -> & Htime & Hfail & Hlive).
  rewrite Hmiss. wgo Hup. destruct (users w !! userId) as [u|] eqn:Hu; wsimpl.
  - unfold ttl_setex. rewrite Hfail, (Hok SETEX). wsimpl.
    eexists; split; [reflexivity|]. wsimpl. split; [done|].
    intros u' [= <-]. unfold liveEntry. cbn. rewrite lookup_insert_eq.
    by replace (rtime s <? rtime s + 24 * 60 * 60 * 1000) with true
      by (symmetry; apply Z.ltb_lt; lia).
  - eexists; split; [reflexivity|]. wsimpl. by split.
Qed.

Lemma getNotifications_total (client : RedisClient) (userId : ObjectId) (w : World) :
  exists l, (getNotifications client userId w).1 = Ok l.
Proof.
  nunfold. wunfold.
  destruct (redis_get client userId (redis w)) as [[[cached|]|e] s]; wsimpl;
    [by eexists| |by eexists].
  destruct (mongoUp w); wsimpl; [|by eexists].
  destruct (users w !! userId) as [u|]; wsimpl; [|by eexists].
  destruct (redis_setex client userId (24 * 60 * 60) (User.notifications u) s)
    as [[[]|e] s']; wsimpl; by eexists.
Qed.

Lemma sendNotification_mock (w : World) (userId : ObjectId) (n : Notification.t) :
  mongoUp w = true ->
  exists w',
    sendNotification mockRedis userId n w = (Ok true, w') /\
    users w' = alter (pushNotification n) userId (users w) /\
    redis w' = redis w /\ mongoUp w' = true.
Proof.
  intros Hup. nunfold. wunfold. wgo Hup. cbn [redis_get redis_setex mockRedis].
  wsimpl. by eexists.
Qed.

Lemma getNotifications_mock (w : World) (userId : ObjectId) :
  mongoUp w = true ->
  exists w',
    getNotifications mockRedis userId w =
      (Ok (default [] (User.notifications <$> users w !! userId)), w') /\
    redis w' = redis w.
Proof.
  intros Hup. nunfold. wunfold. cbn [redis_get redis_setex mockRedis]. wgo Hup.
  destruct (users w !! userId) as [u|]; wsimpl; by eexists.
Qed.

(** C7, as the service has it.  Against a cache that keeps what it is given
    for the requested 24 hours: (a) once a notification is recorded, a fetch
    within the TTL answers from the cache, whatever the state of the store,
    with a list that ends in that notification; (b) on a miss the fetch
    answers with the user's durable list, leaves that list in the cache,
    and the next fetch answers the same from the cache; (c) on a miss with
    no durable data the answer is the empty list.  Against the development
    client of [config/redis.js], which keeps nothing: (d) the record still
    succeeds, the cache is left as it was, and the fetch that follows
    answers from the store, with the durable list ending in the
    notification for a user the store knows and with the empty list for one
    it does not.  (e) With either client, or any other, a fetch never
    rejects. *)
Theorem notifications_record_then_fetch (w : World) (userId : ObjectId)
  (n : Notification.t) :
  mongoUp w = true ->
  (forall c, rfail (redis w) c = false) ->
  let recorded := sendNotification ttlRedis userId n w in
  let mocked := sendNotification mockRedis userId n w in
  (recorded.1 = Ok true /\
   forall (ms : Z) (w2 : World),
     0 <= ms < 24 * 60 * 60 * 1000 ->
     redis w2 = elapse ms (redis recorded.2) ->
     exists l, (getNotifications ttlRedis userId w2).1 = Ok l /\
               liveEntry userId (redis w2) = Some l /\ last l = Some n) /\
  (forall (w2 : World) (u : User.t),
     mongoUp w2 = true -> (forall c, rfail (redis w2) c = false) ->
     liveEntry userId (redis w2) = None ->
     users w2 !! userId = Some u ->
     let fetched := getNotifications ttlRedis userId w2 in
     fetched.1 = Ok (User.notifications u) /\
     liveEntry userId (redis fetched.2) = Some (User.notifications u) /\
     (getNotifications ttlRedis userId fetched.2).1 = Ok (User.notifications u)) /\
  (forall w2 : World,
     mongoUp w2 = true -> (forall c, rfail (redis w2) c = false) ->
     liveEntry userId (redis w2) = None ->
     default [] (User.notifications <$> users w2 !! userId) = [] ->
     (getNotifications ttlRedis userId w2).1 = Ok []) /\
  (mocked.1 = Ok true /\
   redis mocked.2 = redis w /\
   (getNotifications mockRedis userId mocked.2).1 =
     Ok (default [] ((fun u => User.notifications u ++ [n]) <$> users w !! userId)) /\
   redis (getNotifications mockRedis userId mocked.2).2 = redis w) /\
  (forall (client : RedisClient) (w2 : World),
     exists l, (getNotifications client userId w2).1 = Ok l).
Proof.
  intros Hup Hok recorded mocked. subst recorded mocked.
  destruct (sendNotification_healthy w userId n Hup Hok)
    as (w1 & old & -> & _ & Hfail & Hlive). cbn [fst snd].
  split; [split; [done|]|split; [|split; [|split]]].
  - intros ms w2 Hms Hredis. exists (capped (old ++ [n])).
    assert (liveEntry userId (redis w2) = Some (capped (old ++ [n]))) as Hhit
      by (rewrite Hredis; by apply Hlive).
    split; [|split; [done|apply capped_last]].
    apply getNotifications_hit; [|done].
    rewrite Hredis. cbn. rewrite Hfail. apply Hok.
  - intros w2 u Hup2 Hok2 Hmiss Hu.
    destruct (getNotifications_miss w2 userId Hup2 Hok2 Hmiss)
      as (w3 & Hrun & Hfail3 & Hlive3).
    rewrite Hrun. cbn [fst snd]. rewrite Hu. cbn. split; [done|].
    split; [by apply Hlive3|].
    apply getNotifications_hit; [|by apply Hlive3].
    rewrite Hfail3. apply Hok2.
  - intros w2 Hup2 Hok2 Hmiss Hempty.
    destruct (getNotifications_miss w2 userId Hup2 Hok2 Hmiss) as (w3 & Hrun & _).
    rewrite Hrun. cbn [fst]. by rewrite Hempty.
  - destruct (sendNotification_mock w userId n Hup) as (w2 & -> & Hu2 & Hr2 & Hup2).
    cbn [fst snd].
    destruct (getNotifications_mock w2 userId Hup2) as (w3 & -> & Hr3).
    cbn [fst snd]. split; [done|]. split; [done|]. split; [|congruence].
    rewrite Hu2, lookup_alter_eq. by destruct (users w !! userId).
  - intros client w2. apply getNotifications_total.
Qed.

End NotificationProperties.

(** ** Realtime session: presence and fan-out *)

Lemma broadcasts_app (a b : list Emit) : broadcasts (a ++ b) = broadcasts a ++ broadcasts b.
Proof. unfold broadcasts. by rewrite filter_app, fmap_app. Qed.

Lemma broadcasts_notifications (es : list Emit) :
  Forall (fun e => event e = "notification:new") es -> broadcasts es = [].
Proof.
  unfold broadcasts. induction 1 as [|e es He _ IH]; [done|].
  rewrite filter_cons_False; [done|]. rewrite He. done.
Qed.

Lemma quiet_refl (w : World) : quiet w w.
Proof. repeat split. exists []. by rewrite app_nil_r. Qed.

Lemma quiet_trans (w1 w2 w3 : World) : quiet w1 w2 -> quiet w2 w3 -> quiet w1 w3.
Proof.
  intros (Hm & Hu & Hg & es & He & Hes) (Hm' & Hu' & Hg' & es' & He' & Hes').
  repeat split; try congruence.
  exists (es ++ es'). split; [|by apply Forall_app].
  by rewrite He', He, app_assoc.
Qed.

Section SocketProperties.

Import ChatSocket.

Variable extractTags : string -> list string.
Variable schemaValid : Message.t -> bool.
Variable client : RedisClient.

Lemma notifyMembers_quiet (socket : Socket) (members : list ObjectId)
  (n : Notification.t) (w : World) :
  exists w', notifyMembers client socket members n w = (Ok tt, w') /\ quiet w w'.
Proof.
  revert w. unfold notifyMembers.
  induction members as [|member members IH]; intros w.
  - eexists; split; [reflexivity|apply quiet_refl].
  - cbn [forEach]. unfold bind at 1, when.
    destruct (negb (bool_decide (member = userId socket))).
    + unfold bind at 1.
      destruct (sendNotification_frame client member n w)
        as (b & w1 & -> & Hm & He & Hu & Hg & _).
      wsimpl. unfold emit at 1. wsimpl.
      destruct (IH (set_emitted
                      (emitted w1 ++
                       [mkEmit (ToRoom (RUser member)) "notification:new"
                               (PNotification n)]) w1)) as (w2 & Hrun & Hq).
      exists w2. split; [exact Hrun|].
      eapply quiet_trans; [|exact Hq].
      repeat split; wsimpl; try done.
      eexists; split; [by rewrite He|]. by repeat constructor.
    + unfold ret at 1. wsimpl. destruct (IH w) as (w2 & Hrun & Hq).
      exists w2. split; [exact Hrun|done].
Qed.

Lemma notifyAll_quiet (socket : Socket) (user : User.t) (payload : SendPayload)
  (gid : ObjectId) (g : Group.t) (forwardedGroups : list (ObjectId * Group.t))
  (w : World) :
  mongoUp w = true ->
  groups w !! gid = Some g ->
  exists w', notifyAll client socket user payload (Some gid) forwardedGroups w
             = (Ok tt, w') /\ quiet w w'.
Proof.
  intros Hup Hg. unfold notifyAll.
  unfold bind at 1, Group_findById_populated. rewrite (query_up _ _ Hup).
  cbn [fst snd mbind option_bind]. rewrite Hg. cbn [fmap option_fmap option_map].
  unfold bind at 1. unfold bind at 1, Date_now. wsimpl.
  match goal with |- context [notifyMembers client socket ?ms ?n ?w0] =>
    destruct (notifyMembers_quiet socket ms n w0) as (w1 & -> & Hq1) end.
  wsimpl.
  assert (quiet w w1) as Hq.
  { eapply quiet_trans; [|exact Hq1]. repeat split. exists []. by rewrite app_nil_r. }
  clear Hq1.
  assert (mongoUp w1 = true) as Hup1 by (destruct Hq as (_ & -> & _); done).
  revert w1 Hq Hup1.
  induction forwardedGroups as [|fg fgs IH]; intros w1 Hq Hup1.
  - by eexists.
  - cbn [forEach]. unfold bind at 1, notifyForwardedGroup.
    unfold bind at 1, Group_findById_populated. rewrite (query_up _ _ Hup1).
    cbn [fst snd].
    match goal with |- context [match ?o with Some _ => _ | None => ret tt end] =>
      destruct o as [[g' members]|] end.
    + unfold bind at 1, ret at 1. wsimpl. unfold bind at 1, Date_now. wsimpl.
      match goal with |- context [notifyMembers client socket ?ms ?n ?w0] =>
        destruct (notifyMembers_quiet socket ms n w0) as (w2 & -> & Hq2) end.
      wsimpl. apply IH.
      * eapply quiet_trans; [exact Hq|]. eapply quiet_trans; [|exact Hq2].
        repeat split. exists []. by rewrite app_nil_r.
      * destruct Hq2 as (_ & -> & _). done.
    + unfold ret at 1. wsimpl. by apply IH.
Qed.

Lemma forwardCopy_run (socket : Socket) (payload : SendPayload) (tags : list string)
  (targetGroupId : option ObjectId) (pid : ObjectId) (populatedMsg : option Populated)
  (name region : string) (forwardedIds : list ObjectId) (g : ObjectId * Group.t)
  (w : World) :
  populatedMsg ≫= p_group = Some (name, region) ->
  (forall grp ff ftg created,
     schemaValid (newMessage (userId socket) grp (text payload) (file payload)
                             tags ff ftg created) = true) ->
  mongoUp w = true ->
  let id := fresh (dom (messages w)) in
  let doc := newMessage (userId socket) (Some g.1) (text payload) (file payload)
                        tags (Some pid) forwardedIds (clock w (reads w)) in
  exists w' p,
    forwardCopy schemaValid socket payload tags targetGroupId pid populatedMsg
                forwardedIds g w = (Ok tt, w') /\
    mongoUp w' = true /\ groups w' = groups w /\
    messages w' = <[id := doc]> (messages w) /\
    emitted w' = emitted w ++ [mkEmit (ToRoom (RGroup (Some g.1))) "message:new" p].
Proof.
  intros Hname Hvalid Hup id doc.
  unfold forwardCopy, Message_create, originalGroupName. rewrite Hname.
  wunfold. wsimpl. rewrite Hvalid. wgo Hup.
  do 2 eexists. split; [reflexivity|]. by wsimpl.
Qed.

Lemma fresh_id_unused (w : World) : messages w !! fresh (dom (messages w)) = None.
Proof. apply not_elem_of_dom, is_fresh. Qed.

Lemma forwardCopies_run (socket : Socket) (payload : SendPayload) (tags : list string)
  (targetGroupId : option ObjectId) (pid : ObjectId) (populatedMsg : option Populated)
  (name region : string) (forwardedIds : list ObjectId)
  (gs : list (ObjectId * Group.t)) :
  populatedMsg ≫= p_group = Some (name, region) ->
  (forall grp ff ftg created,
     schemaValid (newMessage (userId socket) grp (text payload) (file payload)
                             tags ff ftg created) = true) ->
  forall w, mongoUp w = true ->
  exists w',
    forEach gs (forwardCopy schemaValid socket payload tags targetGroupId pid
                            populatedMsg forwardedIds) w = (Ok tt, w') /\
    mongoUp w' = true /\ groups w' = groups w /\
    size (messages w') = (length gs + size (messages w))%nat /\
    (forall id m, messages w !! id = Some m -> messages w' !! id = Some m) /\
    (forall id m, messages w' !! id = Some m -> messages w !! id = None ->
       Message.forwardedFrom m = Some pid /\
       exists g, g ∈ gs /\ Message.groupId m = Some g.1) /\
    (forall g, g ∈ gs ->
       exists id m, messages w !! id = None /\ messages w' !! id = Some m /\
                    Message.groupId m = Some g.1 /\
                    Message.forwardedFrom m = Some pid) /\
    exists es, emitted w' = emitted w ++ es /\
               broadcasts es = (fun g => ToRoom (RGroup (Some g.1))) <$> gs.
Proof.
  intros Hname Hvalid. induction gs as [|g gs IH]; intros w Hup.
  - exists w. cbn [forEach]. do 5 (split; [done|]). split; [|split].
    + intros id m Hin Hout. congruence.
    + intros g Hg. by apply elem_of_nil in Hg.
    + exists []. by rewrite app_nil_r.
  - pose proof (forwardCopy_run socket payload tags targetGroupId pid populatedMsg
                  name region forwardedIds g w Hname Hvalid Hup) as Hstep.
    cbv zeta in Hstep. destruct Hstep as (w1 & p & Hrun & Hup1 & Hg1 & Hm1 & He1).
    destruct (IH w1 Hup1)
      as (w' & Hrun' & Hup' & Hg' & Hsize & Hold & Hnew & Hall & es & He' & Hbs).
    pose proof (fresh_id_unused w) as Hfresh.
    exists w'. split.
    { cbn [forEach]. by rewrite (bind_ok _ _ _ _ _ Hrun). }
    split; [done|]. split; [congruence|]. split.
    { rewrite Hsize, Hm1, map_size_insert_None by done. cbn [length]. lia. }
    split.
    { intros id m Hm. apply Hold. rewrite Hm1, lookup_insert_ne; [done|].
      intros <-. congruence. }
    split.
    { intros id m Hm Hnone.
      destruct (decide (id = fresh (dom (messages w)))) as [->|Hne].
      - assert (messages w' !! fresh (dom (messages w)) = Some
                  (newMessage (userId socket) (Some g.1) (text payload)
                     (file payload) tags (Some pid) forwardedIds
                     (clock w (reads w)))) as Hdoc
          by (apply Hold; rewrite Hm1; apply lookup_insert_eq).
        assert (m = newMessage (userId socket) (Some g.1) (text payload)
                     (file payload) tags (Some pid) forwardedIds
                     (clock w (reads w))) as -> by congruence.
        split; [done|]. exists g. split; [by left|done].
      - destruct (Hnew id m Hm) as (Hfwd & g' & Hg'' & Hgrp).
        { rewrite Hm1, lookup_insert_ne; done. }
        split; [done|]. exists g'. split; [by right|done]. }
    split.
    { intros g' Hg''. apply elem_of_cons in Hg'' as [->|Hg''].
      - do 2 eexists. split; [exact Hfresh|]. split.
        + apply Hold. rewrite Hm1. apply lookup_insert_eq.
        + done.
      - destruct (Hall g' Hg'') as (id & m & Hnone & Hm & Hgrp & Hfwd).
        exists id, m. split; [|done].
        rewrite Hm1 in Hnone. by apply lookup_insert_None in Hnone as [? _]. }
    exists ([mkEmit (ToRoom (RGroup (Some g.1))) "message:new" p] ++ es).
    split; [by rewrite He', He1, app_assoc|].
    rewrite broadcasts_app, Hbs. done.
Qed.

Lemma remove_dups_NoDup {A} `{EqDecision A} (l : list A) :
  NoDup l -> remove_dups l = l.
Proof.
  induction 1 as [|x l Hx _ IH]; [done|].
  cbn [remove_dups]. rewrite IH. by destruct (decide_rel elem_of x l).
Qed.

Lemma matched_count_distinct_regions (tags : list string) (w : World) :
  NoDup ((fun kv => Group.region kv.2) <$> map_to_list (groups w)) ->
  length (matchedGroups tags w) = length (matchedRegions tags w).
Proof.
  intros Hdistinct. unfold matchedRegions.
  rewrite remove_dups_NoDup; [by rewrite length_fmap|].
  eapply sublist_NoDup; [exact Hdistinct|].
  unfold matchedGroups. apply fmap_sublist, sublist_filter.
Qed.

Lemma matchedGroups_no_tags (w : World) : matchedGroups [] w = [].
Proof.
  unfold matchedGroups. induction (map_to_list (groups w)) as [|kv l IH]; [done|].
  rewrite filter_cons_False; [done|]. apply not_elem_of_nil.
Qed.

Lemma resolveForwardedGroups_run (payload : SendPayload) (tags : list string)
  (w : World) :
  mongoUp w = true ->
  targetGroups payload = [] ->
  resolveForwardedGroups payload tags w = (Ok (matchedGroups tags w), w).
Proof.
  intros Hup Hnone. unfold resolveForwardedGroups. rewrite Hnone. cbn [length Nat.ltb Nat.leb].
  destruct tags as [|tag tags].
  - cbn [length Nat.ltb Nat.leb]. by rewrite matchedGroups_no_tags.
  - cbn [length Nat.ltb Nat.leb]. unfold Group_find. rewrite (query_up _ _ Hup).
    cbn [fst snd]. f_equal. f_equal. unfold matchedGroups.
    apply list_filter_iff. intros kv. by rewrite bool_decide_eq_true.
Qed.

Lemma Message_create_run (doc : Timestamp -> Message.t) (w : World) :
  mongoUp w = true ->
  schemaValid (doc (clock w (reads w))) = true ->
  Message_create schemaValid doc w =
  (Ok (fresh (dom (messages w)), doc (clock w (reads w))),
   set_messages (<[fresh (dom (messages w)) := doc (clock w (reads w))]> (messages w))
                (set_reads (S (reads w)) w)).
Proof.
  intros Hup Hvalid. unfold Message_create. wunfold. wsimpl. rewrite Hvalid. by wgo Hup.
Qed.

Lemma Message_create_invalid (doc : Timestamp -> Message.t) (w : World) :
  schemaValid (doc (clock w (reads w))) = false ->
  Message_create schemaValid doc w =
  (Throw ValidationError, set_reads (S (reads w)) w).
Proof.
  intros Hvalid. unfold Message_create. wunfold. wsimpl. by rewrite Hvalid.
Qed.

(** The run of [message:send] when nothing on its way fails. *)
Lemma onMessageSend_run (w : World) (socket : Socket) (user : User.t)
  (payload : SendPayload) (gid : ObjectId) (g : Group.t) :
  mongoUp w = true ->
  targetGroups payload = [] ->
  match groupId payload with Some x => Some x | None => User.groupId user end
    = Some gid ->
  groups w !! gid = Some g ->
  (forall grp ff ftg created,
     schemaValid (newMessage (userId socket) grp (text payload) (file payload)
                    (extractTags (text payload)) ff ftg created) = true) ->
  let matched := matchedGroups (extractTags (text payload)) w in
  let pid := fresh (dom (messages w)) in
  let primary := newMessage (userId socket) (Some gid) (text payload) (file payload)
                   (extractTags (text payload)) None matched.*1 (clock w (reads w)) in
  exists w' es,
    onMessageSend extractTags schemaValid client socket user payload w
      = (Ok (mkAck true pid), w') /\
    messages w !! pid = None /\
    messages w' !! pid = Some primary /\
    Message.forwardedFrom primary = None /\
    Message.groupId primary = Some gid /\
    size (messages w') = (size (messages w) + 1 + length matched)%nat /\
    (forall id m, messages w !! id = Some m -> messages w' !! id = Some m) /\
    (forall id m, messages w' !! id = Some m -> messages w !! id = None ->
       id <> pid ->
       Message.forwardedFrom m = Some pid /\
       exists grp, grp ∈ matched /\ Message.groupId m = Some grp.1) /\
    (forall grp, grp ∈ matched ->
       exists id m, id <> pid /\ messages w !! id = None /\
                    messages w' !! id = Some m /\
                    Message.groupId m = Some grp.1 /\
                    Message.forwardedFrom m = Some pid) /\
    emitted w' = emitted w ++ es /\
    broadcasts es =
      ToRoom (RGroup (Some gid)) ::
      ((fun grp => ToRoom (RGroup (Some grp.1))) <$> matched).
Proof.
  intros Hup Hnone Htarget Hg Hvalid matched pid0 primary0. subst pid0 primary0.
  pose proof (fresh_id_unused w) as Hfresh.
  unfold onMessageSend. rewrite Htarget.
  rewrite (bind_ok _ _ _ _ _ (resolveForwardedGroups_run payload _ w Hup Hnone)).
  fold matched.
  rewrite (bind_ok _ _ _ _ _ (Message_create_run _ w Hup (Hvalid _ _ _ _))).
  cbn [fst snd].
  set (pid := fresh (dom (messages w))) in *.
  set (doc := newMessage (userId socket) (Some gid) (text payload) (file payload)
                (extractTags (text payload)) None matched.*1 (clock w (reads w))).
  set (w1 := set_messages (<[pid := doc]> (messages w)) (set_reads (S (reads w)) w)).
  assert (mongoUp w1 = true) as Hup1 by done.
  unfold Message_findById_populated.
  rewrite (bind_ok _ _ _ _ _ (query_up _ w1 Hup1)). cbn [fst snd].
  assert (messages w1 !! pid = Some doc) as Hdoc by apply lookup_insert_eq.
  rewrite Hdoc. cbn [fmap option_fmap option_map].
  unfold bind at 1, emit at 1. cbn [fst snd].
  set (w2 := set_emitted _ w1).
  assert (Some (populate w1 pid doc) ≫= p_group = Some (Group.name g, Group.region g))
    as Hname.
  { cbn. change (groups w1) with (groups w). by rewrite Hg. }
  destruct (forwardCopies_run socket payload (extractTags (text payload)) (Some gid)
              pid (Some (populate w1 pid doc)) _ _ matched.*1 matched Hname Hvalid
              w2 Hup1)
    as (w3 & Hrun3 & Hup3 & Hg3 & Hsize & Hold & Hnew & Hall & es & He3 & Hbs).
  rewrite (bind_ok _ _ _ _ _ Hrun3).
  destruct (notifyAll_quiet socket user payload gid g matched w3 Hup3)
    as (w4 & Hrun4 & Hm4 & _ & _ & es' & He4 & Hes').
  { by rewrite Hg3. }
  rewrite (bind_ok _ _ _ _ _ Hrun4). unfold ret.
  exists w4, ([mkEmit (ToRoom (RGroup (Some gid))) "message:new"
                           (PMessage (Some (populate w1 pid doc)))] ++ es ++ es').
  split; [done|]. split; [done|]. rewrite Hm4.
  split; [by apply Hold|]. split; [reflexivity|]. split; [reflexivity|]. split.
  { rewrite Hsize. change (messages w2) with (<[pid := doc]> (messages w)).
    rewrite map_size_insert_None by done. lia. }
  split.
  { intros id m Hm. apply Hold. change (messages w2) with (<[pid := doc]> (messages w)).
    rewrite lookup_insert_ne; [done|]. intros <-. congruence. }
  split.
  { intros id m Hm Hnone' Hne. apply (Hnew id m); [done|].
    change (messages w2) with (<[pid := doc]> (messages w)).
    by rewrite lookup_insert_ne. }
  split.
  { intros grp Hgrp. destruct (Hall grp Hgrp) as (id & m & Hnone' & Hm & Hgid & Hfwd).
    change (messages w2) with (<[pid := doc]> (messages w)) in Hnone'.
    apply lookup_insert_None in Hnone' as [Hnone' Hne].
    exists id, m. split; [congruence|]. done. }
  split.
  { rewrite He4, He3. change (emitted w2) with (emitted w ++
      [mkEmit (ToRoom (RGroup (Some gid))) "message:new"
              (PMessage (Some (populate w1 pid doc)))]).
    by rewrite <- !app_assoc. }
  rewrite !broadcasts_app, Hbs, (broadcasts_notifications es' Hes'), app_nil_r. done.
Qed.

(** C1, as the handler has it.  For a send with no explicit [targetGroups]
    whose target group exists, with the store reachable and the schema
    accepting the documents, let [N] be the number of groups whose region is
    among the extracted tags.  The handler acknowledges with the id of a new
    primary record; exactly [N + 1] records are added and none is changed;
    every added record other than the primary carries [forwardedFrom] equal
    to the primary's id and belongs to a matched group, and every matched
    group has such a copy; exactly [N + 1] [message:new] broadcasts are
    emitted, to the target group room and then to the room of each matched
    group.  With no tags, [N] is 0; when no two groups share a region, [N]
    is the number of distinct regions matched. *)
Theorem send_fans_out_per_matched_group (w : World) (socket : Socket)
  (user : User.t) (payload : SendPayload) (gid : ObjectId) (g : Group.t) :
  mongoUp w = true ->
  targetGroups payload = [] ->
  match groupId payload with Some x => Some x | None => User.groupId user end
    = Some gid ->
  groups w !! gid = Some g ->
  (forall grp ff ftg created,
     schemaValid (newMessage (userId socket) grp (text payload) (file payload)
                    (extractTags (text payload)) ff ftg created) = true) ->
  let matched := matchedGroups (extractTags (text payload)) w in
  let N := length matched in
  let out := onMessageSend extractTags schemaValid client socket user payload w in
  let w' := out.2 in
  exists pid primary es,
    out.1 = Ok (mkAck true pid) /\
    messages w !! pid = None /\
    messages w' !! pid = Some primary /\
    Message.forwardedFrom primary = None /\
    Message.groupId primary = Some gid /\
    size (messages w') = (size (messages w) + (N + 1))%nat /\
    (forall id m, messages w !! id = Some m -> messages w' !! id = Some m) /\
    (forall id m, messages w' !! id = Some m -> messages w !! id = None ->
       id <> pid ->
       Message.forwardedFrom m = Some pid /\
       exists grp, grp ∈ matched /\ Message.groupId m = Some grp.1) /\
    (forall grp, grp ∈ matched ->
       exists id m, id <> pid /\ messages w !! id = None /\
                    messages w' !! id = Some m /\
                    Message.groupId m = Some grp.1 /\
                    Message.forwardedFrom m = Some pid) /\
    emitted w' = emitted w ++ es /\
    broadcasts es =
      ToRoom (RGroup (Some gid)) ::
      ((fun grp => ToRoom (RGroup (Some grp.1))) <$> matched) /\
    length (broadcasts es) = (N + 1)%nat /\
    (extractTags (text payload) = [] -> N = 0%nat) /\
    (NoDup ((fun kv => Group.region kv.2) <$> map_to_list (groups w)) ->
     N = length (matchedRegions (extractTags (text payload)) w)).
Proof.
  intros Hup Hnone Htarget Hg Hvalid matched N out w'. subst w' out.
  pose proof (onMessageSend_run w socket user payload gid g
                Hup Hnone Htarget Hg Hvalid) as Hrun.
  cbv zeta in Hrun.
  destruct Hrun as (w' & es & -> & Hfresh & Hprimary & Hfwd & Hgid
                    & Hsize & Hold & Hnew & Hall & Hes & Hbs).
  cbn [fst snd]. do 2 eexists. exists es.
  do 5 (split; [done|]). split; [subst N matched; lia|].
  do 5 (split; [done|]). split.
  - rewrite Hbs. cbn [length]. rewrite length_fmap. subst N matched. lia.
  - split.
    + intros Hnotags. subst N matched. rewrite Hnotags.
      by rewrite matchedGroups_no_tags.
    + intros Hdistinct. subst N matched.
      by apply matched_count_distinct_regions.
Qed.

(** C6, on the realtime path.  A [message:send] with an empty text and no
    file, to an existing group with the store reachable, is never answered
    by a validation failure.  If the schema accepts the document, the
    message is persisted, broadcast to the group room and acknowledged with
    [ok = true]; if the schema refuses it, the listener rejects with nothing
    acknowledged. *)
Theorem socket_send_without_content_not_rejected (w : World) (socket : Socket)
  (user : User.t) (target : option ObjectId) (gid : ObjectId) (g : Group.t) :
  mongoUp w = true ->
  match target with Some x => Some x | None => User.groupId user end = Some gid ->
  groups w !! gid = Some g ->
  let payload := mkSend EmptyString None target [] in
  let out := onMessageSend extractTags schemaValid client socket user payload w in
  ((forall d, schemaValid d = true) ->
     exists pid primary es,
       out.1 = Ok (mkAck true pid) /\
       messages w !! pid = None /\
       messages out.2 !! pid = Some primary /\
       Message.text primary = EmptyString /\ Message.file primary = None /\
       emitted out.2 = emitted w ++ es /\
       ToRoom (RGroup (Some gid)) ∈ broadcasts es) /\
  ((forall d, Message.text d = EmptyString -> Message.file d = None -> schemaValid d = false) ->
     out.1 = Throw ValidationError /\
     messages out.2 = messages w /\ emitted out.2 = emitted w).
Proof.
  intros Hup Htarget Hg payload out. subst out. split.
  - intros Hvalid.
    pose proof (onMessageSend_run w socket user payload gid g
                  Hup eq_refl Htarget Hg (fun _ _ _ _ => Hvalid _)) as Hrun.
    cbv zeta in Hrun.
    destruct Hrun as (w' & es & -> & Hfresh & Hprimary & _ & _
                      & _ & _ & _ & _ & Hes & Hbs).
    cbn [fst snd]. do 2 eexists. exists es.
    do 3 (split; [done|]). do 3 (split; [done|]).
    rewrite Hbs. by left.
  - intros Hinvalid. unfold onMessageSend.
    change (groupId payload) with target. rewrite Htarget.
    rewrite (bind_ok _ _ _ _ _ (resolveForwardedGroups_run payload _ w Hup eq_refl)).
    erewrite bind_throw; [|apply Message_create_invalid; by apply Hinvalid].
    done.
Qed.

Lemma onConnection_run (w : World) (socket : Socket) (user : User.t) :
  mongoUp w = true ->
  users w !! userId socket = Some user ->
  exists w' es,
    onConnection socket w = (Ok (Some user), w') /\
    users w' = alter (User.set_presence true (clock w (reads w))) (userId socket)
                     (users w) /\
    emitted w' = emitted w ++ es /\
    summary <$> es = presenceEvents true socket user.
Proof.
  intros Hup Huser. unfold onConnection, presenceEvents. wunfold. wgo Hup.
  rewrite Huser. wgo Hup.
  destruct (User.groupId user) as [grp|];
    destruct (bool_decide (User.role user = admin)); wgo Hup;
    (do 2 eexists; split; [reflexivity|]; wsimpl; split; [done|];
     rewrite <- ?app_assoc; split; [reflexivity|done]).
Qed.

Lemma onDisconnect_run (w : World) (socket : Socket) (user : User.t) :
  mongoUp w = true ->
  exists w' es,
    onDisconnect socket user w = (Ok tt, w') /\
    users w' = alter (User.set_presence false (clock w (reads w))) (userId socket)
                     (users w) /\
    emitted w' = emitted w ++ es /\
    summary <$> es = presenceEvents false socket user.
Proof.
  intros Hup. unfold onDisconnect, presenceEvents. wunfold. wgo Hup.
  destruct (User.groupId user) as [grp|]; wgo Hup;
    (do 2 eexists; split; [reflexivity|]; wsimpl; split; [done|];
     rewrite <- ?app_assoc; split; [reflexivity|done]).
Qed.

(** A verified token whose user is gone: the socket is dropped, nothing is
    stored or announced, and no listener is registered. *)
Lemma onConnection_unknown_user (w : World) (socket : Socket) :
  mongoUp w = true ->
  users w !! userId socket = None ->
  exists w',
    onConnection socket w = (Ok None, w') /\
    users w' = users w /\ emitted w' = emitted w /\
    id socket ∉ connected w'.
Proof.
  intros Hup Hnone. unfold onConnection. wunfold. wgo Hup. rewrite Hnone. wsimpl.
  eexists; split; [reflexivity|]. wsimpl. do 2 (split; [done|]).
  rewrite list_elem_of_filter. by intros [? _].
Qed.

(** C5, as the handlers have it.  For a connection whose user exists, with
    the store reachable, the connect transition stores [isOnline = true] and
    the clock reading as [lastSeen], leaving the other fields of the user
    and every other user as they were, and then announces it, in this
    order, to the user's group room without the socket itself (only when
    the user has a group), to the admin room without the socket, through
    [socket.emit], and to every connection: four emissions with a group,
    three without.  The disconnect listener stores [isOnline = false] and
    the clock reading as [lastSeen] and announces the offline transition to
    the same destinations in the same order.  The emission through
    [socket.emit] reaches the connecting socket alone; the source's comment
    over it names the user's personal room. *)
Theorem presence_transitions (w w2 : World) (socket : Socket) (user user2 : User.t) :
  mongoUp w = true ->
  users w !! userId socket = Some user ->
  mongoUp w2 = true ->
  users w2 !! userId socket = Some user2 ->
  let c := onConnection socket w in
  let d := onDisconnect socket user w2 in
  let stored (online : bool) (seen : Timestamp) (u : User.t) :=
    User.mk (User.username u) (User.role u) (User.groupId u) online (Some seen)
            (User.groupJoinedAt u) (User.notifications u) in
  c.1 = Ok (Some user) /\
  users c.2 !! userId socket = Some (stored true (clock w (reads w)) user) /\
  (forall other, other <> userId socket -> users c.2 !! other = users w !! other) /\
  (exists es, emitted c.2 = emitted w ++ es /\
              summary <$> es = presenceEvents true socket user) /\
  d.1 = Ok tt /\
  users d.2 !! userId socket = Some (stored false (clock w2 (reads w2)) user2) /\
  (forall other, other <> userId socket -> users d.2 !! other = users w2 !! other) /\
  (exists es, emitted d.2 = emitted w2 ++ es /\
              summary <$> es = presenceEvents false socket user) /\
  (presenceEvents true socket user).*1.*1 = (presenceEvents false socket user).*1.*1 /\
  length (presenceEvents true socket user)
    = match User.groupId user with Some _ => 4%nat | None => 3%nat end.
Proof.
  intros Hup Huser Hup2 Huser2 c d stored. subst c d stored.
  destruct (onConnection_run w socket user Hup Huser) as (w' & es & -> & Hu & He & Hs).
  destruct (onDisconnect_run w2 socket user Hup2) as (w2' & es2 & -> & Hu2 & He2 & Hs2).
  cbn [fst snd]. split; [done|]. split.
  { by rewrite Hu, lookup_alter_eq, Huser. }
  split; [by intros other Hne; rewrite Hu, lookup_alter_ne|].
  split; [by exists es|]. split; [done|]. split.
  { by rewrite Hu2, lookup_alter_eq, Huser2. }
  split; [by intros other Hne; rewrite Hu2, lookup_alter_ne|].
  split; [by exists es2|].
  unfold presenceEvents. by destruct (User.groupId user).
Qed.

(** The HTTP path does refuse a send without content, before it touches
    anything. *)
Lemma sendMessage_requires_content (w : World) (user : MessageController.ReqUser)
  (text : option string) (group : option ObjectId) :
  MessageController.noText text = true ->
  MessageController.sendMessage extractTags schemaValid user text group None w =
  (Ok (MessageController.mkResponse 400
         (MessageController.BError "Message text or file is required")), w).
Proof.
  intros Hno. unfold MessageController.sendMessage. wunfold. by rewrite Hno.
Qed.

End SocketProperties.

(** * The rest of the handlers *)

Ltac wsimpl_all :=
  cbn [fst snd negb
       mongoUp messages groups users redis io rooms connected emitted console
       clock reads
       set_messages set_users set_redis set_rooms set_connected set_emitted
       set_console set_reads] in *.

(** ** Notification store: cap, failures, clearing *)

Section MoreNotificationProperties.

Import NotificationService.

Ltac nsunfold :=
  unfold sendNotification, getNotifications, markNotificationsAsSeen,
         clearNotifications, redisGet, redisSetex, redisDel.

Lemma capped_suffix (l : list Notification.t) : capped l `suffix_of` l.
Proof.
  unfold capped. destruct (100 <? length l)%nat; [|done].
  exists (take (length l - 100) l). by rewrite take_drop.
Qed.

Lemma capped_exact_length (l : list Notification.t) :
  length (capped l) = (length l `min` 100)%nat.
Proof.
  unfold capped. destruct (100 <? length l)%nat eqn:Hlong.
  - apply Nat.ltb_lt in Hlong. rewrite length_drop. lia.
  - apply Nat.ltb_ge in Hlong. lia.
Qed.

Lemma sendNotification_ttl_run (w : World) (userId : ObjectId) (n : Notification.t) :
  mongoUp w = true ->
  (forall c, rfail (redis w) c = false) ->
  exists w',
    sendNotification ttlRedis userId n w = (Ok true, w') /\
    users w' = alter (pushNotification n) userId (users w) /\
    mongoUp w' = true /\
    rfail (redis w') = rfail (redis w) /\
    rtime (redis w') = rtime (redis w) /\
    liveEntry userId (redis w') =
      Some (capped (default [] (liveEntry userId (redis w)) ++ [n])).
Proof.
  intros Hup Hok. nsunfold. wunfold. wgo Hup. cbn [redis_get redis_setex ttlRedis].
  destruct (ttl_get_healthy userId (redis w) (Hok GET)) as (s & -> & Htime & Hfail & _).
  wsimpl. unfold ttl_setex. rewrite Hfail, (Hok SETEX). wsimpl.
  eexists. split; [reflexivity|]. wsimpl. do 4 (split; [done|]).
  unfold liveEntry at 1. cbn. rewrite lookup_insert_eq.
  by replace (rtime s <? rtime s + 24 * 60 * 60 * 1000) with true
    by (symmetry; apply Z.ltb_lt; lia).
Qed.

(** X1. With the store reachable and a cache that keeps what it is given,
    recording a notification leaves in the cache the list that was live
    there (the empty list on a miss) with the notification appended, cut
    from the front to its last 100 entries: what is cached is a suffix of
    that list, it ends in the new notification, it holds the smaller of
    100 and one more than before, and nothing is cut while fewer than 100
    were cached. *)
Theorem cache_keeps_latest_hundred (w : World) (userId : ObjectId)
  (n : Notification.t) :
  mongoUp w = true ->
  (forall c, rfail (redis w) c = false) ->
  let old := default [] (liveEntry userId (redis w)) in
  let out := sendNotification ttlRedis userId n w in
  exists l,
    liveEntry userId (redis out.2) = Some l /\
    l `suffix_of` (old ++ [n]) /\
    last l = Some n /\
    length l = (S (length old) `min` 100)%nat /\
    ((length old < 100)%nat -> l = old ++ [n]).
Proof.
  intros Hup Hok old out. subst out.
  destruct (sendNotification_ttl_run w userId n Hup Hok)
    as (w' & -> & _ & _ & _ & _ & Hlive).
  cbn [snd]. exists (capped (old ++ [n])). split; [exact Hlive|].
  split; [apply capped_suffix|]. split; [apply capped_last|]. split.
  - rewrite capped_exact_length, length_app. cbn [length]. lia.
  - intros Hshort. unfold capped.
    replace (100 <? length (old ++ [n]))%nat with false; [done|].
    symmetry. apply Nat.ltb_ge. rewrite length_app. cbn [length]. lia.
Qed.

(** X2. [sendNotification] never rejects and answers [true] exactly when
    all three of its steps went through: the store was reachable, the cache
    read resolved, and the cache accepted the write of the capped list.
    The durable append is the first step: it is kept whenever the store
    was reachable, also when the answer is [false] because the cache
    failed afterwards; and when the store cannot be reached the only
    effect is the logged error, the cache having been neither read nor
    written, whatever client is behind it. *)
Theorem sendNotification_outcome (client : RedisClient) (w : World)
  (userId : ObjectId) (n : Notification.t) :
  let out := sendNotification client userId n w in
  (out.1 = Ok true \/ out.1 = Ok false) /\
  users out.2 = (if mongoUp w then alter (pushNotification n) userId (users w)
                 else users w) /\
  (mongoUp w = false ->
     out = (Ok false,
            set_console
              (console w ++ [LogError "Error sending notification:" MongoNetworkError])
              w)) /\
  (out.1 = Ok true <->
     mongoUp w = true /\
     exists cached s1 s2,
       redis_get client userId (redis w) = (Ok cached, s1) /\
       redis_setex client userId (24 * 60 * 60) (capped (default [] cached ++ [n])) s1
         = (Ok tt, s2)).
Proof.
  cbv zeta. nsunfold. wunfold. destruct (mongoUp w) eqn:Hup; wsimpl.
  2: { split; [by right|]. split; [done|]. split; [done|].
       split; [done|]. by intros [? _]. }
  destruct (redis_get client userId (redis w)) as [[cached|e] s1] eqn:Hget; wsimpl.
  2: { split; [by right|]. split; [done|]. split; [done|].
       split; [done|]. by intros (_ & ? & ? & ? & ? & _). }
  destruct (redis_setex client userId (24 * 60 * 60)
              (capped (default [] cached ++ [n])) s1) as [[[]|e] s2] eqn:Hset; wsimpl.
  - split; [by left|]. split; [done|]. split; [done|].
    split; [intros _; split; [done|]; by exists cached, s1, s2|done].
  - split; [by right|]. split; [done|]. split; [done|].
    split; [done|]. intros (_ & c & t1 & t2 & [= <- <-] & Hset').
    rewrite Hset in Hset'. done.
Qed.

(** X3. What [getNotifications] answers when something fails, for any
    cache client.  It changes no user record.  A cache read that fails is
    not a miss: the error is logged and the empty list answered, the store
    not being consulted.  A cache hit is answered as cached, whether or
    not the store is reachable.  On a miss the store is asked: an
    unreachable store gives the empty list with the error logged, an
    unknown user the empty list; for a known user the durable list is
    answered only if the cache accepts it, and a cache that rejects the
    write makes the answer the empty list although the list was read. *)
Theorem getNotifications_failure_modes (client : RedisClient) (w : World)
  (userId : ObjectId) :
  let out := getNotifications client userId w in
  users out.2 = users w /\
  (forall e s, redis_get client userId (redis w) = (Throw e, s) ->
     out.1 = Ok [] /\
     console out.2 = console w ++ [LogError "Error getting notifications:" e]) /\
  (forall cached s, redis_get client userId (redis w) = (Ok (Some cached), s) ->
     out.1 = Ok cached /\ console out.2 = console w) /\
  (forall s, redis_get client userId (redis w) = (Ok None, s) ->
     (mongoUp w = false ->
        out.1 = Ok [] /\
        console out.2 =
          console w ++ [LogError "Error getting notifications:" MongoNetworkError]) /\
     (mongoUp w = true -> users w !! userId = None ->
        out.1 = Ok [] /\ console out.2 = console w) /\
     (forall u, mongoUp w = true -> users w !! userId = Some u ->
        (forall s', redis_setex client userId (24 * 60 * 60) (User.notifications u) s
                      = (Ok tt, s') ->
           out.1 = Ok (User.notifications u)) /\
        (forall e s', redis_setex client userId (24 * 60 * 60) (User.notifications u) s
                        = (Throw e, s') ->
           out.1 = Ok [] /\
           console out.2 = console w ++ [LogError "Error getting notifications:" e]))).
Proof.
  cbv zeta. nsunfold. wunfold.
  destruct (redis_get client userId (redis w)) as [[[cached|]|e] s] eqn:Hget; wsimpl.
  - split; [done|]. split; [done|]. split; [by intros ? ? [= <- <-]|done].
  - destruct (mongoUp w) eqn:Hup; wsimpl.
    + destruct (users w !! userId) as [u|] eqn:Hu; wsimpl.
      * destruct (redis_setex client userId (24 * 60 * 60) (User.notifications u) s)
          as [[[]|e] s'] eqn:Hset; wsimpl.
        all: split; [done|]; split; [done|]; split; [done|].
        all: intros ? [= <-]; split; [done|]; split; [done|].
        all: intros u' _ [= <-]; rewrite Hset; split.
        all: try done.
        all: by intros ? ? [= <- <-].
      * split; [done|]. split; [done|]. split; [done|].
        intros ? [= <-]. split; [done|]. split; [done|]. done.
    + split; [done|]. split; [done|]. split; [done|].
      intros ? [= <-]. split; [done|]. split; [done|]. done.
  - split; [done|]. split; [by intros ? ? [= <- <-]|]. split; done.
Qed.

(** X4. Recording on a cold cache caches the new notification alone: for a
    user whose durable list already holds notifications and whose cache
    entry is absent or expired, after [sendNotification] the durable list
    is the old list with the notification appended, while a fetch against
    a cache that keeps its entries answers the one-element list. *)
Theorem cold_cache_record_masks_history (w : World) (userId : ObjectId)
  (n : Notification.t) (u : User.t) :
  mongoUp w = true ->
  (forall c, rfail (redis w) c = false) ->
  liveEntry userId (redis w) = None ->
  users w !! userId = Some u ->
  let recorded := sendNotification ttlRedis userId n w in
  recorded.1 = Ok true /\
  User.notifications <$> users recorded.2 !! userId = Some (User.notifications u ++ [n]) /\
  (getNotifications ttlRedis userId recorded.2).1 = Ok [n].
Proof.
  intros Hup Hok Hcold Hu recorded. subst recorded.
  destruct (sendNotification_ttl_run w userId n Hup Hok)
    as (w' & -> & Husers & _ & Hfail & _ & Hlive).
  cbn [fst snd]. split; [done|]. split.
  - by rewrite Husers, lookup_alter_eq, Hu.
  - apply getNotifications_hit.
    + rewrite Hfail. apply Hok.
    + by rewrite Hlive, Hcold.
Qed.

Lemma liveEntry_deleted (k : ObjectId) (s : RedisState) :
  liveEntry k (set_entries (delete k (entries s)) s) = None.
Proof. unfold liveEntry. cbn. by rewrite lookup_delete_eq. Qed.

Lemma clear_run (w : World) (userId : ObjectId) :
  mongoUp w = true ->
  rfail (redis w) DEL = false ->
  let w' := set_users (alter (User.set_notifications []) userId (users w))
              (set_redis (set_entries (delete userId (entries (redis w))) (redis w)) w) in
  markNotificationsAsSeen ttlRedis userId w = (Ok true, w') /\
  clearNotifications ttlRedis userId w = (Ok true, w').
Proof.
  intros Hup Hok. cbv zeta. nsunfold. wunfold. cbn [redis_del ttlRedis].
  unfold ttl_del. rewrite Hok. by wgo Hup.
Qed.

(** X5. With the store and the cache working, [clearNotifications] and
    [markNotificationsAsSeen] do the same thing: both resolve to [true],
    the user's cache entry is gone, the user's durable list is empty and
    no other user is touched; the fetch that follows answers the empty
    list, and clearing again changes nothing. *)
Theorem clear_then_fetch_is_empty (w : World) (userId : ObjectId) :
  mongoUp w = true ->
  (forall c, rfail (redis w) c = false) ->
  let seen := markNotificationsAsSeen ttlRedis userId w in
  let cleared := clearNotifications ttlRedis userId w in
  seen = cleared /\
  cleared.1 = Ok true /\
  liveEntry userId (redis cleared.2) = None /\
  (forall u, users w !! userId = Some u ->
     users cleared.2 !! userId = Some (User.set_notifications [] u)) /\
  (forall other, other <> userId -> users cleared.2 !! other = users w !! other) /\
  (getNotifications ttlRedis userId cleared.2).1 = Ok [] /\
  clearNotifications ttlRedis userId cleared.2 = (Ok true, cleared.2).
Proof.
  intros Hup Hok seen cleared. subst seen cleared.
  pose proof (clear_run w userId Hup (Hok DEL)) as Hrun. cbv zeta in Hrun.
  destruct Hrun as [-> ->]. cbn [fst snd].
  set (w' := set_users _ _).
  split; [done|]. split; [done|]. split; [apply liveEntry_deleted|]. split.
  { intros u Hu. subst w'. wsimpl. by rewrite lookup_alter_eq, Hu. }
  split.
  { intros other Hne. subst w'. wsimpl. by rewrite lookup_alter_ne. }
  split.
  - destruct (getNotifications_miss w' userId) as (w2 & -> & _); [done|apply Hok| |].
    { apply liveEntry_deleted. }
    cbn [fst]. subst w'. wsimpl. rewrite lookup_alter_eq.
    by destruct (users w !! userId).
  - pose proof (clear_run w' userId Hup (Hok DEL)) as Hrun. cbv zeta in Hrun.
    destruct Hrun as [_ ->]. f_equal. subst w'. wsimpl.
    unfold set_users, set_redis, set_entries. cbn. f_equal.
    + apply map_eq. intros j. destruct (decide (j = userId)) as [->|Hne].
      * rewrite !lookup_alter_eq. by destruct (users w !! userId).
      * by rewrite !lookup_alter_ne.
    + f_equal. apply delete_delete_eq.
Qed.

(** X6. [markNotificationsAsSeen] and [clearNotifications] are the same
    operation under two log messages: on every state and cache client they
    give the same answer, the same user records and the same cache.  The
    answer is [true] exactly when the cache accepted the delete and the
    store was reachable; then the user's durable list is empty, and on
    [false] no user record has changed: the cache is evicted first, so a
    cache that rejects the delete leaves the durable list alone even
    though the store is reachable. *)
Theorem clear_outcome (client : RedisClient) (w : World) (userId : ObjectId) :
  let seen := markNotificationsAsSeen client userId w in
  let cleared := clearNotifications client userId w in
  seen.1 = cleared.1 /\ users seen.2 = users cleared.2 /\
  redis seen.2 = redis cleared.2 /\
  (cleared.1 = Ok true \/ cleared.1 = Ok false) /\
  (cleared.1 = Ok true <->
     mongoUp w = true /\ exists k s, redis_del client userId (redis w) = (Ok k, s)) /\
  (cleared.1 = Ok true ->
     users cleared.2 = alter (User.set_notifications []) userId (users w)) /\
  (cleared.1 = Ok false -> users cleared.2 = users w) /\
  (forall e s, redis_del client userId (redis w) = (Throw e, s) ->
     console seen.2 =
       console w ++ [LogError "Error marking notifications as seen:" e] /\
     console cleared.2 = console w ++ [LogError "Error clearing notifications:" e]).
Proof.
  cbv zeta. nsunfold. wunfold.
  destruct (redis_del client userId (redis w)) as [[k|e] s] eqn:Hdel; wsimpl.
  - destruct (mongoUp w) eqn:Hup; wsimpl.
    + do 3 (split; [done|]). split; [by left|].
      split; [split; [intros _; split; [done|]; by exists k, s|done]|].
      split; [done|]. split; done.
    + do 3 (split; [done|]). split; [by right|].
      split; [split; [done|by intros [? _]]|]. split; [done|]. split; done.
  - do 3 (split; [done|]). split; [by right|].
    split; [split; [done|by intros (_ & ? & ? & ?)]|]. split; [done|].
    split; [done|]. by intros ? ? [= <- <-].
Qed.

Lemma clear_store_down (w : World) (userId : ObjectId) :
  mongoUp w = false ->
  rfail (redis w) DEL = false ->
  exists w',
    clearNotifications ttlRedis userId w = (Ok false, w') /\
    (markNotificationsAsSeen ttlRedis userId w).1 = Ok false /\
    users w' = users w /\
    redis w' = set_entries (delete userId (entries (redis w))) (redis w).
Proof.
  intros Hdown Hok. nsunfold. wunfold. cbn [redis_del ttlRedis]. unfold ttl_del.
  rewrite Hok. wgo Hdown. by eexists.
Qed.

(** X7. A clear that fails half-way has evicted the cache and cleared
    nothing: with the store unreachable and the cache working, both
    functions resolve to [false], the cache entry is gone and the durable
    list is what it was, so once the store is back a fetch answers the
    whole uncleared list. *)
Theorem clear_with_store_down_evicts_only (w : World) (userId : ObjectId) (u : User.t) :
  mongoUp w = false ->
  (forall c, rfail (redis w) c = false) ->
  users w !! userId = Some u ->
  let cleared := clearNotifications ttlRedis userId w in
  cleared.1 = Ok false /\
  (markNotificationsAsSeen ttlRedis userId w).1 = Ok false /\
  liveEntry userId (redis cleared.2) = None /\
  users cleared.2 = users w /\
  forall w2, mongoUp w2 = true -> users w2 = users cleared.2 ->
    redis w2 = redis cleared.2 ->
    (getNotifications ttlRedis userId w2).1 = Ok (User.notifications u).
Proof.
  intros Hdown Hok Hu cleared. subst cleared.
  destruct (clear_store_down w userId Hdown (Hok DEL))
    as (w' & -> & Hseen & Husers & Hredis).
  cbn [fst snd]. do 2 (split; [done|]).
  split; [rewrite Hredis; apply liveEntry_deleted|]. split; [done|].
  intros w2 Hup2 Husers2 Hredis2.
  destruct (getNotifications_miss w2 userId) as (w3 & -> & _); [done| | |].
  - intros c. rewrite Hredis2, Hredis. apply Hok.
  - rewrite Hredis2, Hredis. apply liveEntry_deleted.
  - cbn [fst]. by rewrite Husers2, Husers, Hu.
Qed.

(** X8. None of the four functions of the service ever rejects, whatever
    the cache client and the store do, and none touches the messages, the
    groups, the emitted events, the rooms, the connections or another
    user's record; [getNotifications] changes no user record at all. *)
Theorem notification_service_never_rejects (client : RedisClient) (w : World)
  (userId : ObjectId) (n : Notification.t) :
  let untouched (w' : World) :=
    messages w' = messages w /\ groups w' = groups w /\ emitted w' = emitted w /\
    rooms w' = rooms w /\ connected w' = connected w /\
    forall other, other <> userId -> users w' !! other = users w !! other in
  (exists b w', sendNotification client userId n w = (Ok b, w') /\ untouched w') /\
  (exists l w', getNotifications client userId w = (Ok l, w') /\ untouched w'
                /\ users w' = users w) /\
  (exists b w', markNotificationsAsSeen client userId w = (Ok b, w') /\ untouched w') /\
  (exists b w', clearNotifications client userId w = (Ok b, w') /\ untouched w').
Proof.
  cbv zeta. nsunfold. wunfold. repeat split.
  - destruct (mongoUp w) eqn:Hup; wsimpl.
    + destruct (redis_get client userId (redis w)) as [[cached|e] s]; wsimpl.
      * destruct (redis_setex client userId (24 * 60 * 60)
                    (capped (default [] cached ++ [n])) s) as [[[]|e] s'];
          wsimpl; (do 2 eexists; split; [reflexivity|]); wsimpl;
          (do 5 (split; [done|])); intros other Hne; by rewrite lookup_alter_ne.
      * (do 2 eexists; split; [reflexivity|]); wsimpl;
          (do 5 (split; [done|])); intros other Hne; by rewrite lookup_alter_ne.
    + by do 2 eexists.
  - destruct (redis_get client userId (redis w)) as [[[cached|]|e] s]; wsimpl;
      [by do 2 eexists| |by do 2 eexists].
    destruct (mongoUp w); wsimpl; [|by do 2 eexists].
    destruct (users w !! userId) as [u|]; wsimpl; [|by do 2 eexists].
    destruct (redis_setex client userId (24 * 60 * 60) (User.notifications u) s)
      as [[[]|e] s']; wsimpl; by do 2 eexists.
  - destruct (redis_del client userId (redis w)) as [[k|e] s]; wsimpl;
      [|by do 2 eexists].
    destruct (mongoUp w); wsimpl; [|by do 2 eexists].
    (do 2 eexists; split; [reflexivity|]); wsimpl;
      (do 5 (split; [done|])); intros other Hne; by rewrite lookup_alter_ne.
  - destruct (redis_del client userId (redis w)) as [[k|e] s]; wsimpl;
      [|by do 2 eexists].
    destruct (mongoUp w); wsimpl; [|by do 2 eexists].
    (do 2 eexists; split; [reflexivity|]); wsimpl;
      (do 5 (split; [done|])); intros other Hne; by rewrite lookup_alter_ne.
Qed.

End MoreNotificationProperties.

(** ** Sending and forwarding over HTTP *)

Section MoreControllerProperties.

Import MessageController.

Variable extractTags : string -> list string.
Variable schemaValid : Message.t -> bool.

Lemma isMember_spec (u : ObjectId) (g : Group.t) :
  occursIn u (Group.users g) || occursIn u (Group.managers g) = true <->
  u ∈ Group.users g \/ u ∈ Group.managers g.
Proof. unfold occursIn. by rewrite orb_true_iff, !bool_decide_eq_true. Qed.

(** Content is a text or a file that is not the empty string. *)
Lemma hasContent_spec (text : option string) (file : option FileRef) :
  (exists t, text = Some t /\ t <> EmptyString) \/
  (exists f, file = Some f /\ f <> EmptyString) <->
  noText text && noFile file = false.
Proof.
  unfold noText, noFile. rewrite andb_false_iff. split.
  - intros [(t & -> & Ht)|(f & -> & Hf)]; [left|right];
      by apply bool_decide_eq_false_2.
  - intros [Ht|Hf]; [left|right].
    + destruct text as [t|]; [|done]. exists t. split; [done|].
      by apply bool_decide_eq_false_1 in Ht.
    + destruct file as [f|]; [|done]. exists f. split; [done|].
      by apply bool_decide_eq_false_1 in Hf.
Qed.

(** [file || null] *)
Lemma storedFile_spec (file : option FileRef) :
  (if noFile file then None else file) =
  match file with
  | Some f => if decide (f = EmptyString) then None else Some f
  | None => None
  end.
Proof.
  destruct file as [f|]; [|done]. cbn. unfold bool_decide.
  by destruct (decide_rel eq f EmptyString), (decide (f = EmptyString)).
Qed.

(** X9. The refusals of the HTTP send, in the order the handler checks
    them, each leaving the world exactly as it was.  A request with no
    text and no file is answered 400, the empty string counting as none
    for the one and for the other; with a text or a file that is not
    empty, a missing group id is answered 400; with the store reachable,
    an unknown group is answered 404 and a sender who is neither among the
    group's users nor among its managers 403. *)
Theorem sendMessage_refusals (w : World) (user : ReqUser) (text : option string)
  (groupId : option ObjectId) (file : option FileRef) :
  let out := sendMessage extractTags schemaValid user text groupId file w in
  let refused (code : nat) (reason : string) :=
    out = (Ok (mkResponse code (BError reason)), w) in
  let hasText := exists t, text = Some t /\ t <> EmptyString in
  let hasFile := exists f, file = Some f /\ f <> EmptyString in
  (~ hasText -> ~ hasFile ->
     refused 400%nat "Message text or file is required") /\
  (hasText \/ hasFile ->
     (groupId = None -> refused 400%nat "Group ID is required") /\
     (forall gid, groupId = Some gid -> mongoUp w = true ->
        (groups w !! gid = None -> refused 404%nat "Group not found") /\
        (forall g, groups w !! gid = Some g ->
           _id user ∉ Group.users g -> _id user ∉ Group.managers g ->
           refused 403%nat "You are not a member of this group"))).
Proof.
  cbv zeta. split.
  - intros Hnotext Hnofile.
    assert (noText text && noFile file = true) as Hnone.
    { apply not_false_iff_true. rewrite <- hasContent_spec. tauto. }
    unfold sendMessage. wunfold. by rewrite Hnone.
  - intros Hcontent. apply hasContent_spec in Hcontent. split.
    + intros ->. unfold sendMessage. wunfold. by rewrite Hcontent.
    + intros gid -> Hup. split.
      * intros Hnone. unfold sendMessage. wunfold. rewrite Hcontent. wgo Hup.
        cbn [mbind option_bind]. by rewrite Hnone.
      * intros g Hg Hu Hm. unfold sendMessage. wunfold. rewrite Hcontent. wgo Hup.
        cbn [mbind option_bind]. rewrite Hg.
        replace (occursIn (_id user) (Group.users g)
                 || occursIn (_id user) (Group.managers g)) with false; [done|].
        symmetry. apply not_true_iff_false. rewrite isMember_spec. tauto.
Qed.

Lemma sendMessage_success (w : World) (user : ReqUser) (text : option string)
  (gid : ObjectId) (file : option FileRef) (g : Group.t) :
  mongoUp w = true ->
  (exists t, text = Some t /\ t <> EmptyString) \/
  (exists f, file = Some f /\ f <> EmptyString) ->
  groups w !! gid = Some g ->
  _id user ∈ Group.users g \/ _id user ∈ Group.managers g ->
  let id := fresh (dom (messages w)) in
  let stored := match file with
                | Some f => if decide (f = EmptyString) then None else Some f
                | None => None
                end in
  let doc := newMessage (_id user) (Some gid) (default EmptyString text) stored
               (extractTags (default EmptyString text)) None [] (clock w (reads w)) in
  schemaValid doc = true ->
  exists w',
    sendMessage extractTags schemaValid user text (Some gid) file w =
      (Ok (mkResponse 201 (BSent (Some (populate w id doc)))), w') /\
    messages w' = <[id := doc]> (messages w) /\
    users w' = users w /\ groups w' = groups w /\ redis w' = redis w /\
    emitted w' =
      emitted w ++
      (if io w
       then [mkEmit (ToRoom (RGroup (Some gid))) "message:new"
                    (PMessage (Some (populate w id doc)))]
       else []).
Proof.
  intros Hup Hcontent Hg Hmem id stored doc Hvalid.
  apply hasContent_spec in Hcontent. apply isMember_spec in Hmem.
  unfold sendMessage, Message_create. wunfold. rewrite Hcontent. wgo Hup.
  cbn [mbind option_bind]. rewrite Hg, Hmem. wgo Hup.
  rewrite storedFile_spec. fold stored.
  subst doc. rewrite Hvalid. wgo Hup. rewrite lookup_insert_eq.
  cbn [fmap option_fmap option_map].
  destruct (io w); wgo Hup; (eexists; split; [reflexivity|]); wsimpl;
    rewrite ?app_nil_r; done.
Qed.

(** X10. An HTTP send by a member of an existing group, with a text or a
    file that is not the empty string, the store reachable and the schema
    accepting the document, is answered 201 and stores exactly one record
    under an id no record had: sender, group, the text (the empty string
    when absent), the file (none when it is absent or the empty string),
    the tags extracted from the text, no [forwardedFrom], no forwarded
    groups, not edited, not deleted, created at the clock reading.
    Whatever the tags, no copy is made for another group and no user is
    notified; one [message:new] goes to the group's room when the socket
    server is attached, none otherwise. *)
Theorem sendMessage_stores_one_record (w : World) (user : ReqUser)
  (text : option string) (gid : ObjectId) (file : option FileRef) (g : Group.t) :
  mongoUp w = true ->
  (exists t, text = Some t /\ t <> EmptyString) \/
  (exists f, file = Some f /\ f <> EmptyString) ->
  groups w !! gid = Some g ->
  _id user ∈ Group.users g \/ _id user ∈ Group.managers g ->
  let id := fresh (dom (messages w)) in
  let stored := match file with
                | Some f => if decide (f = EmptyString) then None else Some f
                | None => None
                end in
  let doc :=
    Message.mk (_id user) (Some gid) (default EmptyString text) stored
      (extractTags (default EmptyString text)) None []
      (Message.mkEdited false None) (Message.mkDeleted false None None)
      (clock w (reads w)) in
  schemaValid doc = true ->
  let out := sendMessage extractTags schemaValid user text (Some gid) file w in
  out.1 = Ok (mkResponse 201 (BSent (Some (populate w id doc)))) /\
  messages w !! id = None /\
  messages out.2 = <[id := doc]> (messages w) /\
  size (messages out.2) = S (size (messages w)) /\
  users out.2 = users w /\
  emitted out.2 =
    emitted w ++
    (if io w
     then [mkEmit (ToRoom (RGroup (Some gid))) "message:new"
                  (PMessage (Some (populate w id doc)))]
     else []).
Proof.
  intros Hup Hcontent Hg Hmem id stored doc Hvalid out. subst out.
  pose proof (sendMessage_success w user text gid file g Hup Hcontent Hg Hmem
                Hvalid) as Hrun.
  cbv zeta in Hrun. destruct Hrun as (w' & -> & Hm & Hu & _ & _ & He).
  cbn [fst snd]. pose proof (fresh_id_unused w) as Hfresh.
  split; [done|]. split; [done|]. split; [done|]. split.
  { by rewrite Hm, map_size_insert_None. }
  split; done.
Qed.

(** The copies [forwardMessage] creates, one per target group. *)
Lemma forward_creates_run (user : ReqUser) (messageId : ObjectId)
  (original : Message.t) (targets : list (ObjectId * Group.t)) :
  let doc (g : ObjectId * Group.t) :=
    newMessage (_id user) (Some g.1) (forwardedText (Message.text original))
               (Message.file original) (Message.tags original) (Some messageId) [] in
  (forall g t, schemaValid (doc g t) = true) ->
  forall w, mongoUp w = true ->
  exists created w',
    Promise_all ((fun g => Message_create schemaValid (doc g)) <$> targets) w
      = (Ok created, w') /\
    mongoUp w' = true /\ groups w' = groups w /\ users w' = users w /\
    io w' = io w /\ emitted w' = emitted w /\ clock w' = clock w /\
    reads w' = (reads w + length targets)%nat /\
    size (messages w') = (size (messages w) + length targets)%nat /\
    (forall id m, messages w !! id = Some m -> messages w' !! id = Some m) /\
    (forall id m, messages w' !! id = Some m -> messages w !! id = None ->
       (id, m) ∈ created) /\
    Forall2 (fun c g => messages w !! c.1 = None /\ messages w' !! c.1 = Some c.2 /\
                        exists t, c.2 = doc g t) created targets.
Proof.
  intros doc Hvalid. induction targets as [|g gs IH]; intros w Hup.
  - exists [], w. cbn. repeat split; try done; try lia.
    intros id m Hm Hnone. congruence.
  - cbn [fmap list_fmap Promise_all].
    rewrite (Message_create_run schemaValid _ w Hup (Hvalid _ _)).
    set (id0 := fresh (dom (messages w))).
    set (d0 := doc g (clock w (reads w))).
    set (w1 := set_messages _ _).
    pose proof (fresh_id_unused w) as Hfresh. fold id0 in Hfresh.
    destruct (IH w1 Hup)
      as (created & w' & Hrun & Hup' & Hg' & Hu' & Hio' & He' & Hc' & Hr' & Hsize
          & Hold & Hnew & Hall).
    change (list_fmap _ _ ?f gs) with (f <$> gs). rewrite Hrun.
    subst w1. wsimpl_all.
    exists ((id0, d0) :: created), w'. split; [done|].
    do 6 (split; [done|]). split.
    { rewrite Hr'. cbn [length]. lia. }
    split.
    { rewrite Hsize. rewrite map_size_insert_None by done. cbn [length]. lia. }
    assert (messages w' !! id0 = Some d0) as Hd0.
    { apply Hold. apply lookup_insert_eq. }
    split.
    { intros id m Hm. apply Hold.
      rewrite lookup_insert_ne; [done|]. intros <-. congruence. }
    split.
    { intros id m Hm Hnone. destruct (decide (id = id0)) as [->|Hne].
      - assert (m = d0) as -> by congruence. by left.
      - right. apply Hnew; [done|]. by rewrite lookup_insert_ne. }
    constructor.
    { cbn [fst snd]. split; [done|]. split; [done|]. by eexists. }
    eapply Forall2_impl; [exact Hall|].
    intros c g' (Hnone & Hsome & t & Ht).
    apply lookup_insert_None in Hnone as [Hnone _].
    split; [done|]. split; [done|]. by exists t.
Qed.

Lemma forEach_emit {A} (l : list A) (to : A -> Target) (ev : string)
  (p : A -> Payload) (w : World) :
  forEach l (fun x => emit (to x) ev (p x)) w =
  (Ok tt, set_emitted (emitted w ++ ((fun x => mkEmit (to x) ev (p x)) <$> l)) w).
Proof.
  revert w. induction l as [|x l IH]; intros w.
  - cbn. rewrite app_nil_r. by destruct w.
  - cbn [forEach]. unfold bind, emit at 1. rewrite IH. wsimpl.
    by rewrite <- app_assoc.
Qed.

Lemma forwardTargets_spec (groupIds : list ObjectId) (w : World) (gid : ObjectId)
  (g : Group.t) :
  (gid, g) ∈ forwardTargets groupIds w <-> groups w !! gid = Some g /\ gid ∈ groupIds.
Proof.
  unfold forwardTargets. rewrite list_elem_of_filter, elem_of_map_to_list. cbn. tauto.
Qed.

Lemma forwardTargets_NoDup (groupIds : list ObjectId) (w : World) :
  NoDup (forwardTargets groupIds w).*1.
Proof.
  unfold forwardTargets.
  eapply sublist_NoDup; [apply (NoDup_fst_map_to_list (groups w))|].
  apply fmap_sublist, sublist_filter.
Qed.

Lemma forwardMessage_run (w : World) (user : ReqUser) (messageId : ObjectId)
  (groupIds : list ObjectId) (original : Message.t) :
  mongoUp w = true ->
  messages w !! messageId = Some original ->
  let doc (g : ObjectId * Group.t) :=
    newMessage (_id user) (Some g.1) (forwardedText (Message.text original))
               (Message.file original) (Message.tags original) (Some messageId) [] in
  (forall g t, schemaValid (doc g t) = true) ->
  let targets := forwardTargets groupIds w in
  exists created w',
    forwardMessage schemaValid user messageId groupIds w =
      (Ok (mkAnswer 200 (FForwarded "Message forwarded successfully" (length targets))),
       w') /\
    mongoUp w' = true /\ groups w' = groups w /\ users w' = users w /\
    io w' = io w /\ clock w' = clock w /\
    reads w' = (reads w + length targets)%nat /\
    size (messages w') = (size (messages w) + length targets)%nat /\
    (forall id m, messages w !! id = Some m -> messages w' !! id = Some m) /\
    (forall id m, messages w' !! id = Some m -> messages w !! id = None ->
       (id, m) ∈ created) /\
    Forall2 (fun c g => messages w !! c.1 = None /\ messages w' !! c.1 = Some c.2 /\
                        exists t, c.2 = doc g t) created targets /\
    emitted w' =
      emitted w ++
      (if io w
       then (fun c => mkEmit (ToRoom (RGroup (Message.groupId c.2))) "message:new"
                             (PMessage (Some (asCreated c)))) <$> created
       else []).
Proof.
  intros Hup Hfound doc Hvalid targets.
  unfold forwardMessage. unfold try_catch. unfold bind at 1.
  unfold Message_findById. rewrite (query_up _ _ Hup). cbn [fst snd]. rewrite Hfound.
  unfold bind at 1. unfold Group_find. rewrite (query_up _ _ Hup). cbn [fst snd].
  replace (filter _ (map_to_list (groups w))) with targets.
  2: { subst targets. unfold forwardTargets. apply list_filter_iff. intros kv.
       by rewrite bool_decide_eq_true. }
  pose proof (forward_creates_run user messageId original targets) as Hcreate.
  cbv zeta in Hcreate.
  destruct (Hcreate Hvalid w Hup)
    as (created & w' & Hrun & Hup' & Hg' & Hu' & Hio' & He' & Hc' & Hr' & Hsize
        & Hold & Hnew & Hall).
  unfold bind at 1. rewrite Hrun.
  unfold bind at 1, app_get_io. unfold bind at 1, when. wsimpl. rewrite Hio'.
  destruct (io w) eqn:Hiow.
  - rewrite forEach_emit. unfold ret.
    exists created, (set_emitted
      (emitted w' ++ ((fun c => mkEmit (ToRoom (RGroup (Message.groupId c.2)))
                                  "message:new" (PMessage (Some (asCreated c))))
                      <$> created)) w').
    split; [done|]. wsimpl. do 9 (split; [done|]). split; [done|]. by rewrite He'.
  - unfold ret. exists created, w'. split; [done|]. do 9 (split; [done|]).
    split; [done|]. by rewrite He', app_nil_r.
Qed.

(** X11. Forwarding an existing message over HTTP, with the store reachable
    and the schema accepting the copies, is answered 200 with the number
    of target groups, which are the existing groups whose id is in the
    request, each counted once however often it is listed; ids that match
    no group are skipped, and neither the actor's membership nor the state
    of the message is checked.  Exactly one record per target group is
    added and none is changed; each new record has the actor as sender,
    the original's text behind the prefix [Forwarded], the original's file
    and tags, and [forwardedFrom] set to the original's id; one
    [message:new] goes to each target group's room, in order, when the
    socket server is attached. *)
Theorem forwardMessage_copies_to_existing_groups (w : World) (user : ReqUser)
  (messageId : ObjectId) (groupIds : list ObjectId) (original : Message.t) :
  mongoUp w = true ->
  messages w !! messageId = Some original ->
  (forall d, schemaValid d = true) ->
  let targets := forwardTargets groupIds w in
  let out := forwardMessage schemaValid user messageId groupIds w in
  let w' := out.2 in
  out.1 = Ok (mkAnswer 200 (FForwarded "Message forwarded successfully"
                                        (length targets))) /\
  (forall gid g, (gid, g) ∈ targets <-> groups w !! gid = Some g /\ gid ∈ groupIds) /\
  NoDup targets.*1 /\
  size (messages w') = (size (messages w) + length targets)%nat /\
  (forall id m, messages w !! id = Some m -> messages w' !! id = Some m) /\
  (forall id m, messages w' !! id = Some m -> messages w !! id = None ->
     Message.senderId m = _id user /\
     Message.text m = forwardedText (Message.text original) /\
     Message.file m = Message.file original /\
     Message.tags m = Message.tags original /\
     Message.forwardedFrom m = Some messageId /\
     exists g, g ∈ targets /\ Message.groupId m = Some g.1) /\
  (forall g, g ∈ targets ->
     exists id m, messages w !! id = None /\ messages w' !! id = Some m /\
                  Message.groupId m = Some g.1) /\
  exists es, emitted w' = emitted w ++ es /\
    broadcasts es =
      if io w then (fun g => ToRoom (RGroup (Some g.1))) <$> targets else [].
Proof.
  intros Hup Hfound Hvalid targets out w'. subst w' out.
  pose proof (forwardMessage_run w user messageId groupIds original Hup Hfound
                (fun _ _ => Hvalid _)) as Hrun.
  cbv zeta in Hrun.
  destruct Hrun as (created & w' & -> & _ & _ & _ & _ & _ & _ & Hsize & Hold
                    & Hnew & Hall & He).
  cbn [fst snd]. fold targets in Hall, Hsize |- *.
  split; [done|]. split; [intros gid g; apply forwardTargets_spec|].
  split; [apply forwardTargets_NoDup|]. split; [done|]. split; [done|]. split.
  { intros id m Hm Hnone. specialize (Hnew id m Hm Hnone).
    apply list_elem_of_lookup in Hnew as [i Hi].
    destruct (Forall2_lookup_l _ _ _ _ _ Hall Hi) as (g & Hg & _ & _ & t & Ht).
    cbn [snd] in Ht. subst m. repeat split.
    exists g. split; [by eapply list_elem_of_lookup_2|done]. }
  split.
  { intros g Hg. apply list_elem_of_lookup in Hg as [i Hi].
    destruct (Forall2_lookup_r _ _ _ _ _ Hall Hi) as ([id m] & _ & Hnone & Hm & t & Ht).
    cbn [fst snd] in *. exists id, m. subst m. done. }
  eexists. split; [exact He|]. destruct (io w); [|done].
  clear -Hall. induction Hall as [|c g created targets (_ & _ & t & Ht) _ IH]; [done|].
  cbn [fmap list_fmap]. unfold broadcasts in *. rewrite filter_cons_True by done.
  cbn [fmap list_fmap target]. rewrite Ht. cbn [Message.groupId newMessage].
  f_equal. exact IH.
Qed.

(** X12. [forwardMessage] never rejects.  With the store reachable, an id
    that matches no message is answered 404; with the store unreachable
    the answer is 500 with the error's message; either way the world is
    left exactly as it was. *)
Theorem forwardMessage_refusals (w : World) (user : ReqUser) (messageId : ObjectId)
  (groupIds : list ObjectId) :
  let out := forwardMessage schemaValid user messageId groupIds w in
  (mongoUp w = true -> messages w !! messageId = None ->
     out = (Ok (mkAnswer 404 (FError "Message not found")), w)) /\
  (mongoUp w = false ->
     out = (Ok (mkAnswer 500 (FError (errorMessage MongoNetworkError))), w)) /\
  exists res, out.1 = Ok res.
Proof.
  cbv zeta. unfold forwardMessage. unfold try_catch.
  split; [|split].
  - intros Hup Hnone. unfold bind at 1. unfold Message_findById.
    rewrite (query_up _ _ Hup). cbn [fst snd]. by rewrite Hnone.
  - intros Hdown. unfold bind at 1, Message_findById, query. by rewrite Hdown.
  - match goal with |- context [match ?x with _ => _ end] =>
      destruct x as [[res|e] w1] end; by eexists.
Qed.

(** ** How the handlers compose *)

(** X13. The copies [forwardMessage] makes are tied to the original like
    the copies of a tagged send.  After a forward, every record it added
    carries the prefixed text; when the sender then edits the original
    within the window, each such copy gets the new text as it is, without
    the prefix, the new tags and an edited stamp, and stays in its group;
    when the sender instead deletes the original, each such copy is
    tombstoned with the second clock reading of the delete and keeps its
    text. *)
Theorem forwarded_copies_follow_the_original (w : World) (user actor : ReqUser)
  (messageId : ObjectId) (groupIds : list ObjectId) (original : Message.t)
  (text : string) :
  mongoUp w = true ->
  messages w !! messageId = Some original ->
  Message.forwardedFrom original = None ->
  Message.senderId original = _id actor ->
  (forall d, schemaValid d = true) ->
  let w1 := (forwardMessage schemaValid user messageId groupIds w).2 in
  let edited := editMessage extractTags schemaValid actor messageId text w1 in
  let deleted := deleteMessage schemaValid actor messageId w1 in
  forall id m,
    messages w1 !! id = Some m -> messages w !! id = None ->
    Message.text m = forwardedText (Message.text original) /\
    (clock w1 (reads w1) - Message.createdAt original <= 15 * 60 * 1000 ->
       exists m', messages edited.2 !! id = Some m' /\
         Message.text m' = text /\
         Message.tags m' = extractTags text /\
         Message.isEdited (Message.edited m') = true /\
         Message.groupId m' = Message.groupId m) /\
    (exists m', messages deleted.2 !! id = Some m' /\
       Message.deleted m' =
         Message.mkDeleted true (Some (_id actor)) (Some (clock w1 (S (reads w1)))) /\
       Message.text m' = Message.text m).
Proof.
  intros Hup Hfound Horig Hsender Hvalid w1 edited deleted id m Hm Hnone.
  subst edited deleted w1.
  pose proof (forwardMessage_run w user messageId groupIds original
                Hup Hfound (fun _ _ => Hvalid _)) as Hrun.
  cbv zeta in Hrun.
  destruct Hrun as (created & w1 & Hrun & Hup1 & _ & _ & _ & _ & _ & _ & Hold
                    & Hnew & Hall & _).
  rewrite Hrun in *. cbn [snd] in *.
  assert (Message.forwardedFrom m = Some messageId /\
          Message.text m = forwardedText (Message.text original)) as [Hfwd Htext].
  { specialize (Hnew id m Hm Hnone).
    apply list_elem_of_lookup in Hnew as [i Hi].
    destruct (Forall2_lookup_l _ _ _ _ _ Hall Hi) as (g & Hg & _ & _ & t & Ht).
    cbn [snd] in Ht. by subst m. }
  assert (id <> messageId) as Hne by (intros ->; congruence).
  split; [done|]. split.
  - intros Hfresh.
    pose proof (editMessage_success extractTags schemaValid w1 actor messageId text
                  original Hup1 (Hold _ _ Hfound) Hsender Hfresh (Hvalid _)) as Hedit.
    cbv zeta in Hedit. destruct Hedit as (w2 & -> & Hmsgs & _). cbn [snd].
    rewrite Hmsgs, Horig, lookup_fmap, lookup_insert_ne, Hm by done.
    cbn [fmap option_fmap option_map]. unfold isForwardOf.
    rewrite bool_decide_eq_true_2 by done. eexists. split; [reflexivity|]. done.
  - assert (canDelete actor original = true) as Hcan.
    { unfold canDelete. by rewrite bool_decide_eq_true_2. }
    pose proof (deleteMessage_success schemaValid w1 actor messageId
                  original Hup1 (Hold _ _ Hfound) Hcan (Hvalid _)) as Hdel.
    cbv zeta in Hdel. destruct Hdel as (w2 & -> & Hmsgs & _). cbn [snd].
    rewrite Hmsgs, Horig, lookup_fmap, lookup_insert_ne, Hm by done.
    cbn [fmap option_fmap option_map]. unfold isForwardOf.
    rewrite bool_decide_eq_true_2 by done. eexists. split; [reflexivity|]. done.
Qed.

(** X14. Delete, then sweep.  After a successful delete, a sweep whose clock
    reading is more than 24 hours past the reading that stamped the target
    removes the target, and one at most 24 hours past it keeps the
    tombstone; when the target is an original, each of its copies goes or
    stays by its own stamp, the second reading of the delete; a record
    that is neither the target nor one of its copies, and is not
    tombstoned, survives both steps unchanged. *)
Theorem delete_then_sweep (w w2 : World) (user : ReqUser) (messageId : ObjectId)
  (message : Message.t) :
  mongoUp w = true ->
  messages w !! messageId = Some message ->
  canDelete user message = true ->
  (forall d, schemaValid d = true) ->
  let deleted := deleteMessage schemaValid user messageId w in
  mongoUp w2 = true ->
  messages w2 = messages deleted.2 ->
  let day := 24 * 60 * 60 * 1000 in
  let now := clock w2 (reads w2) in
  let swept := cleanupDeletedMessages w2 in
  (day < now - clock w (reads w) -> messages swept.2 !! messageId = None) /\
  (now - clock w (reads w) <= day -> is_Some (messages swept.2 !! messageId)) /\
  (Message.forwardedFrom message = None ->
     forall id m, messages w !! id = Some m ->
       Message.forwardedFrom m = Some messageId ->
       (day < now - clock w (S (reads w)) -> messages swept.2 !! id = None) /\
       (now - clock w (S (reads w)) <= day -> is_Some (messages swept.2 !! id))) /\
  (forall id m, messages w !! id = Some m -> id <> messageId ->
     Message.forwardedFrom m <> Some messageId ->
     Message.isDeleted (Message.deleted m) = false ->
     messages swept.2 !! id = Some m).
Proof.
  intros Hup Hfound Hcan Hvalid deleted Hup2 Hsame day now swept.
  subst deleted swept.
  pose proof (deleteMessage_success schemaValid w user messageId message
                Hup Hfound Hcan (Hvalid _)) as Hdel.
  cbv zeta in Hdel. destruct Hdel as (w1 & Hrun & Hmsgs & _).
  rewrite Hrun in Hsame. cbn [snd] in Hsame.
  destruct (cleanup_up w2 Hup2) as (w3 & -> & Hswept). cbn [snd].
  fold now in Hswept.
  assert (forall id m, messages w2 !! id = Some m ->
            (expired (now - day) m = true -> messages w3 !! id = None) /\
            (expired (now - day) m = false -> messages w3 !! id = Some m)) as Hsweep.
  { intros id m Hm. split; intros Hexp.
    - rewrite Hswept. apply map_lookup_filter_None. right.
      intros m' Hm'. cbn [snd]. assert (m' = m) as -> by congruence.
      subst day. by rewrite Hexp.
    - rewrite Hswept. apply map_lookup_filter_Some. by split. }
  assert (messages w2 !! messageId =
            Some (tombstone (_id user) (clock w (reads w)) message)) as Htarget.
  { rewrite Hsame, Hmsgs. destruct (Message.forwardedFrom message) eqn:Hfwd.
    - by rewrite lookup_insert_eq.
    - rewrite lookup_fmap, lookup_insert_eq. cbn. unfold isForwardOf.
      rewrite bool_decide_eq_false_2; [done|].
      unfold tombstone. rewrite forwardedFrom_set_deleted. by rewrite Hfwd. }
  split; [|split; [|split]].
  - intros Hold. apply (Hsweep _ _ Htarget).
    unfold expired, tombstoned, tombstone. cbn. apply Z.ltb_lt. lia.
  - intros Hyoung. eexists. apply (Hsweep _ _ Htarget).
    unfold expired, tombstoned, tombstone. cbn. apply Z.ltb_ge. lia.
  - intros Horig id m Hm Hcopy.
    assert (id <> messageId) as Hne by (intros ->; congruence).
    assert (messages w2 !! id =
              Some (tombstone (_id user) (clock w (S (reads w))) m)) as Hc.
    { rewrite Hsame, Hmsgs, Horig, lookup_fmap, lookup_insert_ne, Hm by done.
      cbn. unfold isForwardOf. by rewrite bool_decide_eq_true_2. }
    split.
    + intros Hold. apply (Hsweep _ _ Hc).
      unfold expired, tombstoned, tombstone. cbn. apply Z.ltb_lt. lia.
    + intros Hyoung. eexists. apply (Hsweep _ _ Hc).
      unfold expired, tombstoned, tombstone. cbn. apply Z.ltb_ge. lia.
  - intros id m Hm Hne Hnot Hlive.
    assert (messages w2 !! id = Some m) as Hc.
    { rewrite Hsame, Hmsgs. destruct (Message.forwardedFrom message).
      - by rewrite lookup_insert_ne.
      - rewrite lookup_fmap, lookup_insert_ne, Hm by done. cbn.
        unfold isForwardOf. by rewrite bool_decide_eq_false_2. }
    apply (Hsweep _ _ Hc). unfold expired, tombstoned. by rewrite Hlive.
Qed.

Lemma pointwise_refl (R : Message.t -> Message.t -> Prop) (ms : gmap ObjectId Message.t) :
  (forall m, R m m) -> pointwise R ms ms.
Proof. intros Hrefl i. by destruct (ms !! i). Qed.

Lemma pointwise_insert (R : Message.t -> Message.t -> Prop)
  (ms : gmap ObjectId Message.t) (id : ObjectId) (m m' : Message.t) :
  (forall x, R x x) -> ms !! id = Some m -> R m m' ->
  pointwise R ms (<[id := m']> ms).
Proof.
  intros Hrefl Hm HR i. destruct (decide (i = id)) as [->|Hne].
  - by rewrite Hm, lookup_insert_eq.
  - rewrite lookup_insert_ne by done. by destruct (ms !! i).
Qed.

Lemma pointwise_insert_fmap (R : Message.t -> Message.t -> Prop)
  (ms : gmap ObjectId Message.t) (id : ObjectId) (m m' : Message.t)
  (f : Message.t -> Message.t) :
  (forall x, R x x) -> (forall x, R x (f x)) ->
  ms !! id = Some m -> R m m' -> R m (f m') ->
  pointwise R ms (f <$> <[id := m']> ms).
Proof.
  intros Hrefl Hf Hm HR HR' i. rewrite lookup_fmap.
  destruct (decide (i = id)) as [->|Hne].
  - by rewrite Hm, lookup_insert_eq.
  - rewrite lookup_insert_ne by done. destruct (ms !! i); cbn; [apply Hf|done].
Qed.

(** X15. Whatever the request and whatever its outcome, an edit and a
    delete add no record and remove none, and leave sender, group,
    creation time, [forwardedFrom], file and forwarded groups of every
    record as they were.  An edit never touches a [deleted] sub-record, so
    it restores no tombstoned message; a delete never touches text, tags
    or edited stamp, and a record that was tombstoned stays tombstoned. *)
Theorem edit_and_delete_keep_identity (w : World) (user : ReqUser)
  (messageId : ObjectId) (text : string) :
  let edited := editMessage extractTags schemaValid user messageId text w in
  let deleted := deleteMessage schemaValid user messageId w in
  pointwise editKeeps (messages w) (messages edited.2) /\
  pointwise deleteKeeps (messages w) (messages deleted.2).
Proof.
  cbv zeta. split.
  - assert (forall m, editKeeps m m) as Hrefl by (by repeat split).
    assert (forall t g e m, editKeeps m (Message.set_content t g e m)) as Hset
      by (by repeat split).
    unfold editMessage. wunfold. wsimpl.
    destruct (mongoUp w) eqn:Hup; wsimpl; [|by apply pointwise_refl].
    destruct (messages w !! messageId) as [message|] eqn:Hm;
      [|by apply pointwise_refl].
    destruct (bool_decide (Message.senderId message = _id user)); wsimpl;
      [|by apply pointwise_refl].
    destruct (15 * 60 * 1000 <? clock w (reads w) - Message.createdAt message);
      wsimpl; [by apply pointwise_refl|].
    destruct (schemaValid _); wgo Hup; [|by apply pointwise_refl].
    rewrite forwardedFrom_set_content.
    destruct (Message.forwardedFrom message); wgo Hup;
      destruct (io w); wgo Hup.
    1,2: by apply (pointwise_insert _ _ _ message).
    all: apply (pointwise_insert_fmap _ _ _ message); try done.
    all: try (intros x; by destruct (isForwardOf messageId x)).
    all: by destruct (isForwardOf messageId _).
  - assert (forall m, deleteKeeps m m) as Hrefl by (by repeat split).
    assert (forall a b m, deleteKeeps m (Message.set_deleted (Message.mkDeleted true a b) m))
      as Hset by (by repeat split).
    unfold deleteMessage. wunfold. wsimpl.
    destruct (mongoUp w) eqn:Hup; wsimpl; [|by apply pointwise_refl].
    destruct (messages w !! messageId) as [message|] eqn:Hm;
      [|by apply pointwise_refl].
    destruct (canDelete user message); wsimpl; [|by apply pointwise_refl].
    destruct (schemaValid _); wgo Hup; [|by apply pointwise_refl].
    rewrite forwardedFrom_set_deleted.
    destruct (Message.forwardedFrom message); wgo Hup;
      rewrite ?lookup_fmap, lookup_insert_eq; cbn [fmap option_fmap option_map];
      wgo Hup; destruct (io w); wgo Hup.
    1,2: by apply (pointwise_insert _ _ _ message).
    all: apply (pointwise_insert_fmap _ _ _ message); try done.
    all: try (intros x; by destruct (isForwardOf messageId x)).
    all: by destruct (isForwardOf messageId _).
Qed.

End MoreControllerProperties.

(** ** Listing and search *)

#[global] Instance newerFirst_total : Total newerFirst.
Proof. intros a b. unfold newerFirst. lia. Qed.
#[global] Instance newerFirst_trans : Transitive newerFirst.
Proof. intros a b c. unfold newerFirst. lia. Qed.
#[global] Instance olderFirst_total : Total olderFirst.
Proof. intros a b. unfold olderFirst. lia. Qed.
#[global] Instance olderFirst_trans : Transitive olderFirst.
Proof. intros a b c. unfold olderFirst. lia. Qed.

Section ListingAndSearch.

Import MessageController.

Variable regexValid : string -> bool.
Variable regexTest : string -> string -> bool.

Lemma size_filter_map_to_list (P : Message.t -> bool) (m : gmap ObjectId Message.t) :
  size (filter (fun kv : ObjectId * Message.t => P kv.2 = true) m) =
  length (filter (fun kv : ObjectId * Message.t => P kv.2 = true) (map_to_list m)).
Proof.
  rewrite map_filter_alt, <- length_map_to_list.
  apply Permutation_length, map_to_list_to_map.
  eapply sublist_NoDup; [apply (NoDup_fst_map_to_list m)|].
  apply fmap_sublist, sublist_filter.
Qed.

Lemma listingQuery_uncast (groupId : ObjectId) (floor : Timestamp)
  (before : option Timestamp) (m : Message.t) :
  listingQuery (AsString groupId) floor before m = false.
Proof. done. Qed.

Lemma visibleTo_spec (groupId : ObjectId) (floor : Timestamp)
  (before : option Timestamp) (w : World) (id : ObjectId) (m : Message.t) :
  (id, m) ∈ visibleTo groupId floor before w <->
  messages w !! id = Some m /\
  Message.groupId m = Some groupId /\
  Message.isDeleted (Message.deleted m) = false /\
  floor <= Message.createdAt m /\
  (forall b, before = Some b -> Message.createdAt m < b).
Proof.
  unfold visibleTo, listingQuery, equalsStored, tombstoned.
  rewrite list_elem_of_filter, elem_of_map_to_list. cbn [snd].
  rewrite !andb_true_iff, bool_decide_eq_true, negb_true_iff, Z.leb_le.
  destruct before as [b|].
  - rewrite Z.ltb_lt. split.
    + intros [[[[? ?] ?] ?] ?]. repeat split; try done. by intros ? [= <-].
    + intros (? & ? & ? & ? & Hb). specialize (Hb b eq_refl). done.
  - split; [intros [[[[? ?] ?] ?] ?]|intros (? & ? & ? & ? & _)]; done.
Qed.

Lemma aggregate_none (P : Message.t -> bool) (skip limit : Z) (w : World) :
  mongoUp w = true -> 0 <= skip -> 1 <= limit ->
  (forall m, P m = false) ->
  Message_aggregate P skip limit w = (Ok [], w).
Proof.
  intros Hup Hskip Hlimit Hnone. unfold Message_aggregate. rewrite Hup.
  replace (skip <? 0) with false by (symmetry; apply Z.ltb_ge; lia).
  replace (limit <=? 0) with false by (symmetry; apply Z.leb_gt; lia).
  cbn [orb].
  assert (filter (fun kv : ObjectId * Message.t => P kv.2 = true)
                 (map_to_list (messages w)) = []) as ->.
  { induction (map_to_list (messages w)) as [|kv l IH]; [done|].
    rewrite filter_cons_False; [done|]. by rewrite Hnone. }
  change (merge_sort newerFirst []) with (@nil (ObjectId * Message.t)).
  by rewrite drop_nil, take_nil.
Qed.

Lemma getMessages_run (w : World) (user : ReqUser) (groupId : ObjectId)
  (page limit : Z) (before : option Timestamp) (g : Group.t) (u : User.t) :
  mongoUp w = true ->
  groups w !! groupId = Some g ->
  _id user ∈ Group.users g \/ _id user ∈ Group.managers g ->
  users w !! _id user = Some u ->
  1 <= page -> 1 <= limit ->
  let visible := visibleTo groupId (floorOf u (clock w (reads w))) before w in
  exists w',
    getMessages user groupId page limit before w =
      (Ok (mkResponse 200
             (BMessages [] page limit (length visible)
                ((page - 1) * limit + 0 <? Z.of_nat (length visible)) None)), w') /\
    messages w' = messages w /\ users w' = users w /\ groups w' = groups w /\
    emitted w' = emitted w /\ console w' = console w.
Proof.
  intros Hup Hgroup Hmember Huser Hpage Hlimit visible.
  apply isMember_spec in Hmember.
  unfold getMessages. wunfold. wgo Hup.
  cbn [mbind option_bind]. rewrite Hgroup, Hmember. wgo Hup. rewrite Huser.
  subst visible. unfold visibleTo, floorOf.
  destruct (User.groupJoinedAt u) as [joined|]; wgo Hup;
    (rewrite aggregate_none; [|done|nia|done|apply listingQuery_uncast]);
    wgo Hup; cbn [castFilter]; rewrite size_filter_map_to_list; by eexists.
Qed.


(** X17. A listing lists nothing.  The handler puts the group id into the
    [$match] stage as the route gave it, a string, and a pipeline is sent
    as written, so the stage matches no stored message, whose group
    reference is an [ObjectId].  For a member of an existing group, a page
    and a limit of at least 1 and the store reachable, the answer is 200
    with an empty page and no cursor, however many messages are visible
    to the reader; the total, counted through a filter that is cast, is
    the number of stored messages of the group that are not tombstoned,
    not older than the reader's floor and older than [before] when it is
    given; and [hasMore] is set exactly when the messages skipped by the
    earlier pages are fewer than that total, on page 1 whenever a message
    is visible. *)
Theorem getMessages_lists_nothing (w : World) (user : ReqUser)
  (groupId : ObjectId) (page limit : Z) (before : option Timestamp)
  (g : Group.t) (u : User.t) :
  mongoUp w = true ->
  groups w !! groupId = Some g ->
  _id user ∈ Group.users g \/ _id user ∈ Group.managers g ->
  users w !! _id user = Some u ->
  1 <= page -> 1 <= limit ->
  let floor := match User.groupJoinedAt u with
               | Some joined => joined
               | None => clock w (reads w) - 7 * 24 * 60 * 60 * 1000
               end in
  exists visible more w',
    getMessages user groupId page limit before w =
      (Ok (mkResponse 200 (BMessages [] page limit (length visible) more None)), w') /\
    NoDup visible /\
    (forall id m, (id, m) ∈ visible <->
       messages w !! id = Some m /\
       Message.groupId m = Some groupId /\
       Message.isDeleted (Message.deleted m) = false /\
       floor <= Message.createdAt m /\
       (forall b, before = Some b -> Message.createdAt m < b)) /\
    (more = true <-> (page - 1) * limit < Z.of_nat (length visible)) /\
    (page = 1 -> (more = true <-> visible <> [])).
Proof.
  intros Hup Hgroup Hmember Huser Hpage Hlimit floor.
  pose proof (getMessages_run w user groupId page limit before g u
                Hup Hgroup Hmember Huser Hpage Hlimit) as Hrun.
  cbv zeta in Hrun. destruct Hrun as (w' & Hrun & _).
  do 3 eexists. split; [exact Hrun|].
  set (visible := visibleTo _ _ _ _). split.
  { subst visible. unfold visibleTo. apply NoDup_filter, NoDup_map_to_list. }
  split; [intros id m; apply visibleTo_spec|].
  rewrite Z.ltb_lt. split; [lia|].
  intros ->. destruct visible; cbn [length]; split; try done; lia.
Qed.

Lemma aggregate_reads_only (P : Message.t -> bool) (skip limit : Z) (w : World) :
  (Message_aggregate P skip limit w).2 = w.
Proof.
  unfold Message_aggregate. destruct (mongoUp w); [|done].
  by destruct ((skip <? 0) || (limit <=? 0)).
Qed.

Lemma getMessages_reads_only (w : World) (user : ReqUser) (groupId : ObjectId)
  (page limit : Z) (before : option Timestamp) :
  let out := getMessages user groupId page limit before w in
  (exists res, out.1 = Ok res) /\
  messages out.2 = messages w /\ users out.2 = users w /\ groups out.2 = groups w /\
  emitted out.2 = emitted w /\ redis out.2 = redis w /\ rooms out.2 = rooms w.
Proof.
  cbv zeta. unfold getMessages. wunfold. wsimpl.
  destruct (mongoUp w) eqn:Hup; wsimpl; [|by eauto 10].
  cbn [mbind option_bind].
  destruct (groups w !! groupId) as [g|]; [|by eauto 10].
  destruct (negb _); wsimpl; [by eauto 10|]. rewrite Hup.
  destruct (users w !! _id user) as [u|]; wsimpl; [|by eauto 10].
  destruct (User.groupJoinedAt u) as [joined|]; wsimpl.
  - match goal with |- context [Message_aggregate ?P ?s ?l ?w0] =>
      pose proof (aggregate_reads_only P s l w0) as Hsame;
      destruct (Message_aggregate P s l w0) as [[found|e] w1] end;
      cbn [snd] in Hsame; subst w1; wgo Hup; by eauto 10.
  - match goal with |- context [Message_aggregate ?P ?s ?l ?w0] =>
      pose proof (aggregate_reads_only P s l w0) as Hsame;
      destruct (Message_aggregate P s l w0) as [[found|e] w1] end;
      cbn [snd] in Hsame; subst w1; wgo Hup; by eauto 10.
Qed.

Lemma getMessages_bad_paging (w : World) (user : ReqUser) (groupId : ObjectId)
  (page limit : Z) (before : option Timestamp) (g : Group.t) (u : User.t) :
  mongoUp w = true ->
  groups w !! groupId = Some g ->
  _id user ∈ Group.users g \/ _id user ∈ Group.managers g ->
  users w !! _id user = Some u ->
  page < 1 \/ limit < 1 ->
  (getMessages user groupId page limit before w).1 =
    Ok (mkResponse 500 (BError (errorMessage MongoServerError))).
Proof.
  intros Hup Hgroup Hmember Huser Hbad. apply isMember_spec in Hmember.
  unfold getMessages. wunfold. wgo Hup.
  cbn [mbind option_bind]. rewrite Hgroup, Hmember. wgo Hup. rewrite Huser.
  unfold Message_aggregate.
  assert (((page - 1) * limit <? 0) || (limit <=? 0) = true) as Hrej.
  { apply orb_true_iff. rewrite Z.ltb_lt, Z.leb_le.
    destruct (Z_lt_le_dec limit 1); [right; lia|left; nia]. }
  destruct (User.groupJoinedAt u) as [joined|]; wgo Hup; rewrite Hrej; by wsimpl.
Qed.

(** X18. A listing never rejects and only reads: whatever the request, the
    messages, users, groups, emitted events, cache and rooms are what they
    were.  With the store reachable, an unknown group is answered 404 and
    a reader who is neither among the group's users nor among its managers
    403, both with the world untouched; for a member, a page or a limit
    below 1 is refused by the store and answered 500. *)
Theorem getMessages_refusals (w : World) (user : ReqUser) (groupId : ObjectId)
  (page limit : Z) (before : option Timestamp) :
  let out := getMessages user groupId page limit before w in
  (exists res, out.1 = Ok res) /\
  (messages out.2 = messages w /\ users out.2 = users w /\ groups out.2 = groups w /\
   emitted out.2 = emitted w /\ redis out.2 = redis w /\ rooms out.2 = rooms w) /\
  (mongoUp w = true -> groups w !! groupId = None ->
     out = (Ok (mkResponse 404 (BError "Group not found")), w)) /\
  (forall g, mongoUp w = true -> groups w !! groupId = Some g ->
     _id user ∉ Group.users g -> _id user ∉ Group.managers g ->
     out = (Ok (mkResponse 403 (BError "Not authorized to view messages")), w)) /\
  (forall g u, mongoUp w = true -> groups w !! groupId = Some g ->
     _id user ∈ Group.users g \/ _id user ∈ Group.managers g ->
     users w !! _id user = Some u ->
     page < 1 \/ limit < 1 ->
     out.1 = Ok (mkResponse 500 (BError (errorMessage MongoServerError)))).
Proof.
  cbv zeta.
  pose proof (getMessages_reads_only w user groupId page limit before) as Hframe.
  cbv zeta in Hframe. destruct Hframe as [Hres Hframe].
  split; [exact Hres|]. split; [exact Hframe|]. split; [|split].
  - intros Hup Hnone. unfold getMessages. wunfold. wgo Hup.
    cbn [mbind option_bind]. by rewrite Hnone.
  - intros g Hup Hg Hu Hm. unfold getMessages. wunfold. wgo Hup.
    cbn [mbind option_bind]. rewrite Hg.
    replace (occursIn (_id user) (Group.users g)
             || occursIn (_id user) (Group.managers g)) with false; [done|].
    symmetry. apply not_true_iff_false. rewrite isMember_spec. tauto.
  - intros g u. apply getMessages_bad_paging.
Qed.

Lemma searchQuery_spec (q : option string) (groupId : option ObjectId)
  (startDate endDate : option Timestamp) (m : Message.t) :
  searchQuery regexTest q groupId startDate endDate m = true <->
  matchesSearch regexTest q groupId startDate endDate m.
Proof.
  unfold searchQuery, matchesSearch, tombstoned, noText.
  rewrite !andb_true_iff, negb_true_iff.
  destruct groupId as [g|], q as [pattern|], startDate as [s|], endDate as [e|];
    cbn [default];
    rewrite ?bool_decide_eq_true, ?Z.leb_le;
    try (destruct (bool_decide (pattern = EmptyString)) eqn:Hp;
         [apply bool_decide_eq_true in Hp|apply bool_decide_eq_false in Hp]);
    split.
  all: try (intros [[[[Hd Hg] Hq] Hs] He]; repeat split; try done;
            intros ? [= <-]; done).
  all: try (intros (Hd & Hg & Hq & Hs & He); repeat split; eauto).
Qed.

Lemma searchHits_spec (q : option string) (groupId : option ObjectId)
  (startDate endDate : option Timestamp) (w : World) (id : ObjectId) (m : Message.t) :
  (id, m) ∈ searchHits regexTest q groupId startDate endDate w <->
  messages w !! id = Some m /\ matchesSearch regexTest q groupId startDate endDate m.
Proof.
  unfold searchHits. rewrite list_elem_of_filter, elem_of_map_to_list. cbn [snd].
  rewrite searchQuery_spec. tauto.
Qed.

Lemma pageCount_spec (total limit : nat) :
  match pageCount total limit with
  | Some p => limit <> 0%nat /\ (total <= p * limit < total + limit)%nat
  | None => limit = 0%nat
  end.
Proof.
  unfold pageCount. destruct limit as [|k]; [done|]. split; [done|].
  set (l := S k). assert (0 < l)%nat as Hl by lia.
  pose proof (Nat.div_mod (total + l - 1) l ltac:(lia)) as Hdiv.
  pose proof (Nat.mod_upper_bound (total + l - 1) l ltac:(lia)) as Hmod.
  nia.
Qed.

Lemma patternAccepted_spec (q : option string) :
  patternAccepted regexValid q = false <->
  exists pattern, q = Some pattern /\ pattern <> EmptyString /\
                  regexValid pattern = false.
Proof.
  unfold patternAccepted, noText. rewrite orb_false_iff. split.
  - intros [Hq Hvalid]. destruct q as [pattern|]; [|done].
    exists pattern. by apply bool_decide_eq_false_1 in Hq.
  - intros (pattern & -> & Hne & Hvalid). split; [|done].
    by apply bool_decide_eq_false_2.
Qed.

Lemma searchMessages_run (w : World) (q : option string) (groupId : option ObjectId)
  (startDate endDate : option Timestamp) (page : positive) (limit : nat) :
  mongoUp w = true ->
  patternAccepted regexValid q = true ->
  let hits := searchHits regexTest q groupId startDate endDate w in
  let rest := drop ((Pos.to_nat page - 1) * limit) (merge_sort newerFirst hits) in
  searchMessages regexValid regexTest q groupId startDate endDate page limit w =
  (Ok (mkAnswer 200
         (SFound (match limit with O => rest | S _ => take limit rest end)
                 page limit (length hits) (pageCount (length hits) limit))),
   w).
Proof.
  intros Hup Hvalid hits rest.
  unfold searchMessages, Message_find, parsed. rewrite Hvalid. wunfold. wgo Hup.
  by rewrite size_filter_map_to_list.
Qed.

(** X19. A search never rejects and changes nothing.  It answers 500 when
    the store cannot be reached, and also when the store is reachable and
    the server refuses to compile the pattern, which the handler hands it
    unchecked; otherwise it answers 200.  Its hits are the stored messages
    that are not tombstoned, belong to the requested group when one is
    given, match the pattern when one is given and not empty, and were
    created within the given dates; no reader is consulted, so neither
    membership nor the join floor of a listing restricts them.  What is
    answered are hits only, newest first, no message twice, at most
    [limit] of them unless [limit] is 0; the total counts all hits; on
    page 1, with a [limit] of 0 or one that fits them, every hit is
    answered; and the page count is the least number of pages of [limit]
    that hold the total, absent when [limit] is 0. *)
Theorem searchMessages_answers (w : World) (q : option string)
  (groupId : option ObjectId) (startDate endDate : option Timestamp)
  (page : positive) (limit : nat) :
  let out :=
    searchMessages regexValid regexTest q groupId startDate endDate page limit w in
  let hits := searchHits regexTest q groupId startDate endDate w in
  let refused := exists pattern, q = Some pattern /\ pattern <> EmptyString /\
                                 regexValid pattern = false in
  out.2 = w /\
  (mongoUp w = false ->
     out.1 = Ok (mkAnswer 500 (SError (errorMessage MongoNetworkError)))) /\
  (mongoUp w = true -> refused ->
     out.1 = Ok (mkAnswer 500 (SError "Regular expression is invalid"))) /\
  (mongoUp w = true -> ~ refused ->
     exists found pages,
       out.1 = Ok (mkAnswer 200 (SFound found page limit (length hits) pages)) /\
       (forall id m, (id, m) ∈ found ->
          messages w !! id = Some m /\
          matchesSearch regexTest q groupId startDate endDate m) /\
       StronglySorted newerFirst found /\
       NoDup found.*1 /\
       (limit <> 0%nat -> (length found <= limit)%nat) /\
       (page = 1%positive -> limit = 0%nat \/ (length hits <= limit)%nat ->
          forall id m, messages w !! id = Some m ->
            matchesSearch regexTest q groupId startDate endDate m ->
            (id, m) ∈ found) /\
       match pages with
       | Some p => limit <> 0%nat /\ (length hits <= p * limit < length hits + limit)%nat
       | None => limit = 0%nat
       end).
Proof.
  cbv zeta. destruct (mongoUp w) eqn:Hup.
  2: { unfold searchMessages, Message_find, parsed.
       destruct (patternAccepted regexValid q); wunfold; by wgo Hup. }
  destruct (patternAccepted regexValid q) eqn:Hvalid.
  2: { unfold searchMessages, Message_find, parsed. rewrite Hvalid. wunfold.
       wgo Hup. split; [done|]. split; [done|]. split; [done|].
       intros _ Hok. destruct Hok. by apply patternAccepted_spec. }
  pose proof (searchMessages_run w q groupId startDate endDate page limit Hup Hvalid)
    as Hrun.
  cbv zeta in Hrun. rewrite Hrun. cbn [fst snd]. clear Hrun.
  split; [done|]. split; [done|]. split.
  { intros _ Hrefused. apply patternAccepted_spec in Hrefused. congruence. }
  intros _ _.
  set (hits := searchHits regexTest q groupId startDate endDate w).
  set (sorted := merge_sort newerFirst hits).
  set (rest := drop ((Pos.to_nat page - 1) * limit) sorted).
  set (found := match limit with O => rest | S _ => take limit rest end).
  assert (StronglySorted newerFirst sorted) as Hsorted
    by (apply StronglySorted_merge_sort; apply _).
  assert (sublist found sorted) as Hsub.
  { subst found rest. destruct limit.
    - apply sublist_drop.
    - etrans; [apply sublist_take|apply sublist_drop]. }
  assert (StronglySorted newerFirst rest) as Hrest.
  { subst rest. rewrite <- (take_drop ((Pos.to_nat page - 1) * limit) sorted) in Hsorted.
    by apply StronglySorted_app_1_r in Hsorted. }
  exists found, (pageCount (length hits) limit). split; [done|]. split.
  { intros id m Hin. apply searchHits_spec. fold hits.
    rewrite <- (merge_sort_Permutation newerFirst hits).
    by eapply elem_of_sublist. }
  split.
  { subst found. destruct limit; [done|].
    rewrite <- (take_drop (S limit) rest) in Hrest.
    by apply StronglySorted_app_1_l in Hrest. }
  split.
  { eapply sublist_NoDup; [|apply fmap_sublist, Hsub].
    subst sorted. rewrite merge_sort_Permutation. subst hits. unfold searchHits.
    eapply sublist_NoDup; [apply (NoDup_fst_map_to_list (messages w))|].
    apply fmap_sublist, sublist_filter. }
  split.
  { intros Hlim. subst found. destruct limit; [done|]. rewrite length_take. lia. }
  split.
  { intros -> Hall id m Hm Hwanted.
    assert ((id, m) ∈ sorted) as Hin.
    { subst sorted. rewrite merge_sort_Permutation. by apply searchHits_spec. }
    subst found rest. change ((Pos.to_nat 1 - 1) * limit)%nat with 0%nat.
    rewrite drop_0. destruct limit; [done|].
    rewrite take_ge; [done|]. subst sorted. rewrite merge_sort_Permutation.
    destruct Hall; [done|lia]. }
  apply pageCount_spec.
Qed.

End ListingAndSearch.

(** ** Delivery tracking *)

Section Receipts.

Import MessageController.

Lemma markAsDelivered_up (w : World) (user : ReqUser) (ids : list ObjectId)
  (tracked : gmap ObjectId Tracking.t) :
  mongoUp w = true ->
  markAsDelivered user ids w tracked =
  (mkResponse 200 (BDone "Messages marked as delivered"),
   map_imap (fun id t =>
     Some (if occursIn id ids && negb (occursIn (_id user) (Tracking.deliveredTo t))
           then Tracking.mk (Tracking.deliveredTo t ++ [_id user]) (Tracking.seenBy t)
                            "delivered"
           else t)) tracked).
Proof. intros Hup. unfold markAsDelivered, Tracking_updateMany. by rewrite Hup. Qed.

Lemma markAsSeen_up (w : World) (user : ReqUser) (ids : list ObjectId)
  (tracked : gmap ObjectId Tracking.t) :
  mongoUp w = true ->
  markAsSeen user ids w tracked =
  (mkResponse 200 (BDone "Messages marked as seen"),
   map_imap (fun id t =>
     Some (if occursIn id ids && negb (occursIn (_id user) (Tracking.seenBy t))
           then Tracking.mk (Tracking.deliveredTo t) (Tracking.seenBy t ++ [_id user])
                            "seen"
           else t)) tracked).
Proof. intros Hup. unfold markAsSeen, Tracking_updateMany. by rewrite Hup. Qed.

(** X20. Marking as delivered records a user once.  With the store
    reachable the answer is 200; a message outside the request keeps its
    tracking fields and no message is added; a message of the request has
    the user among its [deliveredTo] afterwards, keeps its [seenBy], and a
    list without duplicates stays without duplicates: a user already
    recorded leaves the message as it was, status included, and a new user
    is appended and sets the status to [delivered].  Marking the same
    messages again changes nothing. *)
Theorem markAsDelivered_records_once (w : World) (user : ReqUser)
  (ids : list ObjectId) (tracked : gmap ObjectId Tracking.t) :
  mongoUp w = true ->
  let out := markAsDelivered user ids w tracked in
  status out.1 = 200%nat /\
  (forall id, id ∉ ids -> out.2 !! id = tracked !! id) /\
  (forall id, tracked !! id = None -> out.2 !! id = None) /\
  (forall id t, tracked !! id = Some t -> id ∈ ids ->
     exists t', out.2 !! id = Some t' /\
       _id user ∈ Tracking.deliveredTo t' /\
       Tracking.seenBy t' = Tracking.seenBy t /\
       (NoDup (Tracking.deliveredTo t) -> NoDup (Tracking.deliveredTo t')) /\
       (_id user ∈ Tracking.deliveredTo t -> t' = t) /\
       (_id user ∉ Tracking.deliveredTo t ->
          Tracking.deliveredTo t' = Tracking.deliveredTo t ++ [_id user] /\
          Tracking.status t' = "delivered")) /\
  markAsDelivered user ids w out.2 = out.
Proof.
  intros Hup out. subst out. rewrite (markAsDelivered_up w user ids tracked Hup).
  cbn [fst snd status]. split; [done|]. split; [|split; [|split]].
  - intros id Hout. rewrite map_lookup_imap. destruct (tracked !! id) as [t|]; [|done].
    cbn. unfold occursIn at 1. by rewrite bool_decide_eq_false_2.
  - intros id Hnone. by rewrite map_lookup_imap, Hnone.
  - intros id t Ht Hin. rewrite map_lookup_imap, Ht. cbn.
    unfold occursIn. rewrite (bool_decide_eq_true_2 _ Hin). cbn [andb].
    destruct (decide (_id user ∈ Tracking.deliveredTo t)) as [Hdone|Hnew].
    + rewrite (bool_decide_eq_true_2 _ Hdone). cbn [negb].
      eexists. split; [reflexivity|]. repeat split; done.
    + rewrite (bool_decide_eq_false_2 _ Hnew). cbn [negb].
      eexists. split; [reflexivity|]. cbn. repeat split; try done.
      * apply elem_of_app. right. by left.
      * intros Hnd. apply NoDup_app. repeat split; [done| |apply NoDup_singleton].
        intros x Hx Hx'. apply list_elem_of_singleton in Hx'. by subst x.
  - rewrite (markAsDelivered_up w user ids _ Hup). f_equal.
    apply map_eq. intros id. rewrite !map_lookup_imap.
    destruct (tracked !! id) as [t|]; [|done]. cbn.
    destruct (occursIn id ids); cbn [andb]; [|done].
    unfold occursIn.
    destruct (decide (_id user ∈ Tracking.deliveredTo t)) as [Hdone|Hnew].
    + rewrite (bool_decide_eq_true_2 _ Hdone). cbn [negb].
      by rewrite (bool_decide_eq_true_2 _ Hdone).
    + rewrite (bool_decide_eq_false_2 _ Hnew). cbn [negb Tracking.deliveredTo].
      rewrite bool_decide_eq_true_2; [done|]. apply elem_of_app. right. by left.
Qed.

(** X21. The status follows the last acknowledgement, not the furthest one:
    once a reader has marked a message as seen, its status is [seen]; when
    another user, not yet among its [deliveredTo], then marks it as
    delivered, the status goes back to [delivered] while the reader stays
    among its [seenBy]. *)
Theorem delivery_after_seen_resets_status (w : World) (reader other : ReqUser)
  (ids : list ObjectId) (tracked : gmap ObjectId Tracking.t) (id : ObjectId)
  (t : Tracking.t) :
  mongoUp w = true ->
  tracked !! id = Some t ->
  id ∈ ids ->
  _id reader ∉ Tracking.seenBy t ->
  _id other ∉ Tracking.deliveredTo t ->
  let seen := markAsSeen reader ids w tracked in
  let delivered := markAsDelivered other ids w seen.2 in
  (exists t1, seen.2 !! id = Some t1 /\
     Tracking.status t1 = "seen" /\ _id reader ∈ Tracking.seenBy t1 /\
     Tracking.deliveredTo t1 = Tracking.deliveredTo t) /\
  (exists t2, delivered.2 !! id = Some t2 /\
     Tracking.status t2 = "delivered" /\ _id reader ∈ Tracking.seenBy t2 /\
     _id other ∈ Tracking.deliveredTo t2).
Proof.
  intros Hup Ht Hin Hunseen Hundelivered seen delivered. subst delivered seen.
  rewrite (markAsSeen_up w reader ids tracked Hup). cbn [snd].
  rewrite (markAsDelivered_up w other ids _ Hup). cbn [snd].
  rewrite !map_lookup_imap, Ht. cbn.
  unfold occursIn. rewrite !(bool_decide_eq_true_2 _ Hin). cbn [andb].
  rewrite (bool_decide_eq_false_2 _ Hunseen). cbn [negb Tracking.deliveredTo].
  rewrite (bool_decide_eq_false_2 _ Hundelivered). cbn [negb].
  split; eexists; (split; [reflexivity|]); cbn; repeat split;
    apply elem_of_app; right; by left.
Qed.

End Receipts.

(** ** Realtime session: rooms, group listeners, notifications *)

Section MoreSocketProperties.

Import NotificationService ChatSocket.

Variable extractTags : string -> list string.
Variable schemaValid : Message.t -> bool.
Variable client : RedisClient.

(** What a [sendNotification] leaves alone, and what it appends. *)
Lemma sendNotification_effect (userId : ObjectId) (n : Notification.t) (w : World) :
  exists b w',
    sendNotification client userId n w = (Ok b, w') /\
    messages w' = messages w /\ groups w' = groups w /\ mongoUp w' = mongoUp w /\
    io w' = io w /\ rooms w' = rooms w /\ connected w' = connected w /\
    emitted w' = emitted w /\ clock w' = clock w /\ reads w' = reads w /\
    users w' = if mongoUp w then alter (pushNotification n) userId (users w)
               else users w.
Proof.
  unfold sendNotification, redisGet, redisSetex. wunfold.
  destruct (mongoUp w) eqn:Hup; wsimpl.
  - destruct (redis_get client userId (redis w)) as [[cached|e] s]; wsimpl.
    + destruct (redis_setex client userId (24 * 60 * 60)
                  (capped (default [] cached ++ [n])) s) as [[[]|e] s'];
        wsimpl; do 2 eexists; (split; [reflexivity|]); wsimpl; by rewrite ?Hup.
    + do 2 eexists; (split; [reflexivity|]); wsimpl; by rewrite ?Hup.
  - do 2 eexists; (split; [reflexivity|]); wsimpl; by rewrite ?Hup.
Qed.

Lemma notified_push (k : nat) (n : Notification.t) (u : User.t) :
  notified k n (pushNotification n u) = notified (S k) n u.
Proof.
  unfold notified, pushNotification, User.set_notifications. cbn.
  by rewrite <- app_assoc.
Qed.

Lemma notified_zero (n : Notification.t) (u : User.t) : notified 0 n u = u.
Proof. unfold notified. cbn. rewrite app_nil_r. by destruct u. Qed.

Lemma appendAll_lookup (n : Notification.t) (to : list ObjectId)
  (us : gmap ObjectId User.t) (k : ObjectId) :
  appendAll n to us !! k = notified (occurrences k to) n <$> us !! k.
Proof.
  revert us. induction to as [|x to IH]; intros us.
  - cbn. destruct (us !! k) as [u|]; cbn; [|done]. by rewrite notified_zero.
  - cbn [appendAll foldl]. fold (appendAll n to (alter (pushNotification n) x us)).
    rewrite IH. unfold occurrences. destruct (decide (x = k)) as [->|Hne].
    + rewrite filter_cons_True by done. cbn [length]. rewrite lookup_alter_eq.
      destruct (us !! k) as [u|]; cbn; [|done]. by rewrite notified_push.
    + rewrite filter_cons_False by done. by rewrite lookup_alter_ne.
Qed.

Lemma occurrences_populated (w : World) (g : Group.t) (k : ObjectId) :
  is_Some (users w !! k) ->
  occurrences k (populateMembers w g) = occurrences k (Group.users g ++ Group.managers g).
Proof.
  intros Hk. unfold occurrences, populateMembers.
  induction (Group.users g ++ Group.managers g) as [|x l IH]; [done|].
  destruct (decide (x = k)) as [->|Hne].
  - rewrite (filter_cons_True (fun u => is_Some (users w !! u))) by done.
    rewrite !filter_cons_True by done. cbn [length]. by rewrite IH.
  - rewrite (filter_cons_False (fun y => y = k) x l) by (by intros ?).
    destruct (decide (is_Some (users w !! x))) as [Hx|Hx].
    + rewrite (filter_cons_True (fun u => is_Some (users w !! u))) by done.
      rewrite (filter_cons_False (fun y => y = k)) by (by intros ?). exact IH.
    + rewrite (filter_cons_False (fun u => is_Some (users w !! u))) by done.
      exact IH.
Qed.

Lemma occurrences_recipients (self k : ObjectId) (l : list ObjectId) :
  occurrences k (recipients self l) = if decide (k = self) then 0%nat else occurrences k l.
Proof.
  unfold occurrences, recipients. induction l as [|x l IH]; [by destruct (decide _)|].
  destruct (decide (x = self)) as [->|Hx].
  - rewrite (filter_cons_False (fun m => m <> self)) by (by intros ?).
    rewrite IH. destruct (decide (k = self)) as [->|Hk]; [done|].
    rewrite (filter_cons_False (fun y => y = k)) by (by intros ?). done.
  - rewrite (filter_cons_True (fun m => m <> self)) by done.
    destruct (decide (x = k)) as [->|Hxk].
    + rewrite !filter_cons_True by done. cbn [length]. rewrite IH.
      destruct (decide _); [congruence|done].
    + rewrite !(filter_cons_False (fun y => y = k)) by (by intros ?). exact IH.
Qed.

Lemma recipients_spec (self member : ObjectId) (w : World) (g : Group.t) :
  member ∈ recipients self (populateMembers w g) <->
  member <> self /\ (member ∈ Group.users g \/ member ∈ Group.managers g) /\
  is_Some (users w !! member).
Proof.
  unfold recipients, populateMembers.
  rewrite !list_elem_of_filter, elem_of_app. tauto.
Qed.

Lemma storeForMembers_run (socket : Socket) (members : list ObjectId)
  (n : Notification.t) (w : World) :
  exists w',
    storeForMembers client socket members n w = (Ok tt, w') /\
    messages w' = messages w /\ groups w' = groups w /\ mongoUp w' = mongoUp w /\
    io w' = io w /\ rooms w' = rooms w /\ connected w' = connected w /\
    emitted w' = emitted w /\ clock w' = clock w /\ reads w' = reads w /\
    users w' = if mongoUp w
               then appendAll n (recipients (userId socket) members) (users w)
               else users w.
Proof.
  revert w. unfold storeForMembers.
  induction members as [|member members IH]; intros w.
  - exists w. split; [done|]. do 9 (split; [done|]). cbn. by destruct (mongoUp w).
  - cbn [forEach]. unfold bind at 1, when. unfold recipients.
    destruct (decide (member = userId socket)) as [Heq|Hne].
    + rewrite (bool_decide_eq_true_2 _ Heq). cbn [negb]. unfold ret at 1.
      rewrite filter_cons_False by (by intros ?). apply IH.
    + rewrite (bool_decide_eq_false_2 _ Hne). cbn [negb]. unfold bind at 1.
      destruct (sendNotification_effect member n w)
        as (b & w1 & -> & Hm & Hg & Hup & Hio & Hr & Hc & He & Hcl & Hrd & Hu).
      unfold ret at 1. destruct (IH w1)
        as (w2 & Hrun & Hm2 & Hg2 & Hup2 & Hio2 & Hr2 & Hc2 & He2 & Hcl2 & Hrd2 & Hu2).
      exists w2. split; [exact Hrun|].
      do 9 (split; [congruence|]).
      rewrite Hu2, Hup, Hu. rewrite filter_cons_True by done.
      by destruct (mongoUp w).
Qed.

Lemma notifyMembers_run (socket : Socket) (members : list ObjectId)
  (n : Notification.t) (w : World) :
  exists w',
    notifyMembers client socket members n w = (Ok tt, w') /\
    messages w' = messages w /\ groups w' = groups w /\ mongoUp w' = mongoUp w /\
    io w' = io w /\ rooms w' = rooms w /\ connected w' = connected w /\
    clock w' = clock w /\ reads w' = reads w /\
    emitted w' =
      emitted w ++
      ((fun member => mkEmit (ToRoom (RUser member)) "notification:new"
                             (PNotification n))
       <$> recipients (userId socket) members) /\
    users w' = if mongoUp w
               then appendAll n (recipients (userId socket) members) (users w)
               else users w.
Proof.
  revert w. unfold notifyMembers.
  induction members as [|member members IH]; intros w.
  - exists w. split; [done|]. do 8 (split; [done|]). cbn. rewrite app_nil_r.
    by destruct (mongoUp w).
  - cbn [forEach]. unfold bind at 1, when. unfold recipients.
    destruct (decide (member = userId socket)) as [Heq|Hne].
    + rewrite (bool_decide_eq_true_2 _ Heq). cbn [negb]. unfold ret at 1.
      rewrite filter_cons_False by (by intros ?). apply IH.
    + rewrite (bool_decide_eq_false_2 _ Hne). cbn [negb]. unfold bind at 1.
      destruct (sendNotification_effect member n w)
        as (b & w1 & -> & Hm & Hg & Hup & Hio & Hr & Hc & He & Hcl & Hrd & Hu).
      unfold emit at 1.
      destruct (IH (set_emitted
                      (emitted w1 ++
                       [mkEmit (ToRoom (RUser member)) "notification:new"
                               (PNotification n)]) w1))
        as (w2 & Hrun & Hm2 & Hg2 & Hup2 & Hio2 & Hr2 & Hc2 & Hcl2 & Hrd2 & He2 & Hu2).
      wsimpl_all. exists w2. split; [exact Hrun|].
      do 8 (split; [congruence|]). rewrite filter_cons_True by done. split.
      * rewrite He2, He. cbn [fmap list_fmap]. by rewrite <- app_assoc.
      * rewrite Hu2, Hup, Hu. by destruct (mongoUp w).
Qed.

Ltac group_listener_run Hup :=
  unfold socket_leave; wunfold; wgo Hup;
  first
  [ by do 2 eexists
  | destruct (_ ≫= _) as [g|]; cbn [fmap option_fmap option_map]; wgo Hup;
    [ match goal with |- context [storeForMembers ?c ?socket ?ms ?n ?w0] =>
        let w' := fresh "w'" in
        let Hu := fresh "Hu" in
        destruct (storeForMembers_run socket ms n w0)
          as (w' & -> & ? & ? & ? & ? & ? & ? & ? & ? & ? & Hu);
        wsimpl_all; rewrite Hup in Hu;
        do 2 eexists; (split; [reflexivity|]); repeat split; done
      end
    | do 2 eexists; (split; [reflexivity|]); repeat split; done ] ].

Lemma onGroupJoin_run (w : World) (socket : Socket) (user : User.t)
  (groupId : option ObjectId) :
  exists r w',
    (onGroupJoin client socket user groupId).2 w = (r, w') /\
    r = (if mongoUp w then Ok tt else Throw MongoNetworkError) /\
    rooms w' = rooms w ++ [(id socket, RGroup groupId)] /\
    emitted w' = emitted w /\ groups w' = groups w /\ messages w' = messages w /\
    users w' = noticed (joinNotice user groupId) (userId socket) groupId w.
Proof.
  unfold onGroupJoin, noticed, joinNotice. cbn [snd].
  destruct (mongoUp w) eqn:Hup; group_listener_run Hup.
Qed.

Lemma onGroupLeave_run (w : World) (socket : Socket) (user : User.t)
  (groupId : option ObjectId) :
  exists r w',
    (onGroupLeave client socket user groupId).2 w = (r, w') /\
    r = (if mongoUp w then Ok tt else Throw MongoNetworkError) /\
    rooms w' = filter (fun x => x <> (id socket, RGroup groupId)) (rooms w) /\
    emitted w' = emitted w /\ groups w' = groups w /\ messages w' = messages w /\
    users w' = noticed (leaveNotice user groupId) (userId socket) groupId w.
Proof.
  unfold onGroupLeave, noticed, leaveNotice. cbn [snd].
  destruct (mongoUp w) eqn:Hup; group_listener_run Hup.
Qed.

Lemma noticed_lookup (notice : Group.t -> Timestamp -> Notification.t)
  (self : ObjectId) (gid : ObjectId) (g : Group.t) (w : World) (member : ObjectId)
  (u : User.t) :
  mongoUp w = true ->
  groups w !! gid = Some g ->
  users w !! member = Some u ->
  noticed notice self (Some gid) w !! member =
    Some (if decide (member = self) then u
          else notified (occurrences member (Group.users g ++ Group.managers g))
                        (notice g (clock w (reads w))) u).
Proof.
  intros Hup Hg Hmember. unfold noticed. rewrite Hup. cbn [mbind option_bind].
  rewrite Hg, appendAll_lookup, occurrences_recipients, Hmember. cbn.
  destruct (decide (member = self)); [by rewrite notified_zero|].
  by rewrite occurrences_populated.
Qed.

Lemma noticed_self (notice : Group.t -> Timestamp -> Notification.t)
  (self : ObjectId) (groupId : option ObjectId) (w : World) :
  noticed notice self groupId w !! self = users w !! self.
Proof.
  unfold noticed. destruct (mongoUp w); [|done].
  destruct (groupId ≫= _) as [g|]; [|done].
  rewrite appendAll_lookup, occurrences_recipients, decide_True by done.
  destruct (users w !! self) as [u|]; cbn; [|done]. by rewrite notified_zero.
Qed.

(** X22. [group:join] checks nothing.  Whatever the group id, whether such
    a group exists, whether the user belongs to it and whether the store
    can be reached, the socket is put into the room of that id and
    [user:joined] is relayed to the room's other sockets; no group, no
    message and not the user's own record is changed, and nothing else is
    emitted.  The listener resolves when the store is reachable and
    rejects when it is not; when the store is unreachable or the id
    matches no group, no user record changes. *)
Theorem group_join_is_unchecked (w : World) (socket : Socket) (user : User.t)
  (groupId : option ObjectId) :
  let listener := onGroupJoin client socket user groupId in
  let out := listener.2 w in
  listener.1 = mkRelay (ToRoomExcept (RGroup groupId) (id socket)) "user:joined"
                       (userId socket) (User.username user) /\
  out.1 = (if mongoUp w then Ok tt else Throw MongoNetworkError) /\
  rooms out.2 = rooms w ++ [(id socket, RGroup groupId)] /\
  emitted out.2 = emitted w /\
  groups out.2 = groups w /\
  messages out.2 = messages w /\
  users out.2 !! userId socket = users w !! userId socket /\
  (mongoUp w = false \/ groupId ≫= (fun g => groups w !! g) = None ->
     users out.2 = users w).
Proof.
  cbv zeta. split; [done|].
  destruct (onGroupJoin_run w socket user groupId)
    as (r & w' & -> & -> & Hr & He & Hg & Hm & Hu).
  cbn [fst snd]. do 5 (split; [done|]). split.
  - rewrite Hu. apply noticed_self.
  - intros Hnone. rewrite Hu. unfold noticed. destruct (mongoUp w); [|done].
    destruct Hnone as [? | ->]; done.
Qed.

(** X23. What [group:join] and [group:leave] store.  For an existing group
    and the store reachable, whatever the cache does, the listener
    resolves and emits no notification; every existing user other than
    the actor gets the notification appended to the durable list once for
    each time the user's id occurs among the group's users and managers,
    twice for a manager who is also listed as a user and not at all for a
    user outside the group; the actor's record and unknown ids are left
    alone.  The notification is of type [user_joined], respectively
    [user_left], names the actor and the group, and is stamped with the
    listener's clock reading. *)
Theorem group_join_stores_notices (w : World) (socket : Socket) (user : User.t)
  (gid : ObjectId) (g : Group.t) :
  mongoUp w = true ->
  groups w !! gid = Some g ->
  let joinedNote :=
    Notification.mk "user_joined" (User.username user +:+ " joined the group")
      (User.username user +:+ " has joined " +:+ Group.name g)
      (Some gid) (Group.name g) None None (clock w (reads w)) in
  let leftNote :=
    Notification.mk "user_left" (User.username user +:+ " left the group")
      (User.username user +:+ " has left " +:+ Group.name g)
      (Some gid) (Group.name g) None None (clock w (reads w)) in
  let joined := (onGroupJoin client socket user (Some gid)).2 w in
  let left := (onGroupLeave client socket user (Some gid)).2 w in
  let stored (note : Notification.t) (after : World) :=
    (forall member u, users w !! member = Some u ->
       users after !! member =
         Some (if decide (member = userId socket) then u
               else notified (occurrences member (Group.users g ++ Group.managers g))
                             note u)) /\
    (forall member, users w !! member = None -> users after !! member = None) in
  joined.1 = Ok tt /\ emitted joined.2 = emitted w /\ stored joinedNote joined.2 /\
  left.1 = Ok tt /\ emitted left.2 = emitted w /\ stored leftNote left.2.
Proof.
  intros Hup Hg joinedNote leftNote joined left stored. subst joined left stored.
  destruct (onGroupJoin_run w socket user (Some gid))
    as (r & w' & -> & -> & Hr & He & Hg' & Hm & Hu).
  destruct (onGroupLeave_run w socket user (Some gid))
    as (r2 & w2 & -> & -> & Hr2 & He2 & Hg2 & Hm2 & Hu2).
  cbn [fst snd]. rewrite Hup.
  assert (forall notice member, users w !! member = None ->
            noticed notice (userId socket) (Some gid) w !! member = None) as Hnone.
  { intros notice member Hnone. unfold noticed. rewrite Hup.
    cbn [mbind option_bind]. by rewrite Hg, appendAll_lookup, Hnone. }
  split; [done|]. split; [done|]. split.
  { split.
    - intros member u Hmember. rewrite Hu.
      by rewrite (noticed_lookup _ _ gid g w member u Hup Hg Hmember).
    - intros member Hmember. rewrite Hu. by apply Hnone. }
  split; [done|]. split; [done|]. split.
  - intros member u Hmember. rewrite Hu2.
    by rewrite (noticed_lookup _ _ gid g w member u Hup Hg Hmember).
  - intros member Hmember. rewrite Hu2. by apply Hnone.
Qed.

(** X24. Leaving undoes joining, and more: after [group:join] the socket is
    in the group's room; after a [group:leave] for the same id it is not,
    whether or not it was there before the join, as it is for the room of
    the user's own group after connecting.  Neither listener changes any
    other membership, of this socket or of another. *)
Theorem group_leave_undoes_join (w : World) (socket : Socket) (user : User.t)
  (groupId : option ObjectId) :
  let joined := ((onGroupJoin client socket user groupId).2 w).2 in
  let left := ((onGroupLeave client socket user groupId).2 joined).2 in
  inRoom (id socket) (RGroup groupId) joined /\
  ~ inRoom (id socket) (RGroup groupId) left /\
  forall s r, (s, r) <> (id socket, RGroup groupId) ->
    (inRoom s r joined <-> inRoom s r w) /\ (inRoom s r left <-> inRoom s r w).
Proof.
  cbv zeta.
  destruct (onGroupJoin_run w socket user groupId)
    as (r1 & w1 & -> & _ & Hr1 & _).
  cbn [snd].
  destruct (onGroupLeave_run w1 socket user groupId)
    as (r2 & w2 & -> & _ & Hr2 & _).
  cbn [snd]. unfold inRoom. rewrite Hr2, Hr1. split.
  { apply elem_of_app. right. by left. }
  split.
  - rewrite list_elem_of_filter. by intros [? _].
  - intros s r Hne. rewrite list_elem_of_filter, !elem_of_app, list_elem_of_singleton.
    tauto.
Qed.

Lemma onConnection_rooms (w : World) (socket : Socket) (user : User.t) :
  mongoUp w = true ->
  users w !! userId socket = Some user ->
  exists w',
    onConnection socket w = (Ok (Some user), w') /\
    rooms w' =
      rooms w ++ [(id socket, RUser (userId socket))] ++
      match User.groupId user with
      | Some g => [(id socket, RGroup (Some g))]
      | None => []
      end ++
      (if bool_decide (User.role user = admin) then [(id socket, RAdmin)] else []).
Proof.
  intros Hup Huser. unfold onConnection. wunfold. wgo Hup. rewrite Huser. wgo Hup.
  destruct (User.groupId user) as [grp|];
    destruct (bool_decide (User.role user = admin)); wgo Hup;
    (eexists; split; [reflexivity|]); wsimpl; by rewrite <- ?app_assoc, ?app_nil_r.
Qed.

(** X25. The admin room is for admins.  A connecting admin is put into
    [admin:room], and [join:admin] puts an admin there again; for a user
    whose role is not admin, none of the connection handler, [join:admin],
    [group:join] and [group:leave] changes who is in [admin:room],
    whatever group id is sent. *)
Theorem admin_room_is_for_admins (w : World) (socket : Socket) (user : User.t)
  (groupId : option ObjectId) :
  (User.role user = admin ->
     inRoom (id socket) RAdmin (onJoinAdmin socket user w).2 /\
     (mongoUp w = true -> users w !! userId socket = Some user ->
      inRoom (id socket) RAdmin (onConnection socket w).2)) /\
  (User.role user <> admin ->
     forall s,
       (inRoom s RAdmin (onJoinAdmin socket user w).2 <-> inRoom s RAdmin w) /\
       (inRoom s RAdmin ((onGroupJoin client socket user groupId).2 w).2
          <-> inRoom s RAdmin w) /\
       (inRoom s RAdmin ((onGroupLeave client socket user groupId).2 w).2
          <-> inRoom s RAdmin w) /\
       (mongoUp w = true -> users w !! userId socket = Some user ->
        (inRoom s RAdmin (onConnection socket w).2 <-> inRoom s RAdmin w))).
Proof.
  unfold inRoom. split.
  - intros Hadmin. split.
    + unfold onJoinAdmin, when, socket_join. rewrite bool_decide_eq_true_2 by done.
      cbn. apply elem_of_app. right. by left.
    + intros Hup Huser.
      destruct (onConnection_rooms w socket user Hup Huser) as (w' & -> & Hrooms).
      cbn [snd]. rewrite Hrooms, bool_decide_eq_true_2 by done.
      rewrite !elem_of_app. right. right. right. by left.
  - intros Hrole s. split; [|split; [|split]].
    + unfold onJoinAdmin, when. by rewrite bool_decide_eq_false_2.
    + destruct (onGroupJoin_run w socket user groupId)
        as (r1 & w1 & -> & _ & Hrooms & _).
      cbn [snd]. rewrite Hrooms, elem_of_app, list_elem_of_singleton.
      split; [|tauto]. intros [?|[= _ ?]]; done.
    + destruct (onGroupLeave_run w socket user groupId)
        as (r1 & w1 & -> & _ & Hrooms & _).
      cbn [snd]. rewrite Hrooms, list_elem_of_filter. split; [tauto|]. intros Hin.
      split; [|done]. intros [= _ ?].
    + intros Hup Huser.
      destruct (onConnection_rooms w socket user Hup Huser) as (w' & -> & Hrooms).
      cbn [snd]. rewrite Hrooms, bool_decide_eq_false_2 by done.
      rewrite app_nil_r, !elem_of_app, list_elem_of_singleton.
      split; [|tauto]. intros [?|[[= _ ?]|Hg]]; [done|].
      destruct (User.groupId user); [|by apply elem_of_nil in Hg].
      apply list_elem_of_singleton in Hg. by injection Hg.
Qed.

(** X26. When presence cannot be recorded.  With the store unreachable
    the connection handler rejects before anything has happened, and the
    disconnect listener rejects having stored and announced nothing.  With
    the store reachable and no user under the socket's user id, the
    connection handler drops the socket: it joins no room, stores nothing
    and announces nothing; and a disconnect for a user whose record is gone
    stores nothing and still announces the user offline, from the snapshot
    read at connect. *)
Theorem presence_failure_modes (w : World) (socket : Socket) (user : User.t) :
  let connect := onConnection socket w in
  let leave := onDisconnect socket user w in
  (mongoUp w = false ->
     connect = (Throw MongoNetworkError, w) /\
     leave.1 = Throw MongoNetworkError /\
     users leave.2 = users w /\
     emitted leave.2 = emitted w) /\
  (mongoUp w = true -> users w !! userId socket = None ->
     connect.1 = Ok None /\
     users connect.2 = users w /\
     emitted connect.2 = emitted w /\
     rooms connect.2 = rooms w /\
     (id socket ∉ connected connect.2) /\
     leave.1 = Ok tt /\
     users leave.2 = users w /\
     summary <$> drop (length (emitted w)) (emitted leave.2)
       = presenceEvents false socket user).
Proof.
  cbv zeta. split.
  - intros Hdown. split.
    + unfold onConnection. wunfold. by wgo Hdown.
    + unfold onDisconnect. wunfold. by wgo Hdown.
  - intros Hup Hnone.
    destruct (onDisconnect_run w socket user Hup) as (w2 & es & -> & Hu & He & Hs).
    cbn [fst snd]. rewrite He, drop_app_length, Hs, Hu.
    assert (alter (User.set_presence false (clock w (reads w))) (userId socket) (users w)
            = users w) as ->.
    { apply map_eq. intros j. destruct (decide (j = userId socket)) as [->|Hne].
      - by rewrite lookup_alter_eq, Hnone.
      - by rewrite lookup_alter_ne. }
    unfold onConnection. wunfold. wgo Hup. rewrite Hnone. wsimpl.
    do 4 (split; [done|]). split; [|done].
    rewrite list_elem_of_filter. by intros [? _].
Qed.

Lemma resolveForwardedGroups_explicit (payload : SendPayload) (tags : list string)
  (w : World) :
  mongoUp w = true ->
  targetGroups payload <> [] ->
  resolveForwardedGroups payload tags w =
  (Ok (forwardTargets (targetGroups payload) w), w).
Proof.
  intros Hup Hsome. unfold resolveForwardedGroups.
  destruct (targetGroups payload) as [|t ts] eqn:Htargets; [done|].
  cbn [length Nat.ltb Nat.leb]. unfold Group_find. rewrite (query_up _ _ Hup).
  cbn [fst snd]. f_equal. f_equal. unfold forwardTargets.
  apply list_filter_iff. intros kv. by rewrite bool_decide_eq_true.
Qed.

(** The run of [message:send] up to the forwarding loop. *)
Lemma onMessageSend_prefix (w : World) (socket : Socket) (user : User.t)
  (payload : SendPayload) (matched : list (ObjectId * Group.t)) :
  mongoUp w = true ->
  resolveForwardedGroups payload (extractTags (text payload)) w = (Ok matched, w) ->
  let target := match groupId payload with
                | Some x => Some x
                | None => User.groupId user
                end in
  let pid := fresh (dom (messages w)) in
  let primary := newMessage (userId socket) target (text payload) (file payload)
                   (extractTags (text payload)) None matched.*1 (clock w (reads w)) in
  schemaValid primary = true ->
  let populatedMsg := Some (populate w pid primary) in
  let w2 := set_emitted
              (emitted w ++ [mkEmit (ToRoom (RGroup target)) "message:new"
                                    (PMessage populatedMsg)])
              (set_messages (<[pid := primary]> (messages w))
                            (set_reads (S (reads w)) w)) in
  onMessageSend extractTags schemaValid client socket user payload w =
  (forEach matched
     (forwardCopy schemaValid socket payload (extractTags (text payload)) target pid
                  populatedMsg matched.*1) ;;;
   notifyAll client socket user payload target matched ;;;
   ret (mkAck true pid)) w2.
Proof.
  intros Hup Hres target pid primary Hvalid populatedMsg w2.
  unfold onMessageSend. fold target.
  rewrite (bind_ok _ _ _ _ _ Hres).
  rewrite (bind_ok _ _ _ _ _ (Message_create_run schemaValid _ w Hup Hvalid)).
  cbn [fst snd]. fold pid primary.
  unfold Message_findById_populated.
  erewrite bind_ok; [|by apply query_up].
  cbn [fst snd]. wsimpl. rewrite lookup_insert_eq. cbn [fmap option_fmap option_map].
  unfold bind at 1, emit at 1. cbn [fst snd]. done.
Qed.

Lemma onMessageSend_run_with (w : World) (socket : Socket) (user : User.t)
  (payload : SendPayload) (gid : ObjectId) (g : Group.t)
  (matched : list (ObjectId * Group.t)) :
  mongoUp w = true ->
  resolveForwardedGroups payload (extractTags (text payload)) w = (Ok matched, w) ->
  match groupId payload with Some x => Some x | None => User.groupId user end
    = Some gid ->
  groups w !! gid = Some g ->
  (forall grp ff ftg created,
     schemaValid (newMessage (userId socket) grp (text payload) (file payload)
                    (extractTags (text payload)) ff ftg created) = true) ->
  let pid := fresh (dom (messages w)) in
  let primary := newMessage (userId socket) (Some gid) (text payload) (file payload)
                   (extractTags (text payload)) None matched.*1 (clock w (reads w)) in
  exists w' es,
    onMessageSend extractTags schemaValid client socket user payload w
      = (Ok (mkAck true pid), w') /\
    messages w !! pid = None /\
    messages w' !! pid = Some primary /\
    size (messages w') = (size (messages w) + 1 + length matched)%nat /\
    (forall id m, messages w !! id = Some m -> messages w' !! id = Some m) /\
    (forall id m, messages w' !! id = Some m -> messages w !! id = None ->
       id <> pid ->
       Message.forwardedFrom m = Some pid /\
       exists grp, grp ∈ matched /\ Message.groupId m = Some grp.1) /\
    (forall grp, grp ∈ matched ->
       exists id m, id <> pid /\ messages w !! id = None /\
                    messages w' !! id = Some m /\
                    Message.groupId m = Some grp.1 /\
                    Message.forwardedFrom m = Some pid) /\
    emitted w' = emitted w ++ es /\
    broadcasts es =
      ToRoom (RGroup (Some gid)) ::
      ((fun grp => ToRoom (RGroup (Some grp.1))) <$> matched).
Proof.
  intros Hup Hres Htarget Hg Hvalid pid primary.
  pose proof (fresh_id_unused w) as Hfresh. fold pid in Hfresh.
  pose proof (onMessageSend_prefix w socket user payload matched Hup Hres) as Hpre.
  cbv zeta in Hpre. rewrite Htarget in Hpre. rewrite (Hpre (Hvalid _ _ _ _)).
  clear Hpre. fold pid primary.
  set (w1 := set_messages (<[pid := primary]> (messages w)) (set_reads (S (reads w)) w)).
  set (w2 := set_emitted _ w1).
  assert (mongoUp w2 = true) as Hup2 by done.
  assert (Some (populate w pid primary) ≫= p_group
          = Some (Group.name g, Group.region g)) as Hname.
  { cbn. by rewrite Hg. }
  destruct (forwardCopies_run schemaValid socket payload (extractTags (text payload))
              (Some gid) pid (Some (populate w pid primary)) _ _ matched.*1 matched
              Hname Hvalid w2 Hup2)
    as (w3 & Hrun3 & Hup3 & Hg3 & Hsize & Hold & Hnew & Hall & es & He3 & Hbs).
  rewrite (bind_ok _ _ _ _ _ Hrun3).
  destruct (notifyAll_quiet client socket user payload gid g matched w3 Hup3)
    as (w4 & Hrun4 & Hm4 & _ & _ & es' & He4 & Hes').
  { by rewrite Hg3. }
  rewrite (bind_ok _ _ _ _ _ Hrun4). unfold ret.
  exists w4, ([mkEmit (ToRoom (RGroup (Some gid))) "message:new"
                      (PMessage (Some (populate w pid primary)))] ++ es ++ es').
  split; [done|]. split; [done|]. rewrite Hm4.
  assert (messages w2 = <[pid := primary]> (messages w)) as Hm2 by done.
  split; [apply Hold; rewrite Hm2; apply lookup_insert_eq|]. split.
  { rewrite Hsize, Hm2, map_size_insert_None by done. lia. }
  split.
  { intros id m Hm. apply Hold. rewrite Hm2, lookup_insert_ne; [done|].
    intros <-. congruence. }
  split.
  { intros id m Hm Hnone' Hne. apply (Hnew id m); [done|].
    by rewrite Hm2, lookup_insert_ne. }
  split.
  { intros grp Hgrp. destruct (Hall grp Hgrp) as (id & m & Hnone' & Hm & Hgid & Hfwd).
    rewrite Hm2 in Hnone'. apply lookup_insert_None in Hnone' as [Hnone' Hne].
    exists id, m. split; [congruence|]. done. }
  split.
  { rewrite He4, He3. subst w2. wsimpl. by rewrite <- !app_assoc. }
  rewrite !broadcasts_app, Hbs, (broadcasts_notifications es' Hes'), app_nil_r. done.
Qed.

(** X27. Explicit targets override the tags.  For a [message:send] that
    names target groups, to an existing group, with the store reachable
    and the schema accepting the documents, the copies go to the existing
    groups whose id is named, each once, and to no other group, whatever
    tags the text carries and whatever regions they match: the primary
    record lists exactly those groups, one new record with [forwardedFrom]
    set to the primary's id is added per such group, and [message:new] is
    broadcast to the target group's room and then to each of theirs. *)
Theorem send_with_explicit_targets (w : World) (socket : Socket) (user : User.t)
  (payload : SendPayload) (gid : ObjectId) (g : Group.t) :
  mongoUp w = true ->
  targetGroups payload <> [] ->
  match groupId payload with Some x => Some x | None => User.groupId user end
    = Some gid ->
  groups w !! gid = Some g ->
  (forall d, schemaValid d = true) ->
  let targets := forwardTargets (targetGroups payload) w in
  let out := onMessageSend extractTags schemaValid client socket user payload w in
  let w' := out.2 in
  exists pid primary es,
    out.1 = Ok (mkAck true pid) /\
    messages w !! pid = None /\
    messages w' !! pid = Some primary /\
    Message.forwardedToGroups primary = targets.*1 /\
    Message.tags primary = extractTags (text payload) /\
    (forall t grp, (t, grp) ∈ targets <->
       groups w !! t = Some grp /\ t ∈ targetGroups payload) /\
    size (messages w') = (size (messages w) + 1 + length targets)%nat /\
    (forall id m, messages w' !! id = Some m -> messages w !! id = None ->
       id <> pid ->
       Message.forwardedFrom m = Some pid /\
       exists grp, grp ∈ targets /\ Message.groupId m = Some grp.1) /\
    (forall grp, grp ∈ targets ->
       exists id m, id <> pid /\ messages w !! id = None /\
                    messages w' !! id = Some m /\
                    Message.groupId m = Some grp.1 /\
                    Message.forwardedFrom m = Some pid) /\
    emitted w' = emitted w ++ es /\
    broadcasts es =
      ToRoom (RGroup (Some gid)) ::
      ((fun grp => ToRoom (RGroup (Some grp.1))) <$> targets).
Proof.
  intros Hup Hexplicit Htarget Hg Hvalid targets out w'. subst w' out.
  pose proof (onMessageSend_run_with w socket user payload gid g targets Hup
                (resolveForwardedGroups_explicit payload _ w Hup Hexplicit)
                Htarget Hg (fun _ _ _ _ => Hvalid _)) as Hrun.
  cbv zeta in Hrun.
  destruct Hrun as (w' & es & -> & Hfresh & Hprimary & Hsize & Hold & Hnew & Hall
                    & Hes & Hbs).
  cbn [fst snd]. do 2 eexists. exists es.
  do 3 (split; [done|]). split; [done|]. split; [done|].
  split; [intros t grp; apply forwardTargets_spec|]. done.
Qed.

Lemma notifyAll_missing_group (socket : Socket) (user : User.t)
  (payload : SendPayload) (target : option ObjectId) (w : World) :
  mongoUp w = true ->
  target ≫= (fun gid => groups w !! gid) = None ->
  notifyAll client socket user payload target [] w = (Ok tt, w).
Proof.
  intros Hup Hmissing. unfold notifyAll, Group_findById_populated.
  unfold bind at 1. rewrite (query_up _ _ Hup). cbn [fst snd]. by rewrite Hmissing.
Qed.

Lemma forwardCopy_without_name (socket : Socket) (payload : SendPayload)
  (tags : list string) (target : option ObjectId) (pid : ObjectId)
  (populatedMsg : option Populated) (forwardedIds : list ObjectId)
  (g : ObjectId * Group.t) (w : World) :
  mongoUp w = true ->
  populatedMsg ≫= p_group = None ->
  (forall d, schemaValid d = true) ->
  forwardCopy schemaValid socket payload tags target pid populatedMsg forwardedIds g w =
  (Throw (TypeError "Cannot read properties of null (reading 'name')"),
   set_messages
     (<[fresh (dom (messages w)) :=
          newMessage (userId socket) (Some g.1) (text payload) (file payload) tags
                     (Some pid) forwardedIds (clock w (reads w))]> (messages w))
     (set_reads (S (reads w)) w)).
Proof.
  intros Hup Hnone Hvalid. unfold forwardCopy, originalGroupName. rewrite Hnone.
  rewrite (bind_ok _ _ _ _ _ (Message_create_run schemaValid _ w Hup (Hvalid _))).
  unfold Message_findById_populated. erewrite bind_ok; [|by apply query_up].
  done.
Qed.

(** X28. A send to a group that does not exist.  For a [message:send] with
    no explicit targets whose target group id is absent or matches no
    group, with the store reachable and the schema accepting the
    documents, the primary record is stored and broadcast to the room of
    that id all the same, and nobody is notified.  When no group matches
    the tags, the send is acknowledged; when some group does, the copy for
    the first of them is stored, then the listener rejects on the missing
    group name: that copy is not broadcast, the other groups get no copy,
    and nothing is acknowledged. *)
Theorem send_to_missing_group (w : World) (socket : Socket) (user : User.t)
  (payload : SendPayload) :
  mongoUp w = true ->
  targetGroups payload = [] ->
  let target := match groupId payload with
                | Some x => Some x
                | None => User.groupId user
                end in
  target ≫= (fun gid => groups w !! gid) = None ->
  (forall d, schemaValid d = true) ->
  let tags := extractTags (text payload) in
  let matched := matchedGroups tags w in
  let pid := fresh (dom (messages w)) in
  let primary := newMessage (userId socket) target (text payload) (file payload)
                   tags None matched.*1 (clock w (reads w)) in
  let stored := <[pid := primary]> (messages w) in
  let announced :=
    emitted w ++ [mkEmit (ToRoom (RGroup target)) "message:new"
                         (PMessage (Some (populate w pid primary)))] in
  let out := onMessageSend extractTags schemaValid client socket user payload w in
  messages w !! pid = None /\
  users out.2 = users w /\
  emitted out.2 = announced /\
  match matched with
  | [] => out.1 = Ok (mkAck true pid) /\ messages out.2 = stored
  | first :: _ =>
      out.1 = Throw (TypeError "Cannot read properties of null (reading 'name')") /\
      messages out.2 =
        <[fresh (dom stored) :=
            newMessage (userId socket) (Some first.1) (text payload) (file payload)
                       tags (Some pid) matched.*1 (clock w (S (reads w)))]> stored
  end.
Proof.
  intros Hup Hnone target Hmissing Hvalid tags matched pid primary stored announced out.
  subst out. split; [apply fresh_id_unused|].
  pose proof (onMessageSend_prefix w socket user payload matched Hup
                (resolveForwardedGroups_run payload _ w Hup Hnone)) as Hpre.
  cbv zeta in Hpre. rewrite (Hpre (Hvalid _)). clear Hpre.
  fold target tags pid primary.
  set (w2 := set_emitted _ _).
  assert (mongoUp w2 = true) as Hup2 by done.
  assert (Some (populate w pid primary) ≫= p_group = None) as Hname.
  { subst primary. cbn. destruct target as [gid|]; cbn in *; [by rewrite Hmissing|done]. }
  destruct matched as [|first rest].
  - match goal with |- context [bind ?a ?b w2] =>
      assert (bind a b w2 = (Ok (mkAck true pid), w2)) as Hrun end.
    { cbn [forEach]. unfold bind at 1, ret at 1.
      by rewrite (bind_ok _ _ _ _ _ (notifyAll_missing_group socket user payload target
                                       w2 Hup2 Hmissing)). }
    rewrite Hrun. done.
  - match goal with |- context [bind ?a ?b w2] =>
      destruct (bind a b w2) as [r w3] eqn:Hrun end.
    cbn [forEach] in Hrun.
    erewrite bind_throw in Hrun; [|erewrite bind_throw; [reflexivity|]].
    2: { by apply forwardCopy_without_name. }
    injection Hrun as <- <-. done.
Qed.

(** X29. Who is notified of a plain send.  For a [message:send] without
    tags and without explicit targets, to an existing group, with the
    store reachable and the schema accepting the document, whatever the
    cache does: after the one [message:new] broadcast, one
    [notification:new] is emitted to the personal room of every populated
    member of the group other than the sender, users before managers, once
    per occurrence; these are the existing users listed among the group's
    users or managers, whether connected or not, and never the sender;
    each of them has the notification appended to the durable list as
    many times, and no other user record changes.  The notification names
    the sender, carries the text, or [Sent a file] for an empty text, and
    is stamped with the clock reading that follows the one that stamped
    the message. *)
Theorem plain_send_notifies_members (w : World) (socket : Socket) (user : User.t)
  (payload : SendPayload) (gid : ObjectId) (g : Group.t) :
  mongoUp w = true ->
  targetGroups payload = [] ->
  extractTags (text payload) = [] ->
  match groupId payload with Some x => Some x | None => User.groupId user end
    = Some gid ->
  groups w !! gid = Some g ->
  (forall d, schemaValid d = true) ->
  let pid := fresh (dom (messages w)) in
  let primary := newMessage (userId socket) (Some gid) (text payload) (file payload)
                   [] None [] (clock w (reads w)) in
  let notice :=
    Notification.mk "message" ("New message from " +:+ User.username user)
      (notificationBody (text payload)) (Some gid) (Group.name g)
      (Some (userId socket)) (Some (User.username user)) (clock w (S (reads w))) in
  let to := recipients (userId socket) (populateMembers w g) in
  let out := onMessageSend extractTags schemaValid client socket user payload w in
  out.1 = Ok (mkAck true pid) /\
  messages out.2 = <[pid := primary]> (messages w) /\
  emitted out.2 =
    emitted w ++
    [mkEmit (ToRoom (RGroup (Some gid))) "message:new"
            (PMessage (Some (populate w pid primary)))] ++
    ((fun member => mkEmit (ToRoom (RUser member)) "notification:new"
                           (PNotification notice)) <$> to) /\
  (forall member, member ∈ to <->
     member <> userId socket /\
     (member ∈ Group.users g \/ member ∈ Group.managers g) /\
     is_Some (users w !! member)) /\
  (forall member u, users w !! member = Some u ->
     users out.2 !! member =
       Some (if decide (member = userId socket) then u
             else notified (occurrences member (Group.users g ++ Group.managers g))
                           notice u)).
Proof.
  intros Hup Hnone Htags Htarget Hg Hvalid pid primary notice to out. subst out.
  pose proof (onMessageSend_prefix w socket user payload [] Hup) as Hpre.
  cbv zeta in Hpre. rewrite Htarget, Htags in Hpre.
  rewrite Hpre; [|by rewrite <- (matchedGroups_no_tags w);
                    apply resolveForwardedGroups_run|apply Hvalid].
  clear Hpre. fold pid. change ([].*1) with (@nil ObjectId). fold primary.
  set (w2 := set_emitted _ _).
  assert (exists w',
    (forEach [] (forwardCopy schemaValid socket payload [] (Some gid) pid
                   (Some (populate w pid primary)) []) ;;;
     notifyAll client socket user payload (Some gid) [] ;;;
     ret (mkAck true pid)) w2 = (Ok (mkAck true pid), w') /\
    messages w' = messages w2 /\
    emitted w' = emitted w2 ++
      ((fun member => mkEmit (ToRoom (RUser member)) "notification:new"
                             (PNotification notice)) <$> to) /\
    users w' = appendAll notice to (users w)) as (w' & -> & Hm & He & Hu).
  { cbn [forEach]. unfold bind at 1, ret at 1. unfold bind at 1, notifyAll.
    unfold bind at 1. unfold bind at 1, Group_findById_populated.
    rewrite (query_up _ w2) by done. cbn [fst snd mbind option_bind].
    change (groups w2) with (groups w). rewrite Hg.
    cbn [fmap option_fmap option_map]. unfold bind at 1, Date_now. cbn [fst snd].
    match goal with |- context [notifyMembers client socket ?ms ?n ?w0] =>
      destruct (notifyMembers_run socket ms n w0)
        as (w3 & -> & Hm3 & _ & _ & _ & _ & _ & _ & _ & He3 & Hu3) end.
    cbn [forEach]. unfold ret. exists w3. split; [done|].
    split; [exact Hm3|]. split; [exact He3|].
    rewrite Hu3. subst w2. wsimpl. by rewrite Hup. }
  cbn [fst snd]. rewrite Hm, He, Hu. subst w2. wsimpl.
  split; [done|]. split; [done|]. split; [by rewrite <- app_assoc|].
  split; [intros member; apply recipients_spec|].
  intros member u Hmember.
  rewrite appendAll_lookup, Hmember. subst to. rewrite occurrences_recipients. cbn.
  destruct (decide (member = userId socket)); [by rewrite notified_zero|].
  by rewrite occurrences_populated.
Qed.

End MoreSocketProperties.

(** * Worked instances *)

Import MessageController NotificationService ChatSocket.

(** ** Edit, delete, sweep and listing on the sample store *)

Lemma editMessage_sender_and_window_witness :
  mongoUp sampleWorld = true /\
  messages sampleWorld !! 100%positive = Some original /\
  let out := editMessage mentionTags anyDocument (mkReqUser 1 member) 100 "edited"
                         sampleWorld in
  (exists res, out.1 = Ok res /\ status res = 200%nat) /\
  messages out.2 !! 100%positive =
    Some (Message.mk 1 (Some 10%positive) "edited" None [] None [20%positive]
            (Message.mkEdited true (Some 2010)) (Message.mkDeleted false None None)
            1000).
Proof.
  split; [reflexivity|]. split; [reflexivity|].
  destruct (editMessage_sender_and_window mentionTags anyDocument sampleWorld
              (mkReqUser 1 member) 100 "edited" original
              eq_refl eq_refl (fun _ => eq_refl))
    as (res & Hres & Hiff & _ & _ & _ & Hstored).
  assert (status res = 200%nat) as Hok.
  { apply Hiff. split; [reflexivity|]. vm_compute. discriminate. }
  split; [by exists res|]. exact (proj2 (Hstored Hok)).
Defined.

Lemma editMessage_cascade_witness :
  mongoUp sampleWorld = true /\
  io sampleWorld = true /\
  messages sampleWorld !! 100%positive = Some original /\
  let out := editMessage mentionTags anyDocument (mkReqUser 1 member) 100 "edited"
                         sampleWorld in
  messages out.2 !! 101%positive =
    Some (Message.mk 1 (Some 20%positive) "edited" None [] (Some 100%positive)
            [20%positive] (Message.mkEdited true (Some 2020))
            (Message.mkDeleted false None None) 1001) /\
  messages out.2 !! 102%positive = Some late.
Proof.
  split; [reflexivity|]. split; [reflexivity|]. split; [reflexivity|].
  assert (clock sampleWorld (reads sampleWorld) - Message.createdAt original
          <= 15 * 60 * 1000) as Hfresh by (vm_compute; discriminate).
  destruct (editMessage_cascade mentionTags anyDocument sampleWorld
              (mkReqUser 1 member) 100 "edited" original
              eq_refl eq_refl eq_refl eq_refl Hfresh (fun _ => eq_refl))
    as (_ & _ & Hcopies & _).
  split.
  - exact (Hcopies eq_refl 101%positive copy ltac:(discriminate) eq_refl).
  - exact (Hcopies eq_refl 102%positive late ltac:(discriminate) eq_refl).
Defined.

Lemma deleteMessage_tombstones_witness :
  mongoUp sampleWorld = true /\
  messages sampleWorld !! 100%positive = Some original /\
  let out := deleteMessage anyDocument (mkReqUser 3 manager) 100 sampleWorld in
  messages out.2 !! 100%positive = Some (tombstone 3 2000 original) /\
  messages out.2 !! 101%positive = Some (tombstone 3 2010 copy).
Proof.
  split; [reflexivity|]. split; [reflexivity|].
  destruct (deleteMessage_tombstones anyDocument sampleWorld (mkReqUser 3 manager)
              100 original eq_refl eq_refl (fun _ => eq_refl))
    as (res & _ & Hiff & _ & Hdone).
  destruct (Hdone (proj2 Hiff (or_intror (or_introl eq_refl)))) as [Htarget Hcopies].
  split; [exact Htarget|].
  exact (Hcopies eq_refl 101%positive copy eq_refl eq_refl).
Defined.

(** The target and its cascaded copy do not carry the same [deleted]
    sub-record: the two stamps are two readings of the clock. *)
Lemma deleteMessage_cascade_stamp_differs :
  let out := deleteMessage anyDocument (mkReqUser 1 member) 100 sampleWorld in
  exists target cascaded,
    messages out.2 !! 100%positive = Some target /\
    messages out.2 !! 101%positive = Some cascaded /\
    Message.forwardedFrom target = None /\
    Message.forwardedFrom cascaded = Some 100%positive /\
    Message.deleted target = Message.mkDeleted true (Some 1%positive) (Some 2000) /\
    Message.deleted cascaded = Message.mkDeleted true (Some 1%positive) (Some 2010) /\
    Message.deleted cascaded <> Message.deleted target.
Proof.
  do 2 eexists. split; [vm_compute; reflexivity|]. split; [vm_compute; reflexivity|].
  repeat split. discriminate.
Qed.

Lemma cleanup_removes_expired_tombstones_witness :
  mongoUp sweepWorld = true /\
  let out := cleanupDeletedMessages sweepWorld in
  out.1 = Ok tt /\
  messages out.2 !! 100%positive = None /\
  messages out.2 !! 101%positive = Some stillKept /\
  messages out.2 !! 102%positive = Some late.
Proof.
  split; [reflexivity|].
  destruct (cleanup_removes_expired_tombstones sweepWorld) as (Hok & Hup & _).
  destruct (Hup eq_refl) as (_ & Hgone & Hkept & Hlive).
  split; [exact Hok|]. split; [|split].
  - exact (Hgone 100%positive sweptOut (Some 1%positive) eq_refl eq_refl).
  - exact (Hkept 101%positive stillKept (Some 1%positive) eq_refl eq_refl).
  - exact (Hlive 102%positive late eq_refl eq_refl).
Defined.


(** ** Notifications *)

(** The durable append is committed, the cache holds nothing, and the call
    answers [false]. *)
Lemma cache_write_failure_is_reported :
  let out := sendNotification ttlRedis 2 greeting readOnlyWorld in
  User.notifications <$> users out.2 !! 2%positive = Some [greeting] /\
  liveEntry 2 (redis out.2) = None /\
  out.1 = Ok false.
Proof. vm_compute. repeat split. Qed.

Lemma sendNotification_cache_write_failure_witness :
  mongoUp readOnlyWorld = true /\
  redis_get ttlRedis 2 (redis readOnlyWorld) = (Ok None, redis readOnlyWorld) /\
  redis_setex ttlRedis 2 (24 * 60 * 60) (capped ([] ++ [greeting]))
              (redis readOnlyWorld)
    = (Throw RedisCommandError, redis readOnlyWorld) /\
  let out := sendNotification ttlRedis 2 greeting readOnlyWorld in
  out.1 = Ok false /\
  console out.2 = [LogError "Error sending notification:" RedisCommandError].
Proof.
  split; [reflexivity|]. split; [reflexivity|]. split; [reflexivity|].
  destruct (sendNotification_cache_write_failure ttlRedis readOnlyWorld 2 greeting
              None (redis readOnlyWorld) (redis readOnlyWorld) RedisCommandError
              eq_refl eq_refl eq_refl) as (Hout & _ & Hlog).
  split; [exact Hout|exact Hlog].
Defined.

Lemma notifications_record_then_fetch_witness :
  mongoUp sampleWorld = true /\
  (forall c, rfail (redis sampleWorld) c = false) /\
  let recorded := sendNotification ttlRedis 2 greeting sampleWorld in
  recorded.1 = Ok true /\
  exists l, (getNotifications ttlRedis 2 recorded.2).1 = Ok l /\ last l = Some greeting.
Proof.
  split; [reflexivity|]. split; [intros c; reflexivity|].
  destruct (notifications_record_then_fetch sampleWorld 2 greeting
              eq_refl (fun _ => eq_refl)) as ((Hok & Hfetch) & _).
  split; [exact Hok|].
  destruct (Hfetch 0 (sendNotification ttlRedis 2 greeting sampleWorld).2
              ltac:(lia) eq_refl) as (l & Hl & _ & Hlast).
  exists l. split; [exact Hl|exact Hlast].
Defined.

(** With the development mock of [config/redis.js] in place of a cache, no
    fetch is ever answered from the cache: after a record the answer is the
    durable list, and for a user the store does not know it is empty. *)
Lemma mock_cache_never_serves :
  let known := sendNotification mockRedis 2 greeting sampleWorld in
  let unknown := sendNotification mockRedis 9 greeting sampleWorld in
  known.1 = Ok true /\
  (getNotifications mockRedis 2 known.2).1 = Ok [greeting] /\
  (getNotifications mockRedis 2 (set_users (users sampleWorld) known.2)).1 = Ok [] /\
  unknown.1 = Ok true /\
  (getNotifications mockRedis 9 unknown.2).1 = Ok [].
Proof. vm_compute. repeat split. Qed.

(** ** Presence and fan-out *)

Lemma presence_transitions_witness :
  mongoUp sampleWorld = true /\
  users sampleWorld !! 1%positive = Some alice /\
  let c := onConnection aliceSocket sampleWorld in
  let d := onDisconnect aliceSocket alice sampleWorld in
  users c.2 !! 1%positive
    = Some (User.mk "alice" member (Some 10%positive) true (Some 2000) None []) /\
  users d.2 !! 1%positive
    = Some (User.mk "alice" member (Some 10%positive) false (Some 2000) None []) /\
  exists es es',
    emitted c.2 = es /\ emitted d.2 = es' /\
    summary <$> es =
      [(ToRoomExcept (RGroup (Some 10%positive)) 7%positive, "user:online", Some true);
       (ToRoomExcept RAdmin 7%positive, "user:online", Some true);
       (ToSocket 7%positive, "user:online", Some true);
       (ToAll, "user:status:changed", Some true)] /\
    summary <$> es' =
      [(ToRoomExcept (RGroup (Some 10%positive)) 7%positive, "user:offline", Some false);
       (ToRoomExcept RAdmin 7%positive, "user:offline", Some false);
       (ToSocket 7%positive, "user:offline", Some false);
       (ToAll, "user:status:changed", Some false)].
Proof.
  split; [reflexivity|]. split; [reflexivity|].
  destruct (presence_transitions sampleWorld sampleWorld aliceSocket alice alice
              eq_refl eq_refl eq_refl eq_refl)
    as (_ & Hon & _ & (es & Hes & Hsum) & _ & Hoff & _ & (es' & Hes' & Hsum') & _).
  split; [exact Hon|]. split; [exact Hoff|].
  exists es, es'. split; [exact Hes|]. split; [exact Hes'|].
  split; [exact Hsum|exact Hsum'].
Defined.

(** A user without a group is announced to three destinations, not four. *)
Lemma connect_without_group_announces_three :
  users sampleWorld !! 4%positive = Some dave /\
  let c := onConnection daveSocket sampleWorld in
  c.1 = Ok (Some dave) /\
  summary <$> emitted c.2 =
    [(ToRoomExcept RAdmin 9%positive, "user:online", Some true);
     (ToSocket 9%positive, "user:online", Some true);
     (ToAll, "user:status:changed", Some true)].
Proof. vm_compute. repeat split. Qed.

Lemma send_fans_out_per_matched_group_witness :
  mongoUp sampleWorld = true /\
  groups sampleWorld !! 10%positive = Some north /\
  mentionTags "hello @G2" = ["G2"] /\
  matchedGroups ["G2"] sampleWorld = [(20%positive, south)] /\
  let out := onMessageSend mentionTags anyDocument mockRedis aliceSocket alice
               (mkSend "hello @G2" None (Some 10%positive) []) sampleWorld in
  size (messages out.2) = (size (messages sampleWorld) + 2)%nat /\
  exists es, emitted out.2 = es /\
    broadcasts es = [ToRoom (RGroup (Some 10%positive));
                     ToRoom (RGroup (Some 20%positive))].
Proof.
  split; [reflexivity|]. split; [reflexivity|]. split; [reflexivity|].
  split; [reflexivity|].
  destruct (send_fans_out_per_matched_group mentionTags anyDocument mockRedis
              sampleWorld aliceSocket alice
              (mkSend "hello @G2" None (Some 10%positive) []) 10 north
              eq_refl eq_refl eq_refl eq_refl (fun _ _ _ _ => eq_refl))
    as (pid & primary & es & _ & _ & _ & _ & _ & Hsize & _ & _ & _ & Hes & Hbs & _).
  split; [exact Hsize|]. exists es. split; [exact Hes|exact Hbs].
Defined.

(** Two groups share the region [G2]: the tag matches one distinct region,
    and the send creates three records and three broadcasts, not two. *)
Lemma send_to_shared_region_creates_a_copy_per_group :
  let out := onMessageSend mentionTags anyDocument mockRedis aliceSocket alice
               (mkSend "hello @G2" None (Some 10%positive) []) sharedRegionWorld in
  mentionTags "hello @G2" = ["G2"] /\
  matchedRegions ["G2"] sharedRegionWorld = ["G2"] /\
  size (messages out.2) = (size (messages sharedRegionWorld) + 3)%nat /\
  broadcasts (emitted out.2) =
    [ToRoom (RGroup (Some 10%positive)); ToRoom (RGroup (Some 30%positive));
     ToRoom (RGroup (Some 20%positive))].
Proof. vm_compute. repeat split. Qed.

(** A send to a group id that matches no group: the first forwarded copy is
    persisted, then [populatedMsg.groupId.name] throws; the copy is never
    broadcast, the remaining groups get nothing and nothing is acknowledged. *)
Example send_to_missing_group_stops_forwarding :
  let out := onMessageSend mentionTags anyDocument mockRedis aliceSocket alice
               (mkSend "hello @G2" None (Some 99%positive) []) sampleWorld in
  out.1 = Throw (TypeError "Cannot read properties of null (reading 'name')") /\
  size (messages out.2) = (size (messages sampleWorld) + 2)%nat /\
  broadcasts (emitted out.2) = [ToRoom (RGroup (Some 99%positive))].
Proof. vm_compute. repeat split. Qed.

Lemma socket_send_without_content_not_rejected_witness :
  mongoUp sampleWorld = true /\
  groups sampleWorld !! 10%positive = Some north /\
  (let out := onMessageSend mentionTags anyDocument mockRedis aliceSocket alice
                (mkSend EmptyString None (Some 10%positive) []) sampleWorld in
   exists pid primary es,
     out.1 = Ok (mkAck true pid) /\
     messages sampleWorld !! pid = None /\
     messages out.2 !! pid = Some primary /\
     Message.text primary = EmptyString /\ Message.file primary = None /\
     emitted out.2 = emitted sampleWorld ++ es /\
     ToRoom (RGroup (Some 10%positive)) ∈ broadcasts es) /\
  (let out := onMessageSend mentionTags requiresContent mockRedis aliceSocket alice
                (mkSend EmptyString None (Some 10%positive) []) sampleWorld in
   out.1 = Throw ValidationError /\
   messages out.2 = messages sampleWorld /\ emitted out.2 = emitted sampleWorld).
Proof.
  split; [reflexivity|]. split; [reflexivity|]. split.
  - exact (proj1 (socket_send_without_content_not_rejected mentionTags anyDocument
                    mockRedis sampleWorld aliceSocket alice (Some 10%positive) 10
                    north eq_refl eq_refl eq_refl) (fun _ => eq_refl)).
  - apply (proj2 (socket_send_without_content_not_rejected mentionTags
                    requiresContent mockRedis sampleWorld aliceSocket alice
                    (Some 10%positive) 10 north eq_refl eq_refl eq_refl)).
    intros d Htext Hfile. unfold requiresContent. by rewrite Htext, Hfile.
Defined.

(** The empty send on the sample store: one record more, one broadcast, and
    a [Sent a file] notification in bob's durable list. *)
Example socket_send_without_content_side_effects :
  let out := onMessageSend mentionTags anyDocument mockRedis aliceSocket alice
               (mkSend EmptyString None (Some 10%positive) []) sampleWorld in
  size (messages out.2) = S (size (messages sampleWorld)) /\
  broadcasts (emitted out.2) = [ToRoom (RGroup (Some 10%positive))] /\
  fmap Notification.message <$> (User.notifications <$> users out.2 !! 2%positive)
    = Some ["Sent a file"].
Proof. vm_compute. repeat split. Qed.

(** The same request over HTTP is refused with status 400 and changes
    nothing. *)
Example http_send_without_content_is_refused :
  sendMessage mentionTags anyDocument (mkReqUser 1 member) (Some EmptyString)
              (Some 10%positive) None sampleWorld
  = (Ok (mkResponse 400 (BError "Message text or file is required")), sampleWorld).
Proof. reflexivity. Qed.

(** ** The rest of the handlers, on the sample store *)

Lemma cache_keeps_latest_hundred_witness :
  mongoUp sampleWorld = true /\
  (forall c, rfail (redis sampleWorld) c = false) /\
  liveEntry 2 (redis (sendNotification ttlRedis 2 greeting sampleWorld).2)
    = Some [greeting].
Proof.
  split; [reflexivity|]. split; [intros c; reflexivity|].
  destruct (cache_keeps_latest_hundred sampleWorld 2 greeting eq_refl
              (fun _ => eq_refl)) as (l & Hl & _ & _ & _ & Hshort).
  rewrite Hl. f_equal. apply Hshort. change (0 < 100)%nat. lia.
Defined.

Lemma sendNotification_outcome_witness :
  mongoUp storeDownWorld = false /\
  let out := sendNotification ttlRedis 2 greeting storeDownWorld in
  out.1 = Ok false /\
  redis out.2 = redis storeDownWorld /\
  User.notifications <$> users out.2 !! 2%positive = Some [reminder].
Proof.
  split; [reflexivity|]. cbv zeta.
  destruct (sendNotification_outcome ttlRedis storeDownWorld 2 greeting)
    as (_ & _ & Hdown & _).
  rewrite (Hdown eq_refl). repeat split.
Defined.

Lemma getNotifications_failure_modes_witness :
  redis_get ttlRedis 2 (redis cacheDownWorld)
    = (Throw RedisCommandError, redis cacheDownWorld) /\
  User.notifications <$> users cacheDownWorld !! 2%positive = Some [reminder] /\
  (getNotifications ttlRedis 2 cacheDownWorld).1 = Ok [].
Proof.
  split; [reflexivity|]. split; [reflexivity|].
  destruct (getNotifications_failure_modes ttlRedis cacheDownWorld 2)
    as (_ & Hfail & _).
  exact (proj1 (Hfail RedisCommandError (redis cacheDownWorld) eq_refl)).
Defined.

Lemma cold_cache_record_masks_history_witness :
  mongoUp historyWorld = true /\
  (forall c, rfail (redis historyWorld) c = false) /\
  liveEntry 2 (redis historyWorld) = None /\
  users historyWorld !! 2%positive = Some (User.set_notifications [reminder] bob) /\
  let recorded := sendNotification ttlRedis 2 greeting historyWorld in
  User.notifications <$> users recorded.2 !! 2%positive = Some [reminder; greeting] /\
  (getNotifications ttlRedis 2 recorded.2).1 = Ok [greeting].
Proof.
  split; [reflexivity|]. split; [intros c; reflexivity|]. split; [reflexivity|].
  split; [reflexivity|].
  exact (proj2 (cold_cache_record_masks_history historyWorld 2 greeting
                  (User.set_notifications [reminder] bob)
                  eq_refl (fun _ => eq_refl) eq_refl eq_refl)).
Defined.

Lemma clear_then_fetch_is_empty_witness :
  mongoUp historyWorld = true /\
  (forall c, rfail (redis historyWorld) c = false) /\
  let cleared := clearNotifications ttlRedis 2 historyWorld in
  cleared.1 = Ok true /\
  User.notifications <$> users cleared.2 !! 2%positive = Some [] /\
  (getNotifications ttlRedis 2 cleared.2).1 = Ok [].
Proof.
  split; [reflexivity|]. split; [intros c; reflexivity|].
  destruct (clear_then_fetch_is_empty historyWorld 2 eq_refl (fun _ => eq_refl))
    as (_ & Hok & _ & Hempty & _ & Hfetch & _).
  split; [exact Hok|]. split; [|exact Hfetch].
  cbv zeta. by rewrite (Hempty _ eq_refl).
Defined.

Lemma clear_outcome_witness :
  mongoUp cacheDownWorld = true /\
  redis_del ttlRedis 2 (redis cacheDownWorld)
    = (Throw RedisCommandError, redis cacheDownWorld) /\
  (clearNotifications ttlRedis 2 cacheDownWorld).1 = Ok false /\
  User.notifications <$> users (clearNotifications ttlRedis 2 cacheDownWorld).2
                           !! 2%positive = Some [reminder].
Proof.
  split; [reflexivity|]. split; [reflexivity|].
  destruct (clear_outcome ttlRedis cacheDownWorld 2)
    as (_ & _ & _ & _ & _ & _ & Hkept & _).
  assert ((clearNotifications ttlRedis 2 cacheDownWorld).1 = Ok false) as Hno
    by reflexivity.
  split; [exact Hno|]. by rewrite (Hkept Hno).
Defined.

Lemma clear_with_store_down_evicts_only_witness :
  mongoUp storeDownWorld = false /\
  (forall c, rfail (redis storeDownWorld) c = false) /\
  users storeDownWorld !! 2%positive = Some (User.set_notifications [reminder] bob) /\
  let cleared := clearNotifications ttlRedis 2 storeDownWorld in
  cleared.1 = Ok false /\
  (getNotifications ttlRedis 2 (set_redis (redis cleared.2) historyWorld)).1
    = Ok [reminder].
Proof.
  split; [reflexivity|]. split; [intros c; reflexivity|]. split; [reflexivity|].
  destruct (clear_with_store_down_evicts_only storeDownWorld 2
              (User.set_notifications [reminder] bob)
              eq_refl (fun _ => eq_refl) eq_refl)
    as (Hfalse & _ & _ & Husers & Hback).
  split; [exact Hfalse|]. apply Hback; [reflexivity| |reflexivity].
  by rewrite Husers.
Defined.

Lemma sendMessage_stores_one_record_witness :
  mongoUp sampleWorld = true /\
  groups sampleWorld !! 10%positive = Some north /\
  1%positive ∈ Group.users north /\
  let out := sendMessage mentionTags anyDocument (mkReqUser 1 member)
               (Some "news for @G2") (Some 10%positive) (Some EmptyString)
               sampleWorld in
  (exists data, out.1 = Ok (mkResponse 201 (BSent data))) /\
  size (messages out.2) = S (size (messages sampleWorld)) /\
  users out.2 = users sampleWorld /\
  broadcasts (emitted out.2) = [ToRoom (RGroup (Some 10%positive))] /\
  Message.file <$> messages out.2 !! fresh (dom (messages sampleWorld)) = Some None.
Proof.
  assert (1%positive ∈ Group.users north) as Hmember by (by repeat constructor).
  split; [reflexivity|]. split; [reflexivity|]. split; [exact Hmember|].
  assert ((exists t, Some "news for @G2" = Some t /\ t <> EmptyString) \/
          (exists f : FileRef, Some EmptyString = Some f /\ f <> EmptyString)) as Hcontent
    by (left; by eexists).
  destruct (sendMessage_stores_one_record mentionTags anyDocument sampleWorld
              (mkReqUser 1 member) (Some "news for @G2") 10 (Some EmptyString) north
              eq_refl
              Hcontent
              eq_refl (or_introl Hmember) eq_refl)
    as (Hok & _ & Hstored & Hsize & Husers & Hemit).
  split; [by eexists|]. split; [exact Hsize|]. split; [exact Husers|].
  cbv zeta. split; [by rewrite Hemit|].
  rewrite Hstored, lookup_insert_eq. reflexivity.
Defined.

Lemma forwardMessage_copies_to_existing_groups_witness :
  mongoUp sampleWorld = true /\
  messages sampleWorld !! 102%positive = Some late /\
  forwardTargets [20; 99; 20]%positive sampleWorld = [(20%positive, south)] /\
  let out := forwardMessage anyDocument (mkReqUser 4 member) 102
               [20; 99; 20]%positive sampleWorld in
  out.1 = Ok (mkAnswer 200 (FForwarded "Message forwarded successfully" 1)) /\
  size (messages out.2) = S (size (messages sampleWorld)) /\
  exists es, emitted out.2 = es /\ broadcasts es = [ToRoom (RGroup (Some 20%positive))].
Proof.
  split; [reflexivity|]. split; [reflexivity|]. split; [reflexivity|].
  destruct (forwardMessage_copies_to_existing_groups anyDocument sampleWorld
              (mkReqUser 4 member) 102 [20; 99; 20]%positive late
              eq_refl eq_refl (fun _ => eq_refl))
    as (Hok & _ & _ & Hsize & _ & _ & _ & es & Hes & Hbs).
  split; [exact Hok|]. split; [by rewrite Hsize|].
  exists es. split; [exact Hes|exact Hbs].
Defined.

Lemma forwarded_copies_follow_the_original_witness :
  mongoUp sampleWorld = true /\
  messages sampleWorld !! 102%positive = Some late /\
  let w1 := (forwardMessage anyDocument (mkReqUser 4 member) 102 [20%positive]
               sampleWorld).2 in
  let edited := editMessage mentionTags anyDocument (mkReqUser 2 member) 102
                            "no news" w1 in
  exists id,
    messages sampleWorld !! id = None /\
    Message.text <$> messages w1 !! id = Some "[Forwarded] any news?" /\
    Message.text <$> messages edited.2 !! id = Some "no news".
Proof.
  split; [reflexivity|]. split; [reflexivity|]. cbv zeta.
  set (w1 := (forwardMessage anyDocument (mkReqUser 4 member) 102 [20%positive]
                sampleWorld).2).
  set (id := fresh (dom (messages sampleWorld))).
  assert (exists m, messages w1 !! id = Some m) as [m Hm]
    by (eexists; vm_compute; reflexivity).
  destruct (forwarded_copies_follow_the_original mentionTags anyDocument sampleWorld
              (mkReqUser 4 member) (mkReqUser 2 member) 102 [20%positive] late
              "no news" eq_refl eq_refl eq_refl eq_refl (fun _ => eq_refl)
              id m Hm (fresh_id_unused sampleWorld))
    as (Htext & Hedit & _).
  destruct Hedit as (m' & Hm' & Hnew & _); [vm_compute; discriminate|].
  exists id. split; [apply fresh_id_unused|].
  fold w1 in Hm'. split.
  - rewrite Hm. cbn. by rewrite Htext.
  - rewrite Hm'. cbn. by rewrite Hnew.
Defined.

Lemma delete_then_sweep_witness :
  mongoUp sampleWorld = true /\
  messages sampleWorld !! 100%positive = Some original /\
  mongoUp dayLaterWorld = true /\
  messages dayLaterWorld =
    messages (deleteMessage anyDocument (mkReqUser 3 manager) 100 sampleWorld).2 /\
  let swept := cleanupDeletedMessages dayLaterWorld in
  messages swept.2 !! 100%positive = None /\
  messages swept.2 !! 101%positive = None /\
  messages swept.2 !! 102%positive = Some late.
Proof.
  split; [reflexivity|]. split; [reflexivity|]. split; [reflexivity|].
  split; [reflexivity|].
  destruct (delete_then_sweep anyDocument sampleWorld dayLaterWorld
              (mkReqUser 3 manager) 100 original
              eq_refl eq_refl eq_refl (fun _ => eq_refl) eq_refl eq_refl)
    as (Hgone & _ & Hcopies & Hothers).
  split; [apply Hgone; vm_compute; reflexivity|]. split.
  - apply (Hcopies eq_refl 101%positive copy eq_refl eq_refl). vm_compute. reflexivity.
  - apply (Hothers 102%positive late eq_refl); [discriminate|discriminate|reflexivity].
Defined.


Lemma getMessages_lists_nothing_witness :
  mongoUp sampleWorld = true /\
  groups sampleWorld !! 10%positive = Some north /\
  1%positive ∈ Group.users north /\
  users sampleWorld !! 1%positive = Some alice /\
  exists visible more w',
    getMessages (mkReqUser 1 member) 10 1 100 None sampleWorld =
      (Ok (mkResponse 200 (BMessages [] 1 100 (length visible) more None)), w') /\
    (102%positive, late) ∈ visible /\
    more = true.
Proof.
  assert (1%positive ∈ Group.users north) as Hmember by (by repeat constructor).
  split; [reflexivity|]. split; [reflexivity|]. split; [exact Hmember|].
  split; [reflexivity|].
  destruct (getMessages_lists_nothing sampleWorld (mkReqUser 1 member) 10 1 100
              None north alice eq_refl eq_refl (or_introl Hmember) eq_refl
              ltac:(lia) ltac:(lia))
    as (visible & more & w' & Hrun & _ & Hvisible & _ & Hfirst).
  exists visible, more, w'. split; [exact Hrun|].
  assert ((102%positive, late) ∈ visible) as Hlate.
  { apply Hvisible. split; [reflexivity|]. split; [reflexivity|].
    split; [reflexivity|]. split; [vm_compute; discriminate|discriminate]. }
  split; [exact Hlate|]. apply (Hfirst eq_refl). intros Hnil.
  rewrite Hnil in Hlate. by apply not_elem_of_nil in Hlate.
Defined.

Lemma markAsDelivered_records_once_witness :
  mongoUp sampleWorld = true /\
  let out := markAsDelivered (mkReqUser 2 member) [100%positive] sampleWorld
               sampleTracking in
  out.2 !! 100%positive = Some (Tracking.mk [2%positive] [] "delivered") /\
  markAsDelivered (mkReqUser 2 member) [100%positive] sampleWorld out.2 = out.
Proof.
  split; [reflexivity|].
  destruct (markAsDelivered_records_once sampleWorld (mkReqUser 2 member)
              [100%positive] sampleTracking eq_refl)
    as (_ & _ & _ & _ & Hagain).
  split; [reflexivity|exact Hagain].
Defined.

Lemma delivery_after_seen_resets_status_witness :
  mongoUp sampleWorld = true /\
  sampleTracking !! 100%positive = Some (Tracking.mk [] [] "sent") /\
  let seen := markAsSeen (mkReqUser 2 member) [100%positive] sampleWorld
                sampleTracking in
  let delivered := markAsDelivered (mkReqUser 3 manager) [100%positive] sampleWorld
                     seen.2 in
  Tracking.status <$> seen.2 !! 100%positive = Some "seen" /\
  Tracking.status <$> delivered.2 !! 100%positive = Some "delivered" /\
  Tracking.seenBy <$> delivered.2 !! 100%positive = Some [2%positive].
Proof.
  split; [reflexivity|]. split; [reflexivity|].
  destruct (delivery_after_seen_resets_status sampleWorld (mkReqUser 2 member)
              (mkReqUser 3 manager) [100%positive] sampleTracking 100
              (Tracking.mk [] [] "sent") eq_refl eq_refl
              ltac:(by repeat constructor) ltac:(apply not_elem_of_nil)
              ltac:(apply not_elem_of_nil))
    as ((t1 & Ht1 & Hs1 & _) & (t2 & Ht2 & Hs2 & _)).
  cbv zeta. split; [by rewrite Ht1; cbn; rewrite Hs1|].
  split; [by rewrite Ht2; cbn; rewrite Hs2|]. reflexivity.
Defined.

Lemma group_join_stores_notices_witness :
  mongoUp sampleWorld = true /\
  groups sampleWorld !! 10%positive = Some north /\
  let joined := (onGroupJoin mockRedis daveSocket dave (Some 10%positive)).2
                  sampleWorld in
  joined.1 = Ok tt /\
  emitted joined.2 = [] /\
  fmap Notification.title <$> (User.notifications <$> users joined.2 !! 1%positive)
    = Some ["dave joined the group"] /\
  User.notifications <$> users joined.2 !! 4%positive = Some [].
Proof.
  split; [reflexivity|]. split; [reflexivity|].
  destruct (group_join_stores_notices mockRedis sampleWorld daveSocket dave 10 north
              eq_refl eq_refl)
    as (Hok & Hemit & [Hstored _] & _).
  split; [exact Hok|]. split; [exact Hemit|]. cbv zeta.
  rewrite (Hstored 1%positive alice eq_refl), (Hstored 4%positive dave eq_refl).
  split; reflexivity.
Defined.

Lemma presence_failure_modes_witness :
  mongoUp storeDownWorld = false /\
  onConnection aliceSocket storeDownWorld = (Throw MongoNetworkError, storeDownWorld) /\
  emitted (onDisconnect aliceSocket alice storeDownWorld).2 = [].
Proof.
  split; [reflexivity|].
  destruct (presence_failure_modes storeDownWorld aliceSocket alice) as [Hdown _].
  destruct (Hdown eq_refl) as (Hconnect & _ & _ & Hemit).
  split; [exact Hconnect|exact Hemit].
Defined.

Lemma send_with_explicit_targets_witness :
  mongoUp sampleWorld = true /\
  groups sampleWorld !! 10%positive = Some north /\
  mentionTags "plain words" = [] /\
  forwardTargets [20%positive] sampleWorld = [(20%positive, south)] /\
  let out := onMessageSend mentionTags anyDocument mockRedis aliceSocket alice
               (mkSend "plain words" None (Some 10%positive) [20%positive])
               sampleWorld in
  size (messages out.2) = (size (messages sampleWorld) + 2)%nat /\
  exists es, emitted out.2 = es /\
    broadcasts es = [ToRoom (RGroup (Some 10%positive));
                     ToRoom (RGroup (Some 20%positive))].
Proof.
  split; [reflexivity|]. split; [reflexivity|]. split; [reflexivity|].
  split; [reflexivity|].
  destruct (send_with_explicit_targets mentionTags anyDocument mockRedis sampleWorld
              aliceSocket alice
              (mkSend "plain words" None (Some 10%positive) [20%positive]) 10 north
              eq_refl ltac:(discriminate) eq_refl eq_refl (fun _ => eq_refl))
    as (pid & primary & es & _ & _ & _ & _ & _ & _ & Hsize & _ & _ & Hes & Hbs).
  split; [exact Hsize|]. exists es. split; [exact Hes|exact Hbs].
Defined.

Lemma send_to_missing_group_witness :
  mongoUp sampleWorld = true /\
  groups sampleWorld !! 99%positive = None /\
  matchedGroups (mentionTags "hello @G2") sampleWorld = [(20%positive, south)] /\
  let out := onMessageSend mentionTags anyDocument mockRedis aliceSocket alice
               (mkSend "hello @G2" None (Some 99%positive) []) sampleWorld in
  out.1 = Throw (TypeError "Cannot read properties of null (reading 'name')") /\
  users out.2 = users sampleWorld /\
  broadcasts (emitted out.2) = [ToRoom (RGroup (Some 99%positive))].
Proof.
  split; [reflexivity|]. split; [reflexivity|]. split; [reflexivity|].
  destruct (send_to_missing_group mentionTags anyDocument mockRedis sampleWorld
              aliceSocket alice (mkSend "hello @G2" None (Some 99%positive) [])
              eq_refl eq_refl eq_refl (fun _ => eq_refl))
    as (_ & Husers & Hemit & Hthrow & _).
  split; [exact Hthrow|]. split; [exact Husers|]. cbv zeta. by rewrite Hemit.
Defined.

Lemma plain_send_notifies_members_witness :
  mongoUp sampleWorld = true /\
  mentionTags "hello" = [] /\
  groups sampleWorld !! 10%positive = Some north /\
  let out := onMessageSend mentionTags anyDocument mockRedis aliceSocket alice
               (mkSend "hello" None None []) sampleWorld in
  target <$> filter (fun e => event e = "notification:new") (emitted out.2)
    = [ToRoom (RUser 2%positive); ToRoom (RUser 3%positive)] /\
  User.notifications <$> users out.2 !! 1%positive = Some [] /\
  fmap Notification.message <$> (User.notifications <$> users out.2 !! 3%positive)
    = Some ["hello"].
Proof.
  split; [reflexivity|]. split; [reflexivity|]. split; [reflexivity|].
  destruct (plain_send_notifies_members mentionTags anyDocument mockRedis sampleWorld
              aliceSocket alice (mkSend "hello" None None []) 10 north
              eq_refl eq_refl eq_refl eq_refl eq_refl (fun _ => eq_refl))
    as (_ & _ & Hemit & _ & Husers).
  cbv zeta. rewrite Hemit.
  rewrite (Husers 1%positive alice eq_refl), (Husers 3%positive carol eq_refl).
  repeat split.
Defined.
